(** * Dynamic data-type bootstrap and bulk address-space load of opcua-asyncio

    A shallow embedding of
      - asyncua/common/structures104.py
      - asyncua/server/standard_address_space/standard_address_space.py
    and the properties of their dependency ordering, schema flattening,
    code generation and deferred insertion.

    Conventions of the embedding.
      - A Python [str] is a list of Unicode code points ([pystr]); the
        literals of the source are written [str "..."].
      - The Unicode table behind the regular-expression class [\w] is not
        part of the program: it is the parameter [isalnum].
      - Generated Python source is kept as the structure the generator
        writes (class header, [ua_switches], [ua_types], the statements of
        [__init__]); the leaves are the texts the source formats.
      - Code that can raise returns an [Outcome]; an exception carries
        the values its message is formatted from. *)

From Stdlib Require Import List ZArith NArith Bool Arith Lia.
From Stdlib Require Import String Ascii DecimalString.
From Stdlib Require Import Permutation.
Import ListNotations.

Set Implicit Arguments.
Local Open Scope Z_scope.

(* ================================================================== *)
(** ** Python strings *)

Definition pystr := list N.

Definition str (s : string) : pystr :=
  List.map N_of_ascii (list_ascii_of_string s).

Definition pystr_eqb (a b : pystr) : bool :=
  if list_eq_dec N.eq_dec a b then true else false.

(** [str(n)] of a Python int. *)
Definition str_of_int (z : Z) : pystr :=
  str (NilZero.string_of_int (Z.to_int z)).

(** Membership in a tuple of string literals: [x in ("a", "b", ...)]. *)
Definition str_in (x : pystr) (l : list pystr) : bool :=
  existsb (pystr_eqb x) l.

(* ================================================================== *)
(** ** Exceptions *)

(** A call either returns or raises; [E] is the type of the exceptions
    of the module at hand, each carrying the values its message formats. *)
Inductive Outcome (E A : Type) : Type :=
| Returned (a : A)
| Raised (e : E).
Arguments Returned {E A} a.
Arguments Raised {E A} e.

Definition bind {E A B : Type} (m : Outcome E A) (k : A -> Outcome E B)
  : Outcome E B :=
  match m with
  | Returned a => k a
  | Raised e => Raised e
  end.

Notation "x <- m ;; k" := (bind m (fun x => k))
  (at level 61, m at next level, right associativity).

(* ================================================================== *)
(** ** [clean_name] *)

Definition underscore : N := 95%N.

(** The class [[0-9]] of a [str] pattern: the ten ASCII digits. *)
Definition is_digit09 (c : N) : bool := ((48 <=? c) && (c <=? 57))%N.

Section CleanName.

(** [str.isalnum] on one code point, from the Unicode database. *)
Variable isalnum : N -> bool.

(** [\w] of a [str] pattern: alphanumeric or the underscore. *)
Definition is_word (c : N) : bool := isalnum c || (c =? underscore)%N.

(** [re.sub(r'\W+', '_', s)]: every maximal run of non-word characters
    becomes one underscore.  [in_run] tells that the previous character
    belonged to the run being replaced. *)
Fixpoint sub_nonword (in_run : bool) (s : pystr) : pystr :=
  match s with
  | [] => []
  | c :: t =>
      if is_word c then c :: sub_nonword false t
      else if in_run then sub_nonword true t
           else underscore :: sub_nonword true t
  end.

Fixpoint take_digits (s : pystr) : pystr :=
  match s with
  | c :: t => if is_digit09 c then c :: take_digits t else []
  | [] => []
  end.

Fixpoint drop_digits (s : pystr) : pystr :=
  match s with
  | c :: t => if is_digit09 c then drop_digits t else s
  | [] => []
  end.

(** [re.sub(r'^[0-9]+', r'_\g<0>', s)]: the anchor only matches at the
    start of the string, so at most the leading run of digits is
    rewritten, to an underscore followed by the run itself. *)
Definition sub_leading_digits (s : pystr) : pystr :=
  match take_digits s with
  | [] => s
  | d => underscore :: d ++ drop_digits s
  end.

Definition clean_name (name : pystr) : pystr :=
  let newname := sub_nonword false name in
  let newname := sub_leading_digits newname in
  newname.

(** Whether [clean_name] logs its warning ([name != newname]). *)
Definition clean_name_renames (name : pystr) : bool :=
  negb (pystr_eqb name (clean_name name)).

End CleanName.

(* ================================================================== *)
(** ** The [ua] data model used by the two modules *)

(** The identifier of a [ua.NodeId]: numeric, string, GUID or opaque. *)
Inductive NodeIdIdentifier : Type :=
| IdNumeric (i : Z)
| IdString (s : pystr)
| IdGuid (g : N)
| IdByteString (b : list N).

Record NodeId : Type := mkNodeId {
  Identifier : NodeIdIdentifier;
  NamespaceIndex : Z
}.

Definition Identifier_eqb (a b : NodeIdIdentifier) : bool :=
  match a, b with
  | IdNumeric i, IdNumeric j => (i =? j)
  | IdString s, IdString t => pystr_eqb s t
  | IdGuid g, IdGuid h => (g =? h)%N
  | IdByteString s, IdByteString t => pystr_eqb s t
  | _, _ => false
  end.

(** [NodeId.__eq__]: same namespace index and same identifier. *)
Definition NodeId_eqb (a b : NodeId) : bool :=
  (NamespaceIndex a =? NamespaceIndex b) && Identifier_eqb (Identifier a) (Identifier b).

(** [x in l] for a list of node ids. *)
Definition NodeId_in (x : NodeId) (l : list NodeId) : bool :=
  existsb (NodeId_eqb x) l.

(** [ua.NodeId(i, 0)]-style numeric node id. *)
Definition numeric_id (i ns : Z) : NodeId := mkNodeId (IdNumeric i) ns.

(** [ua.ValueRank], with the values of OPC UA Part 3. *)
Module ValueRank.
Definition ScalarOrOneDimension : Z := -3.
Definition Any : Z := -2.
Definition Scalar : Z := -1.
Definition OneOrMoreDimensions : Z := 0.
Definition OneDimension : Z := 1.
End ValueRank.

(** [ua.StructureType] of OPC UA 1.04. *)
Inductive StructureType : Type :=
| Structure
| StructureWithOptionalFields
| Union.

Definition StructureType_eqb (a b : StructureType) : bool :=
  match a, b with
  | Structure, Structure => true
  | StructureWithOptionalFields, StructureWithOptionalFields => true
  | Union, Union => true
  | _, _ => false
  end.

Module StructureField.
Record t : Type := mk {
  Name : pystr;
  Description : pystr;          (* the text of the LocalizedText *)
  DataType : NodeId;
  ValueRank : Z;
  ArrayDimensions : list Z;
  IsOptional : bool
}.
End StructureField.

Module StructureDefinition.
Record t : Type := mk {
  DefaultEncodingId : NodeId;
  BaseDataType : NodeId;
  StructureType : StructureType;
  Fields : list StructureField.t
}.
Definition with_Fields (sdef : t) (fields : list StructureField.t) : t :=
  mk (DefaultEncodingId sdef) (BaseDataType sdef) (StructureType sdef) fields.
End StructureDefinition.

Module EnumField.
Record t : Type := mk {
  Value : Z;
  DisplayName : pystr;
  Name : pystr
}.
End EnumField.

Module EnumDefinition.
Record t : Type := mk {
  Fields : list EnumField.t
}.
End EnumDefinition.

(** What [get_children_descriptions] yields for one child: the fields of
    [ua.ReferenceDescription] the module reads. *)
Module ReferenceDescription.
Record t : Type := mk {
  NodeId : NodeId;
  BrowseName : pystr            (* BrowseName.Name *)
}.
End ReferenceDescription.

(** An attribute of the module [ua] as [hasattr], [issubclass] and
    [__members__] see it: an [Enum] class with the names of its members,
    some other class, or an attribute that is no class at all (a dict
    such as [ua.ObjectIdNames], a function such as [ua.register_enum], a
    module such as [ua.uaerrors]), on which [issubclass] raises. *)
Inductive UaAttr : Type :=
| UaEnumClass (members : list pystr)
| UaClass
| UaOther.

(** The state of the module [ua] the loader reads and extends.  A dict is
    an association list searched from the front; an update is a [cons]. *)
Record UaModule : Type := mkUa {
  ObjectIdNames : list (Z * pystr);
  extension_objects_by_datatype : list (NodeId * pystr);   (* class, by its __name__ *)
  enums_by_datatype : list (NodeId * pystr);
  ua_dir : list (pystr * UaAttr)
}.

Fixpoint lookup_int (k : Z) (d : list (Z * pystr)) : option pystr :=
  match d with
  | [] => None
  | (k', v) :: r => if k =? k' then Some v else lookup_int k r
  end.

Fixpoint lookup_nodeid (k : NodeId) (d : list (NodeId * pystr)) : option pystr :=
  match d with
  | [] => None
  | (k', v) :: r => if NodeId_eqb k k' then Some v else lookup_nodeid k r
  end.

Fixpoint lookup_str {V : Type} (k : pystr) (d : list (pystr * V)) : option V :=
  match d with
  | [] => None
  | (k', v) :: r => if pystr_eqb k k' then Some v else lookup_str k r
  end.

(** [hasattr(ua, name)]. *)
Definition hasattr_ua (ua : UaModule) (name : pystr) : bool :=
  match lookup_str name (ua_dir ua) with Some _ => true | None => false end.

(** [Identifier in ua.ObjectIdNames]: the keys of that dict are ints. *)
Definition ObjectIdNames_get (ua : UaModule) (i : NodeIdIdentifier) : option pystr :=
  match i with
  | IdNumeric n => lookup_int n (ObjectIdNames ua)
  | _ => None
  end.

(** The test of [make_structure_code] for a built-in data type:
    [NamespaceIndex == 0 and Identifier in ua.ObjectIdNames]. *)
Definition is_builtin (ua : UaModule) (dt : NodeId) : bool :=
  (NamespaceIndex dt =? 0) &&
  match ObjectIdNames_get ua (Identifier dt) with Some _ => true | None => false end.

(** [ua.register_extension_object(name, encoding_id, cls, datatype)]: the
    class is entered by data type and set as attribute [name] of [ua]. *)
Definition register_extension_object (ua : UaModule) (name : pystr) (datatype : NodeId)
  : UaModule :=
  mkUa (ObjectIdNames ua)
       ((datatype, name) :: extension_objects_by_datatype ua)
       (enums_by_datatype ua)
       ((name, UaClass) :: ua_dir ua).

(** [ua.register_enum(name, nodeid, cls)]. *)
Definition register_enum (ua : UaModule) (name : pystr) (nodeid : NodeId)
  (members : list pystr) : UaModule :=
  mkUa (ObjectIdNames ua)
       (extension_objects_by_datatype ua)
       ((nodeid, name) :: enums_by_datatype ua)
       ((name, UaEnumClass members) :: ua_dir ua).

(* ================================================================== *)
(** ** structures104.py: helpers that build definitions *)

(** The exceptions raised in structures104.py, with the values their
    messages name. *)
Inductive StructError : Type :=
| NotImplementedError (struct_name : pystr) (st : StructureType)
| UnknownDatatype (field : StructureField.t) (struct_name : pystr)
    (* RuntimeError("Unknown datatype for field: ... in structure:...") *)
| IndexError
    (* list(...__members__)[0] on an Enum class without members *)
| TypeError.
    (* issubclass(getattr(ua, uatype), Enum) on an attribute that is no class *)

(** [new_struct_field(name, dtype, array, optional, description)], for a
    [dtype] that already is a [NodeId]. *)
Definition new_struct_field (name : pystr) (dtype : NodeId) (array optional : bool)
  (description : pystr) : StructureField.t :=
  StructureField.mk name
    (match description with [] => name | _ => description end)
    dtype
    (if array then ValueRank.OneOrMoreDimensions else ValueRank.Scalar)
    (if array then [1] else [])
    optional.

(** The definition [new_struct] writes to the new data type: the type is
    [StructureWithOptionalFields] as soon as one field is optional. *)
Definition new_struct_definition (base_data_type enc : NodeId)
  (fields : list StructureField.t) : StructureDefinition.t :=
  StructureDefinition.mk enc base_data_type
    (if existsb StructureField.IsOptional fields
     then StructureWithOptionalFields else Structure)
    fields.

(** The loop of [new_enum]: one field per name, valued by a counter. *)
Fixpoint new_enum_fields (counter : Z) (values : list pystr) : list EnumField.t :=
  match values with
  | [] => []
  | val_name :: r =>
      EnumField.mk counter val_name val_name :: new_enum_fields (counter + 1) r
  end.

Definition new_enum_definition (values : list pystr) : EnumDefinition.t :=
  EnumDefinition.mk (new_enum_fields 0 values).

(* ================================================================== *)
(** ** [get_default_value] *)

(** What [get_default_value] returns: source text, or an object ([b''],
    [0]) that the caller formats into the source. *)
Inductive PyValue : Type :=
| SrcText (s : pystr)
| BytesObj (b : list N)
| IntObj (z : Z).

(** [f"{v}"] for such a value. *)
Definition format_value (v : PyValue) : pystr :=
  match v with
  | SrcText s => s
  | BytesObj b => str "b'" ++ b ++ str "'"
  | IntObj z => str_of_int z
  end.

Definition get_default_value (ua : UaModule) (uatype : pystr)
  (enums : list (pystr * Z)) : Outcome StructError PyValue :=
  if pystr_eqb uatype (str "String") then
    Returned (SrcText (str "None"))
  else if pystr_eqb uatype (str "Guid") then
    Returned (SrcText (str "uuid.uuid4()"))
  else if str_in uatype [str "ByteString"; str "CharArray"; str "Char"] then
    Returned (BytesObj [])
  else if pystr_eqb uatype (str "Boolean") then
    Returned (SrcText (str "True"))
  else if pystr_eqb uatype (str "DateTime") then
    Returned (SrcText (str "datetime.utcnow()"))
  else if str_in uatype [str "Int16"; str "Int32"; str "Int64"; str "UInt16";
                         str "UInt32"; str "UInt64"; str "Double"; str "Float";
                         str "Byte"; str "SByte"] then
    Returned (IntObj 0)
  else match lookup_str uatype enums with
  | Some v =>
      Returned (SrcText (str "ua." ++ uatype ++ str "(" ++ str_of_int v ++ str ")"))
  | None =>
      match lookup_str uatype (ua_dir ua) with
      | Some (UaEnumClass members) =>
          match members with
          | val :: _ => Returned (SrcText (str "ua." ++ uatype ++ str "." ++ val))
          | [] => Raised IndexError
          end
      | Some UaOther => Raised TypeError
      | Some UaClass | None => Returned (SrcText (str "ua." ++ uatype ++ str "()"))
      end
  end.

(* ================================================================== *)
(** ** [make_structure_code] and [make_enum_code] *)

(** A statement of the generated [__init__]. *)
Inductive InitStmt : Type :=
| Pass
| Assign (attr : pystr) (rhs : pystr).     (* self.attr = rhs *)

(** The class text [make_structure_code] writes, part by part. *)
Record StructureCode : Type := mkStructureCode {
  class_name : pystr;
  data_type : NodeId;
  ua_switches : option (list (pystr * (pystr * Z)));
  ua_types : list (pystr * pystr);
  init_body : list InitStmt
}.

(** The class text [make_enum_code] writes: one [name = value] line per
    field. *)
Record EnumCode : Type := mkEnumCode {
  enum_class_name : pystr;
  enum_members : list (pystr * Z)
}.

Section Structures104.

Variable isalnum : N -> bool.

(** The first loop over [sdef.Fields]: the entries of [ua_switches]. *)
Fixpoint switches_loop (counter : Z) (fields : list StructureField.t)
  : list (pystr * (pystr * Z)) :=
  match fields with
  | [] => []
  | field :: r =>
      let fname := clean_name isalnum (StructureField.Name field) in
      if StructureField.IsOptional field
      then (fname, (str "Encoding", counter)) :: switches_loop (counter + 1) r
      else switches_loop counter r
  end.

(** The wire type name of one field, from the built-in names, the
    registered structures and the registered enums, in that order. *)
Definition resolve_uatype (ua : UaModule) (struct_name : pystr)
  (field : StructureField.t) : Outcome StructError pystr :=
  let dt := StructureField.DataType field in
  let uatype :=
    match (if NamespaceIndex dt =? 0 then ObjectIdNames_get ua (Identifier dt) else None) with
    | Some n => Returned n
    | None =>
        match lookup_nodeid dt (extension_objects_by_datatype ua) with
        | Some n => Returned n
        | None =>
            match lookup_nodeid dt (enums_by_datatype ua) with
            | Some n => Returned n
            | None => Raised (UnknownDatatype field struct_name)
            end
        end
    end in
  uatype <- uatype ;;
  Returned (if (StructureField.ValueRank field >=? 1) && pystr_eqb uatype (str "Char")
            then str "String" else uatype).

(** The second loop: the list [uatypes] of fields with their type names. *)
Fixpoint uatypes_loop (ua : UaModule) (struct_name : pystr)
  (fields : list StructureField.t)
  : Outcome StructError (list (StructureField.t * pystr)) :=
  match fields with
  | [] => Returned []
  | field :: r =>
      uatype <- resolve_uatype ua struct_name field ;;
      rest <- uatypes_loop ua struct_name r ;;
      Returned ((field, uatype) :: rest)
  end.

(** The line that loop adds to [ua_types] for one field. *)
Definition ua_types_entry (fu : StructureField.t * pystr) : pystr * pystr :=
  let (field, uatype) := fu in
  let fname := clean_name isalnum (StructureField.Name field) in
  let prefix :=
    if (StructureField.ValueRank field >=? 1)
       || negb (Nat.eqb (List.length (StructureField.ArrayDimensions field)) 0)
    then str "ListOf" else [] in
  (fname, prefix ++ uatype).

(** The third loop: one assignment of [__init__] per field. *)
Fixpoint init_loop (ua : UaModule) (uatypes : list (StructureField.t * pystr))
  : Outcome StructError (list InitStmt) :=
  match uatypes with
  | [] => Returned []
  | (field, uatype) :: r =>
      let fname := clean_name isalnum (StructureField.Name field) in
      default_value <-
        (if StructureField.ValueRank field >=? 1
         then Returned (str "[]")
         else v <- get_default_value ua uatype [] ;; Returned (format_value v)) ;;
      rest <- init_loop ua r ;;
      Returned (Assign fname default_value :: rest)
  end.

Definition make_structure_code (ua : UaModule) (data_type : NodeId)
  (struct_name : pystr) (sdef : StructureDefinition.t)
  : Outcome StructError StructureCode :=
  let st := StructureDefinition.StructureType sdef in
  let fields := StructureDefinition.Fields sdef in
  if negb (StructureType_eqb st Structure || StructureType_eqb st StructureWithOptionalFields)
  then Raised (NotImplementedError struct_name st)
  else
    let switches :=
      if StructureType_eqb st StructureWithOptionalFields
      then Some (switches_loop 0 fields) else None in
    uatypes <- uatypes_loop ua struct_name fields ;;
    let types :=
      (if StructureType_eqb st StructureWithOptionalFields
       then [(str "Encoding", str "Byte")] else [])
      ++ List.map ua_types_entry uatypes in
    inits <- init_loop ua uatypes ;;
    let body :=
      (match fields with [] => [Pass] | _ => [] end)
      ++ (if StructureType_eqb st StructureWithOptionalFields
          then [Assign (str "Encoding") (str "0")] else [])
      ++ inits in
    Returned (mkStructureCode struct_name data_type switches types body).

Definition make_enum_code (name : pystr) (edef : EnumDefinition.t) : EnumCode :=
  mkEnumCode name
    (List.map (fun field =>
                 let name := clean_name isalnum (EnumField.Name field) in
                 let value := EnumField.Value field in
                 (name, value))
              (EnumDefinition.Fields edef)).

(** What the third loop is to write for one field: the empty list for a
    field of value rank one or more, the formatted default of its type
    name for a scalar field. *)
Definition field_initializer (ua : UaModule) (fu : StructureField.t * pystr)
  (stmt : InitStmt) : Prop :=
  let fname := clean_name isalnum (StructureField.Name (fst fu)) in
  (1 <= StructureField.ValueRank (fst fu) -> stmt = Assign fname (str "[]"))
  /\ (StructureField.ValueRank (fst fu) < 1 ->
      StructureField.ArrayDimensions (fst fu) = [] ->
      exists v, get_default_value ua (snd fu) [] = Returned v
                /\ stmt = Assign fname (format_value v)).

End Structures104.

(* ================================================================== *)
(** ** [DataTypeSorter] *)

Module DataTypeSorter.
Record t : Type := mk {
  data_type : NodeId;
  name : pystr;
  desc : ReferenceDescription.t;
  sdef : StructureDefinition.t;
  encoding_id : NodeId;
  deps : list NodeId
}.

(** [__init__]. *)
Definition init (data_type : NodeId) (name : pystr) (desc : ReferenceDescription.t)
  (sdef : StructureDefinition.t) : t :=
  mk data_type name desc sdef
     (StructureDefinition.DefaultEncodingId sdef)
     (List.map StructureField.DataType (StructureDefinition.Fields sdef)).

(** [__lt__]. *)
Definition lt (self other : t) : bool :=
  if NodeId_in (ReferenceDescription.NodeId (desc self)) (deps other)
  then true
  else false.
End DataTypeSorter.

(* ================================================================== *)
(** ** [list.sort]

    [dtypes.sort()] is CPython's [listsort] (Objects/listobject.c, 3.7 to
    3.11).  On a list of fewer than 64 elements [merge_compute_minrun]
    returns the length itself, so the sort is: [count_run] finds the
    initial run, a descending run is reversed in place, and [binarysort]
    inserts the remaining elements one by one.  No merge takes place.
    The only comparison is [ISLT(x, y)], that is [x.__lt__(y)]. *)

Section ListSort.

Variable A : Type.
Variable ISLT : A -> A -> bool.

(** The two loops of [count_run], from the third element on; [prev] is
    [*(lo-1)]. *)
Fixpoint run_descending (prev : A) (l : list A) : nat :=
  match l with
  | x :: r => if ISLT x prev then S (run_descending x r) else O
  | [] => O
  end.

Fixpoint run_ascending (prev : A) (l : list A) : nat :=
  match l with
  | x :: r => if ISLT x prev then O else S (run_ascending x r)
  | [] => O
  end.

(** [count_run]: the length of the run starting the slice, and whether it
    is (strictly) descending. *)
Definition count_run (l : list A) : nat * bool :=
  match l with
  | [] => (O, false)
  | [_] => (1%nat, false)
  | x0 :: x1 :: r =>
      if ISLT x1 x0
      then (2 + run_descending x1 r, true)%nat
      else (2 + run_ascending x1 r, false)%nat
  end.

(** The [do ... while (l < r)] of [binarysort]: the place of [pivot] in
    the sorted slice [[lo, start)].  Every round halves [r - l], so
    [fuel] larger than the length of the slice is never used up. *)
Fixpoint bisect (fuel : nat) (sorted : list A) (pivot : A) (l r : nat) : nat :=
  match fuel with
  | O => l
  | S fuel' =>
      let p := (l + Nat.div2 (r - l))%nat in
      match nth_error sorted p with
      | None => l
      | Some x =>
          let l' := if ISLT pivot x then l else S p in
          let r' := if ISLT pivot x then p else r in
          if (l' <? r')%nat then bisect fuel' sorted pivot l' r' else l'
      end
  end.

(** One round of the [for] loop of [binarysort]: the elements from [l] on
    move up by one and [pivot] is stored at [l]. *)
Definition binary_insert (sorted : list A) (pivot : A) : list A :=
  let l := bisect (S (List.length sorted)) sorted pivot O (List.length sorted) in
  firstn l sorted ++ pivot :: skipn l sorted.

Definition binarysort (sorted rest : list A) : list A :=
  fold_left binary_insert rest sorted.

Definition listsort (l : list A) : list A :=
  if (List.length l <? 2)%nat then l
  else
    let (n, descending) := count_run l in
    let run := firstn n l in
    let run := if descending then rev run else run in
    binarysort run (skipn n l).

(** No element of [l] is less than the one before it, [prev] being the
    one before the first. *)
Fixpoint ascending_from (prev : A) (l : list A) : bool :=
  match l with
  | [] => true
  | x :: r => negb (ISLT x prev) && ascending_from x r
  end.

Definition ascending (l : list A) : bool :=
  match l with
  | [] => true
  | x :: r => ascending_from x r
  end.

End ListSort.

(** [dtypes.sort()]. *)
Definition dtypes_sort (dtypes : list DataTypeSorter.t) : list DataTypeSorter.t :=
  listsort DataTypeSorter.lt dtypes.

(* ================================================================== *)
(** ** The discovery walk *)

(** What [node.read_data_type_definition()] does on a node. *)
Inductive ReadResult (D : Type) : Type :=
| ReadOk (definition : D)
| BadAttributeIdInvalid
| ReadException.
Arguments ReadOk {D} definition.
Arguments BadAttributeIdInvalid {D}.
Arguments ReadException {D}.

(** A data type node of the address space as the walk sees it: the
    description its parent gives of it, the outcome of reading its
    DataTypeDefinition attribute and its HasSubtype children. *)
#[warnings="-register-all"]
Inductive TypeNode (D : Type) : Type :=
| mkTypeNode (desc : ReferenceDescription.t) (definition : ReadResult D)
    (subtypes : list (TypeNode D)).
Arguments mkTypeNode {D} desc definition subtypes.

(** The calls made on the server, in order. *)
Inductive ServerCall : Type :=
| GetChildrenDescriptions (n : NodeId)
| ReadDataTypeDefinition (n : NodeId).

Definition node_desc {D : Type} (n : TypeNode D) : ReferenceDescription.t :=
  match n with mkTypeNode desc _ _ => desc end.

Definition node_definition {D : Type} (n : TypeNode D) : ReadResult D :=
  match n with mkTypeNode _ definition _ => definition end.

Definition node_subtypes {D : Type} (n : TypeNode D) : list (TypeNode D) :=
  match n with mkTypeNode _ _ subtypes => subtypes end.

(** [_read_data_type_definition(server, desc)]; [definition] is what the
    read of the node behind [desc] does.  Returns what the function
    returns and the reads it made. *)
Definition _read_data_type_definition {D : Type} (ua : UaModule)
  (desc : ReferenceDescription.t) (definition : ReadResult D)
  : option D * list ServerCall :=
  if pystr_eqb (ReferenceDescription.BrowseName desc) (str "FilterOperand") then
    (None, [])
  else if hasattr_ua ua (ReferenceDescription.BrowseName desc) then
    (None, [])
  else
    let read := ReadDataTypeDefinition (ReferenceDescription.NodeId desc) in
    match definition with
    | ReadOk sdef => (Some sdef, [read])
    | BadAttributeIdInvalid => (None, [read])
    | ReadException => (None, [read])
    end.

(** The inner loop of [_recursive_parse]:
    [for field in reversed(parent.Fields): sdef.Fields.insert(0, field)]. *)
Definition insert_parent_fields (parent_fields own_fields : list StructureField.t)
  : list StructureField.t :=
  fold_left (fun fields field => field :: fields) (rev parent_fields) own_fields.

(** [if parent_sdef: ...] around that loop; the fields of [sdef] are
    changed in place. *)
Definition inherit_fields (parent_sdef : option StructureDefinition.t)
  (sdef : StructureDefinition.t) : StructureDefinition.t :=
  match parent_sdef with
  | Some parent =>
      StructureDefinition.with_Fields sdef
        (insert_parent_fields (StructureDefinition.Fields parent)
                              (StructureDefinition.Fields sdef))
  | None => sdef
  end.

(** The four ways [_read_data_type_definition] returns [None]. *)
Definition yields_no_schema {D : Type} (ua : UaModule) (desc : ReferenceDescription.t)
  (definition : ReadResult D) : Prop :=
  ReferenceDescription.BrowseName desc = str "FilterOperand"
  \/ hasattr_ua ua (ReferenceDescription.BrowseName desc) = true
  \/ definition = BadAttributeIdInvalid
  \/ definition = ReadException.

Section Discovery.

Variable isalnum : N -> bool.
Variable ua : UaModule.

(** [_recursive_parse(server, base_node, dtypes, parent_sdef)]: the
    descriptors appended to [dtypes] and the calls made on the server.
    Every read is taken to return an object of its own. *)
Fixpoint _recursive_parse (base_node : TypeNode StructureDefinition.t)
  (parent_sdef : option StructureDefinition.t) {struct base_node}
  : list DataTypeSorter.t * list ServerCall :=
  match base_node with
  | mkTypeNode base_desc _ children =>
      let fix for_desc (children : list (TypeNode StructureDefinition.t))
        : list DataTypeSorter.t * list ServerCall :=
        match children with
        | [] => ([], [])
        | child :: more =>
            let desc := node_desc child in
            let (sdef, reads) := _read_data_type_definition ua desc (node_definition child) in
            match sdef with
            | None =>
                let (dtypes, calls) := for_desc more in
                (dtypes, reads ++ calls)
            | Some sdef =>
                let name := clean_name isalnum (ReferenceDescription.BrowseName desc) in
                let sdef := inherit_fields parent_sdef sdef in
                let dts := DataTypeSorter.init (ReferenceDescription.NodeId desc) name desc sdef in
                let (below, calls_below) := _recursive_parse child (Some sdef) in
                let (dtypes, calls) := for_desc more in
                (dts :: below ++ dtypes, reads ++ calls_below ++ calls)
            end
        end in
      let (dtypes, calls) := for_desc children in
      (dtypes, GetChildrenDescriptions (ReferenceDescription.NodeId base_desc) :: calls)
  end.

(** The [for desc in ...] loop of [_recursive_parse] on its own, from the
    children still to visit. *)
Fixpoint for_desc (parent_sdef : option StructureDefinition.t)
  (children : list (TypeNode StructureDefinition.t)) {struct children}
  : list DataTypeSorter.t * list ServerCall :=
  match children with
  | [] => ([], [])
  | child :: more =>
      let desc := node_desc child in
      let (sdef, reads) := _read_data_type_definition ua desc (node_definition child) in
      match sdef with
      | None =>
          let (dtypes, calls) := for_desc parent_sdef more in
          (dtypes, reads ++ calls)
      | Some sdef =>
          let name := clean_name isalnum (ReferenceDescription.BrowseName desc) in
          let sdef := inherit_fields parent_sdef sdef in
          let dts := DataTypeSorter.init (ReferenceDescription.NodeId desc) name desc sdef in
          let (below, calls_below) := _recursive_parse child (Some sdef) in
          let (dtypes, calls) := for_desc parent_sdef more in
          (dts :: below ++ dtypes, reads ++ calls_below ++ calls)
      end
  end.

(** The loop of [load_data_type_definitions] over the sorted descriptors.
    A [NotImplementedError] is logged and the descriptor skipped, any
    other exception of [make_structure_code] leaves the loop.

    The loop describes the runs in which [exec] accepts every generated
    class.  [exec] is not modelled: Python refuses the generated text
    when the data type has a string identifier (written unquoted, a
    [NameError]), when a [StructureWithOptionalFields] has no field or
    when a name is a keyword (a [SyntaxError]), and the source catches
    none of these.  What is stated of this loop is therefore stated
    either under the hypothesis that it returned, or of an exception
    raised by [make_structure_code] before [exec] is reached; that the
    compilations succeed is stated of [make_structure_code] alone. *)
Fixpoint register_loop (ua : UaModule) (dtypes : list DataTypeSorter.t)
  : Outcome StructError UaModule :=
  match dtypes with
  | [] => Returned ua
  | dts :: more =>
      match make_structure_code isalnum ua (DataTypeSorter.data_type dts)
              (DataTypeSorter.name dts) (DataTypeSorter.sdef dts) with
      | Returned _ =>
          register_loop
            (register_extension_object ua (DataTypeSorter.name dts)
               (ReferenceDescription.NodeId (DataTypeSorter.desc dts)))
            more
      | Raised (NotImplementedError _ _) => register_loop ua more
      | Raised e => Raised e
      end
  end.

(** [load_data_type_definitions(server, base_node)], once [load_enums] has
    run and left the module state [ua]. *)
Definition load_data_type_definitions (base_node : TypeNode StructureDefinition.t)
  : Outcome StructError UaModule :=
  let dtypes := fst (_recursive_parse base_node None) in
  let dtypes := dtypes_sort dtypes in
  register_loop ua dtypes.

End Discovery.

(* ================================================================== *)
(** ** standard_address_space.py: [PostponeReferences] *)

Section PostponeReferences.

(** The node service behind the context manager.  [try_add_nodes] and
    [try_add_references] run through a batch and yield the entries that
    could not be added; here they return the new state of the service
    and the yielded entries, in order. *)
Variables Server AddNodesItem AddReferencesItem : Type.
Variable try_add_nodes : Server -> list AddNodesItem -> Server * list AddNodesItem.
Variable try_add_references :
  Server -> list AddReferencesItem -> Server * list AddReferencesItem.

Record PostponeReferences : Type := mkPostpone {
  server : Server;
  postponed_refs : list AddReferencesItem;
  postponed_nodes : list AddNodesItem
}.

(** The two [RuntimeError]s of [__aexit__], with the list each message
    prints. *)
Inductive RemainingError : Type :=
| RemainingNodes (remaining_nodes : list AddNodesItem)
| RemainingRefs (remaining_refs : list AddReferencesItem).

(** [__aenter__]. *)
Definition aenter (server : Server) : PostponeReferences :=
  mkPostpone server [] [].

(** [add_nodes]. *)
Definition add_nodes (self : PostponeReferences) (nodes : list AddNodesItem)
  : PostponeReferences :=
  let (server', failed) := try_add_nodes (server self) nodes in
  mkPostpone server' (postponed_refs self) (postponed_nodes self ++ failed).

(** [add_references]. *)
Definition add_references (self : PostponeReferences) (refs : list AddReferencesItem)
  : PostponeReferences :=
  let (server', failed) := try_add_references (server self) refs in
  mkPostpone server' (postponed_refs self ++ failed) (postponed_nodes self).

(** [__aexit__(exc_type, exc_val, exc_tb)]; [exc] tells whether the body
    of the [async with] raised.  Returns the state of the service and
    what the method does: it returns [None] or raises. *)
Definition aexit (self : PostponeReferences) (exc : bool)
  : Server * Outcome RemainingError unit :=
  if negb exc then
    let (server1, remaining_nodes) := try_add_nodes (server self) (postponed_nodes self) in
    if negb (Nat.eqb (List.length remaining_nodes) 0) then
      (server1, Raised (RemainingNodes remaining_nodes))
    else
      let (server2, remaining_refs) := try_add_references server1 (postponed_refs self) in
      if negb (Nat.eqb (List.length remaining_refs) 0) then
        (server2, Raised (RemainingRefs remaining_refs))
      else (server2, Returned tt)
  else (server self, Returned tt).

(** A call made on the context manager by the body of the [async with]. *)
Inductive Batch : Type :=
| AddNodes (nodes : list AddNodesItem)
| AddReferences (refs : list AddReferencesItem).

Definition run_batch (self : PostponeReferences) (b : Batch) : PostponeReferences :=
  match b with
  | AddNodes nodes => add_nodes self nodes
  | AddReferences refs => add_references self refs
  end.

(** [async with PostponeReferences(nodeservice) as server: ...] around a
    body that makes the calls [body] and does not raise. *)
Definition fill_address_space (nodeservice : Server) (body : list Batch)
  : Server * Outcome RemainingError unit :=
  aexit (fold_left run_batch body (aenter nodeservice)) false.

(** The identifiers an error message names. *)
Definition names_node (e : RemainingError) (n : AddNodesItem) : Prop :=
  match e with
  | RemainingNodes remaining_nodes => In n remaining_nodes
  | RemainingRefs _ => False
  end.

Definition names_ref (e : RemainingError) (r : AddReferencesItem) : Prop :=
  match e with
  | RemainingNodes _ => False
  | RemainingRefs remaining_refs => In r remaining_refs
  end.

End PostponeReferences.

Arguments RemainingNodes {AddNodesItem AddReferencesItem} remaining_nodes.
Arguments RemainingRefs {AddNodesItem AddReferencesItem} remaining_refs.
Arguments AddNodes {AddNodesItem AddReferencesItem} nodes.
Arguments AddReferences {AddNodesItem AddReferencesItem} refs.

(** Modelled from the spec: the node service ([try_add_nodes],
    [try_add_references]) is not in the two source files.  An insertion
    fails when its dependency (the parent of a node, the source or the
    target of a reference) is not yet present. *)
Module NodeService.

Record Node : Type := mkNode { node_id : Z; parent : option Z }.
Record Reference : Type := mkRef { source_id : Z; target_id : Z }.

(** The address space: the identifiers of its nodes and its references. *)
Record t : Type := mk { nodes : list Z; references : list Reference }.

Definition present (s : t) (i : Z) : bool := existsb (Z.eqb i) (nodes s).

Fixpoint try_add_nodes (s : t) (batch : list Node) : t * list Node :=
  match batch with
  | [] => (s, [])
  | n :: more =>
      let ok := match parent n with Some p => present s p | None => true end in
      if ok then try_add_nodes (mk (node_id n :: nodes s) (references s)) more
      else let (s', failed) := try_add_nodes s more in (s', n :: failed)
  end.

Fixpoint try_add_references (s : t) (batch : list Reference) : t * list Reference :=
  match batch with
  | [] => (s, [])
  | r :: more =>
      if present s (source_id r) && present s (target_id r)
      then try_add_references (mk (nodes s) (r :: references s)) more
      else let (s', failed) := try_add_references s more in (s', r :: failed)
  end.

End NodeService.

(* ================================================================== *)
(** ** Properties of orders, graphs and defaults used in the statements *)

Definition dts_id (d : DataTypeSorter.t) : NodeId :=
  ReferenceDescription.NodeId (DataTypeSorter.desc d).

(** [order] read from the front: every dependency of a descriptor that
    is one of the discovered types [all] is the type of a descriptor
    placed strictly earlier ([earlier]). *)
Fixpoint dependencies_first (all earlier : list NodeId) (order : list DataTypeSorter.t)
  : bool :=
  match order with
  | [] => true
  | d :: more =>
      forallb (fun dep => negb (NodeId_in dep all) || NodeId_in dep earlier)
              (DataTypeSorter.deps d)
      && dependencies_first all (dts_id d :: earlier) more
  end.

Definition topological_order (order : list DataTypeSorter.t) : bool :=
  dependencies_first (List.map dts_id order) [] order.

(** A set of descriptors is acyclic when some arrangement of it puts
    every type after its dependencies. *)
Definition acyclic (dtypes : list DataTypeSorter.t) : Prop :=
  exists order, Permutation dtypes order /\ topological_order order = true.

(** [a] has a field whose data type is the discovered type [b]. *)
Definition depends_on (dtypes : list DataTypeSorter.t) (a b : DataTypeSorter.t) : Prop :=
  In a dtypes /\ In b dtypes /\ NodeId_in (dts_id b) (DataTypeSorter.deps a) = true.

(** A type that depends on itself, directly or through other types. *)
Inductive reaches (dtypes : list DataTypeSorter.t) : DataTypeSorter.t -> DataTypeSorter.t -> Prop :=
| reaches_step a b : depends_on dtypes a b -> reaches dtypes a b
| reaches_trans a b c : depends_on dtypes a b -> reaches dtypes b c -> reaches dtypes a c.

Definition has_cycle (dtypes : list DataTypeSorter.t) : Prop :=
  exists d, reaches dtypes d d.

(** The place of the first occurrence of a node id in a list of ids. *)
Fixpoint index_of (x : NodeId) (ids : list NodeId) : nat :=
  match ids with
  | [] => O
  | y :: r => if NodeId_eqb x y then O else S (index_of x r)
  end.

(** [dtypes.sort()] as a call: [list.sort] raises what a comparison
    raises, and [__lt__] raises nothing. *)
Definition dependency_ordering_step (dtypes : list DataTypeSorter.t)
  : Outcome StructError (list DataTypeSorter.t) :=
  Returned (dtypes_sort dtypes).

(** The objects the literals among the generated initializers denote. *)
Inductive PyObj : Type :=
| ObjNone
| ObjBool (b : bool)
| ObjInt (z : Z)
| ObjBytes (b : list N)
| ObjStr (s : pystr)
| ObjList (l : list Z).

Definition eval_literal (src : pystr) : option PyObj :=
  if pystr_eqb src (str "None") then Some ObjNone
  else if pystr_eqb src (str "True") then Some (ObjBool true)
  else if pystr_eqb src (str "False") then Some (ObjBool false)
  else if pystr_eqb src (str "0") then Some (ObjInt 0)
  else if pystr_eqb src (str "b''") then Some (ObjBytes [])
  else if pystr_eqb src (str "[]") then Some (ObjList [])
  else None.

(** The zero value of a wire type tag, as the specification words it:
    empty string, empty bytes, false, zero. *)
Definition zero_value_of_tag (uatype : pystr) : option PyObj :=
  if pystr_eqb uatype (str "String") then Some (ObjStr [])
  else if pystr_eqb uatype (str "ByteString") then Some (ObjBytes [])
  else if pystr_eqb uatype (str "Boolean") then Some (ObjBool false)
  else if str_in uatype [str "Int16"; str "Int32"; str "Int64"; str "UInt16";
                         str "UInt32"; str "UInt64"; str "Double"; str "Float";
                         str "Byte"; str "SByte"] then Some (ObjInt 0)
  else None.

(** The branches of [get_default_value] on literal type names, as a
    table from the name to the value returned. *)
Definition builtin_defaults : list (pystr * PyValue) :=
  [(str "String", SrcText (str "None"));
   (str "Guid", SrcText (str "uuid.uuid4()"));
   (str "ByteString", BytesObj []);
   (str "CharArray", BytesObj []);
   (str "Char", BytesObj []);
   (str "Boolean", SrcText (str "True"));
   (str "DateTime", SrcText (str "datetime.utcnow()"));
   (str "Int16", IntObj 0); (str "Int32", IntObj 0); (str "Int64", IntObj 0);
   (str "UInt16", IntObj 0); (str "UInt32", IntObj 0); (str "UInt64", IntObj 0);
   (str "Double", IntObj 0); (str "Float", IntObj 0);
   (str "Byte", IntObj 0); (str "SByte", IntObj 0)].

(** The statements [__init__] starts with, before those of the fields. *)
Definition init_preamble (sdef : StructureDefinition.t) : list InitStmt :=
  (match StructureDefinition.Fields sdef with [] => [Pass] | _ => [] end)
  ++ (if StructureType_eqb (StructureDefinition.StructureType sdef)
                           StructureWithOptionalFields
      then [Assign (str "Encoding") (str "0")] else []).

(** The assignment of [__init__] to the attribute [fname], if any. *)
Fixpoint initializer_of (fname : pystr) (body : list InitStmt) : option pystr :=
  match body with
  | [] => None
  | Pass :: more => initializer_of fname more
  | Assign attr rhs :: more =>
      if pystr_eqb attr fname then Some rhs else initializer_of fname more
  end.

(* ================================================================== *)
(** ** Concrete address spaces used in examples *)

(** [str.isalnum] restricted to ASCII. *)
Definition ascii_isalnum (c : N) : bool :=
  (((48 <=? c) && (c <=? 57)) || ((65 <=? c) && (c <=? 90))
   || ((97 <=? c) && (c <=? 122)))%N.

(** The module [ua] before any custom type is loaded: the built-in
    scalar types of namespace 0 and the built-in structure [Argument]. *)
Definition ua_builtin : UaModule :=
  mkUa [(1, str "Boolean"); (2, str "SByte"); (3, str "Byte"); (4, str "Int16");
        (5, str "UInt16"); (6, str "Int32"); (7, str "UInt32"); (8, str "Int64");
        (9, str "UInt64"); (10, str "Float"); (11, str "Double"); (12, str "String");
        (13, str "DateTime"); (14, str "Guid"); (15, str "ByteString")]
       [] []
       [(str "Argument", UaClass)].

Definition base_data_type_id : NodeId := numeric_id 24 0.
Definition base_structure_type_desc : ReferenceDescription.t :=
  ReferenceDescription.mk (numeric_id 22 0) (str "Structure").

Definition scalar_field (name : pystr) (builtin : Z) : StructureField.t :=
  new_struct_field name (numeric_id builtin 0) false false [].

(** A custom structure node: data type [ns=2;i=id], encoding [ns=2;i=id+1]. *)
Definition struct_node (id : Z) (name : pystr) (st : StructureType)
  (fields : list StructureField.t) (subtypes : list (TypeNode StructureDefinition.t))
  : TypeNode StructureDefinition.t :=
  mkTypeNode (ReferenceDescription.mk (numeric_id id 2) name)
    (ReadOk (StructureDefinition.mk (numeric_id (id + 1) 2) base_data_type_id st fields))
    subtypes.

Definition base_structure_type (children : list (TypeNode StructureDefinition.t))
  : TypeNode StructureDefinition.t :=
  mkTypeNode base_structure_type_desc BadAttributeIdInvalid children.

(** Three independent root types; [Pump] has a field of type [Vendor]. *)
Definition Pump_node : TypeNode StructureDefinition.t :=
  struct_node 3010 (str "Pump") Structure
    [new_struct_field (str "Maker") (numeric_id 3030 2) false false []] [].
Definition Limits_node : TypeNode StructureDefinition.t :=
  struct_node 3020 (str "Limits") Structure [scalar_field (str "Max") 11] [].
Definition Vendor_node : TypeNode StructureDefinition.t :=
  struct_node 3030 (str "Vendor") Structure [scalar_field (str "Name") 12] [].

(** Two types with a field of each other's type. *)
Definition Left_node : TypeNode StructureDefinition.t :=
  struct_node 3110 (str "Left") Structure
    [new_struct_field (str "Peer") (numeric_id 3120 2) false false []] [].
Definition Right_node : TypeNode StructureDefinition.t :=
  struct_node 3120 (str "Right") Structure
    [new_struct_field (str "Peer") (numeric_id 3110 2) false false []] [].

(** [A] declares [X: Int32]; its subtype [B] declares [Y: String]; its
    subtype [B2] declares a second field named [X]. *)
Definition B_node : TypeNode StructureDefinition.t :=
  struct_node 3220 (str "B") Structure [scalar_field (str "Y") 12] [].
Definition B2_node : TypeNode StructureDefinition.t :=
  struct_node 3230 (str "B2") Structure [scalar_field (str "X") 12] [].
Definition A_node : TypeNode StructureDefinition.t :=
  struct_node 3210 (str "A") Structure [scalar_field (str "X") 6] [B_node; B2_node].

(** [Base] has an optional field; its subtype [Derived] is declared as a
    plain [Structure] with one required field. *)
Definition Derived_node : TypeNode StructureDefinition.t :=
  struct_node 3320 (str "Derived") Structure [scalar_field (str "Speed") 11] [].
Definition Base_node : TypeNode StructureDefinition.t :=
  struct_node 3310 (str "Base") StructureWithOptionalFields
    [new_struct_field (str "Note") (numeric_id 12 0) false true []] [Derived_node].

(** The structure of the specification's bitmask example. *)
Definition Reading_sdef : StructureDefinition.t :=
  new_struct_definition base_data_type_id (numeric_id 3411 2)
    [scalar_field (str "Speed") 11;
     new_struct_field (str "Label") (numeric_id 12 0) false true [];
     new_struct_field (str "Note") (numeric_id 12 0) false true []].

(** A structure with a scalar Boolean, a scalar String and two arrays. *)
Definition Status_sdef : StructureDefinition.t :=
  StructureDefinition.mk (numeric_id 3511 2) base_data_type_id Structure
    [scalar_field (str "Flag") 1;
     scalar_field (str "Text") 12;
     StructureField.mk (str "Samples") (str "Samples") (numeric_id 11 0)
       ValueRank.OneDimension [] false;
     StructureField.mk (str "Flags") (str "Flags") (numeric_id 1 0)
       ValueRank.OneDimension [] false].

(** An enumeration whose fields carry the values 10, 20 and 30. *)
Definition Color_edef : EnumDefinition.t :=
  EnumDefinition.mk [EnumField.mk 10 (str "Red") (str "Red");
                     EnumField.mk 20 (str "Green") (str "Green");
                     EnumField.mk 30 (str "Blue") (str "Blue")].

(** The built-in [Argument] with a custom subtype below it, and a node
    without DataTypeDefinition with a custom subtype below it. *)
Definition MyArgument_node : TypeNode StructureDefinition.t :=
  struct_node 3610 (str "MyArgument") Structure [scalar_field (str "Unit") 12] [].
Definition Argument_node : TypeNode StructureDefinition.t :=
  mkTypeNode (ReferenceDescription.mk (numeric_id 296 0) (str "Argument"))
    (ReadOk (StructureDefinition.mk (numeric_id 298 0) base_data_type_id Structure []))
    [MyArgument_node].
Definition Abstract_node : TypeNode StructureDefinition.t :=
  mkTypeNode (ReferenceDescription.mk (numeric_id 3700 2) (str "AbstractBase"))
    BadAttributeIdInvalid [MyArgument_node].

(** The descriptors the walk finds below [base_structure_type] with the
    given root types, before they are sorted. *)
Definition discovered (roots : list (TypeNode StructureDefinition.t))
  : list DataTypeSorter.t :=
  fst (_recursive_parse ascii_isalnum ua_builtin (base_structure_type roots) None).

(** The same two types declared as unions. *)
Definition LeftUnion_node : TypeNode StructureDefinition.t :=
  struct_node 3110 (str "Left") Union
    [new_struct_field (str "Peer") (numeric_id 3120 2) false false []] [].
Definition RightUnion_node : TypeNode StructureDefinition.t :=
  struct_node 3120 (str "Right") Union
    [new_struct_field (str "Peer") (numeric_id 3110 2) false false []] [].

(** Bulk loads on an empty node service.  Node 10 hangs under node 99,
    which nobody supplies; the references go from node 1 to node 2 and
    from node 10 to node 11. *)
Definition empty_service : NodeService.t := NodeService.mk [] [].
Definition node_1 : NodeService.Node := NodeService.mkNode 1 None.
Definition node_2 : NodeService.Node := NodeService.mkNode 2 None.
Definition node_10 : NodeService.Node := NodeService.mkNode 10 (Some 99).
Definition ref_1_2 : NodeService.Reference := NodeService.mkRef 1 2.
Definition ref_10_11 : NodeService.Reference := NodeService.mkRef 10 11.

Definition bulk_load (body : list (Batch NodeService.Node NodeService.Reference))
  : NodeService.t * Outcome (RemainingError NodeService.Node NodeService.Reference) unit :=
  fill_address_space NodeService.try_add_nodes NodeService.try_add_references
    empty_service body.

(** The context manager when the body of the [async with] is through. *)
Definition after_body (body : list (Batch NodeService.Node NodeService.Reference))
  : PostponeReferences NodeService.t NodeService.Node NodeService.Reference :=
  fold_left (run_batch NodeService.try_add_nodes NodeService.try_add_references)
    body (aenter NodeService.Node NodeService.Reference empty_service).

(** The reference arrives before its target node. *)
Definition forward_reference_body : list (Batch NodeService.Node NodeService.Reference) :=
  [AddNodes [node_1]; AddReferences [ref_1_2]; AddNodes [node_2]].

(** The target node of the reference is never supplied. *)
Definition missing_target_body : list (Batch NodeService.Node NodeService.Reference) :=
  [AddNodes [node_1]; AddReferences [ref_1_2]].

(** Neither the parent of the node nor the ends of the reference are
    supplied. *)
Definition stuck_body : list (Batch NodeService.Node NodeService.Reference) :=
  [AddNodes [node_10]; AddReferences [ref_10_11]].

(* ================================================================== *)
(** ** Further notions used in the statements *)

(** A name [clean_name] has nothing to do on: word characters only, and
    no digit of [[0-9]] in front. *)
Definition legal_name (isalnum : N -> bool) (s : pystr) : bool :=
  forallb (is_word isalnum) s
  && match s with
     | c :: _ => negb (is_digit09 c)
     | [] => true
     end.

(** The three tests of [make_structure_code] on the data type of a
    field: a built-in name, a registered structure, a registered enum. *)
Definition known_datatype (ua : UaModule) (dt : NodeId) : bool :=
  is_builtin ua dt
  || match lookup_nodeid dt (extension_objects_by_datatype ua) with
     | Some _ => true
     | None => false
     end
  || match lookup_nodeid dt (enums_by_datatype ua) with
     | Some _ => true
     | None => false
     end.

Definition not_union (d : DataTypeSorter.t) : bool :=
  negb (StructureType_eqb (StructureDefinition.StructureType (DataTypeSorter.sdef d)) Union).

(** A descriptor with only those of its dependencies that [keep]
    accepts. *)
Definition restrict_deps (keep : NodeId -> bool) (d : DataTypeSorter.t)
  : DataTypeSorter.t :=
  DataTypeSorter.mk (DataTypeSorter.data_type d) (DataTypeSorter.name d)
    (DataTypeSorter.desc d) (DataTypeSorter.sdef d) (DataTypeSorter.encoding_id d)
    (filter keep (DataTypeSorter.deps d)).

(** The nodes browsed by a sequence of server calls, in order. *)
Definition browsed (calls : list ServerCall) : list NodeId :=
  flat_map (fun c => match c with
                     | GetChildrenDescriptions n => [n]
                     | ReadDataTypeDefinition _ => []
                     end) calls.

(** The registrations [load_data_type_definitions] makes for the
    descriptors it compiles, from the first to the last. *)
Definition register_all (ua : UaModule) (dtypes : list DataTypeSorter.t) : UaModule :=
  fold_left (fun u d => register_extension_object u (DataTypeSorter.name d) (dts_id d))
            dtypes ua.

(** The items handed to [add_nodes] and to [add_references] by a body. *)
Definition submitted_nodes {AddNodesItem AddReferencesItem : Type}
  (body : list (Batch AddNodesItem AddReferencesItem)) : list AddNodesItem :=
  flat_map (fun b => match b with AddNodes nodes => nodes | AddReferences _ => [] end) body.

Definition submitted_refs {AddNodesItem AddReferencesItem : Type}
  (body : list (Batch AddNodesItem AddReferencesItem)) : list AddReferencesItem :=
  flat_map (fun b => match b with AddNodes _ => [] | AddReferences refs => refs end) body.

(* ================================================================== *)
(** ** [load_enums] *)

Section LoadEnums.

Variable isalnum : N -> bool.

(** The loop of [load_enums] over the descriptions of the children of
    the enumeration base type: the state of [ua] it leaves and the reads
    it makes.  An enumeration whose sanitized name is an attribute of
    [ua] is passed over before anything is read.  The class registered
    has the members the generated text names.

    The loop describes the runs in which [exec] accepts every generated
    class; [exec] is not modelled, and Python refuses the generated text
    when a member name is a keyword or is repeated.  What is stated of
    this loop is what such a run never does, or that two such runs
    agree. *)
Fixpoint load_enums_loop (ua : UaModule) (children : list (TypeNode EnumDefinition.t))
  : UaModule * list ServerCall :=
  match children with
  | [] => (ua, [])
  | child :: more =>
      let desc := node_desc child in
      let name := clean_name isalnum (ReferenceDescription.BrowseName desc) in
      if hasattr_ua ua name then load_enums_loop ua more
      else
        let (edef, reads) := _read_data_type_definition ua desc (node_definition child) in
        match edef with
        | None =>
            let (ua', calls) := load_enums_loop ua more in
            (ua', reads ++ calls)
        | Some edef =>
            let code := make_enum_code isalnum name edef in
            let ua1 :=
              register_enum ua name (ReferenceDescription.NodeId desc)
                (List.map fst (enum_members code)) in
            let (ua', calls) := load_enums_loop ua1 more in
            (ua', reads ++ calls)
        end
  end.

(** [load_enums(server, base_node)]. *)
Definition load_enums (ua : UaModule) (base_node : TypeNode EnumDefinition.t)
  : UaModule * list ServerCall :=
  let (ua', calls) := load_enums_loop ua (node_subtypes base_node) in
  (ua', GetChildrenDescriptions (ReferenceDescription.NodeId (node_desc base_node)) :: calls).

End LoadEnums.

(** A node without the subtypes below it. *)
Definition without_subtypes {D : Type} (n : TypeNode D) : TypeNode D :=
  mkTypeNode (node_desc n) (node_definition n) [].

(** The [if]/[elif] chain of [make_structure_code] on the data type of a
    field, before the adjustment for arrays of [Char]: the name found,
    if any. *)
Definition datatype_name (ua : UaModule) (dt : NodeId) : option pystr :=
  match (if NamespaceIndex dt =? 0 then ObjectIdNames_get ua (Identifier dt) else None) with
  | Some n => Some n
  | None =>
      match lookup_nodeid dt (extension_objects_by_datatype ua) with
      | Some n => Some n
      | None => lookup_nodeid dt (enums_by_datatype ua)
      end
  end.

(** The type names for which [get_default_value], called without
    [enums], returns: the literal names, and every other name unless it
    is an attribute of [ua] that is an [Enum] class without members or
    no class. *)
Definition has_default (ua : UaModule) (uatype : pystr) : bool :=
  match lookup_str uatype builtin_defaults with
  | Some _ => true
  | None =>
      match lookup_str uatype (ua_dir ua) with
      | Some (UaEnumClass []) => false
      | Some UaOther => false
      | _ => true
      end
  end.

(** A field the three loops of [make_structure_code] get through: its
    data type has a name, and it is of value rank one or more or the
    name has a default. *)
Definition field_compilable (ua : UaModule) (f : StructureField.t) : bool :=
  match datatype_name ua (StructureField.DataType f) with
  | Some uatype => (StructureField.ValueRank f >=? 1) || has_default ua uatype
  | None => false
  end.

(** Read from the front of [order]: every field either has the data
    type of a descriptor placed earlier ([registered]), that type being
    no built-in one, or is compilable with what [ua] holds already. *)
Fixpoint deps_usable (ua : UaModule) (registered : list NodeId)
  (order : list DataTypeSorter.t) : bool :=
  match order with
  | [] => true
  | d :: more =>
      forallb (fun f => (negb (is_builtin ua (StructureField.DataType f))
                         && NodeId_in (StructureField.DataType f) registered)
                        || field_compilable ua f)
              (StructureDefinition.Fields (DataTypeSorter.sdef d))
      && deps_usable ua (dts_id d :: registered) more
  end.

(** A fragment of the Unicode database: the Arabic-Indic digits U+0660
    to U+0669 are decimal digits ([str.isdigit], [\d]) and, like every
    digit, alphanumeric ([str.isalnum], [\w]). *)
Definition is_arabic_indic_digit (c : N) : bool := ((1632 <=? c) && (c <=? 1641))%N.

(** [str.isdigit] and [str.isalnum] on ASCII and on those digits. *)
Definition isdigit_fragment (c : N) : bool := is_digit09 c || is_arabic_indic_digit c.
Definition isalnum_fragment (c : N) : bool := ascii_isalnum c || is_arabic_indic_digit c.

(* ================================================================== *)
(** * Properties *)

Unset Implicit Arguments.

(** ** Strings and node ids *)

Lemma pystr_eqb_eq (a b : pystr) : pystr_eqb a b = true <-> a = b.
Proof.
  unfold pystr_eqb. destruct (list_eq_dec N.eq_dec a b); split; congruence.
Qed.

Lemma pystr_eqb_refl (a : pystr) : pystr_eqb a a = true.
Proof. now apply pystr_eqb_eq. Qed.

Lemma Identifier_eqb_eq (a b : NodeIdIdentifier) : Identifier_eqb a b = true <-> a = b.
Proof.
  destruct a, b; simpl; try (split; discriminate).
  - rewrite Z.eqb_eq. split; congruence.
  - rewrite pystr_eqb_eq. split; congruence.
  - rewrite N.eqb_eq. split; congruence.
  - rewrite pystr_eqb_eq. split; congruence.
Qed.

Lemma NodeId_eqb_eq (a b : NodeId) : NodeId_eqb a b = true <-> a = b.
Proof.
  unfold NodeId_eqb. rewrite andb_true_iff, Z.eqb_eq, Identifier_eqb_eq.
  destruct a, b; simpl. split.
  - intros [-> ->]. reflexivity.
  - intros H. inversion H. auto.
Qed.

Lemma NodeId_in_In (x : NodeId) (l : list NodeId) : NodeId_in x l = true <-> In x l.
Proof.
  unfold NodeId_in. rewrite existsb_exists. split.
  - intros (y & Hy & E). apply NodeId_eqb_eq in E. now subst.
  - intros H. exists x. split; [assumption | now apply NodeId_eqb_eq].
Qed.

(** ** [clean_name] *)

Section CleanNameFacts.

Variable isalnum : N -> bool.

Lemma is_word_underscore : is_word isalnum underscore = true.
Proof. unfold is_word. rewrite N.eqb_refl. apply orb_true_r. Qed.

Lemma underscore_not_digit : is_digit09 underscore = false.
Proof. reflexivity. Qed.

Lemma sub_nonword_words (in_run : bool) (s : pystr) :
  forallb (is_word isalnum) (sub_nonword isalnum in_run s) = true.
Proof.
  revert in_run. induction s as [|c t IH]; intros in_run; simpl.
  - reflexivity.
  - destruct (is_word isalnum c) eqn:W.
    + simpl. now rewrite W, IH.
    + destruct in_run; simpl.
      * apply IH.
      * now rewrite is_word_underscore, IH.
Qed.

Lemma sub_nonword_fixes_words (in_run : bool) (s : pystr) :
  forallb (is_word isalnum) s = true -> sub_nonword isalnum in_run s = s.
Proof.
  revert in_run. induction s as [|c t IH]; intros in_run H; simpl in *.
  - reflexivity.
  - apply andb_true_iff in H as [W Ht]. rewrite W. f_equal. now apply IH.
Qed.

Lemma take_drop_digits (s : pystr) : take_digits s ++ drop_digits s = s.
Proof.
  induction s as [|c t IH]; simpl; [reflexivity|].
  destruct (is_digit09 c); simpl; [now rewrite IH | reflexivity].
Qed.

(** The second substitution only ever adds one underscore in front. *)
Lemma sub_leading_digits_cases (s : pystr) :
  sub_leading_digits s =
  match s with
  | c :: _ => if is_digit09 c then underscore :: s else s
  | [] => []
  end.
Proof.
  unfold sub_leading_digits. destruct s as [|c t]; simpl; [reflexivity|].
  destruct (is_digit09 c) eqn:D; [|reflexivity].
  now rewrite take_drop_digits.
Qed.

Lemma sub_leading_digits_words (s : pystr) :
  forallb (is_word isalnum) s = true ->
  forallb (is_word isalnum) (sub_leading_digits s) = true.
Proof.
  intros H. rewrite sub_leading_digits_cases. destruct s as [|c t]; [reflexivity|].
  destruct (is_digit09 c); [|assumption].
  simpl in *. now rewrite is_word_underscore, H.
Qed.

Lemma sub_leading_digits_head (s : pystr) (c : N) (t : pystr) :
  sub_leading_digits s = c :: t -> is_digit09 c = false.
Proof.
  rewrite sub_leading_digits_cases. destruct s as [|c0 t0]; [discriminate|].
  destruct (is_digit09 c0) eqn:D; intros E; inversion E; subst.
  - apply underscore_not_digit.
  - assumption.
Qed.

Lemma clean_name_words (name : pystr) :
  forallb (is_word isalnum) (clean_name isalnum name) = true.
Proof.
  unfold clean_name. apply sub_leading_digits_words, sub_nonword_words.
Qed.

Lemma clean_name_head (name : pystr) (c : N) (t : pystr) :
  clean_name isalnum name = c :: t -> is_digit09 c = false.
Proof. unfold clean_name. apply sub_leading_digits_head. Qed.

Lemma clean_name_fixes_clean (s : pystr) :
  forallb (is_word isalnum) s = true ->
  (forall c t, s = c :: t -> is_digit09 c = false) ->
  clean_name isalnum s = s.
Proof.
  intros W Hd. unfold clean_name.
  rewrite (sub_nonword_fixes_words false s W), sub_leading_digits_cases.
  destruct s as [|c t]; [reflexivity|].
  now rewrite (Hd c t eq_refl).
Qed.

End CleanNameFacts.

(** C9, as the code has it. For every name [n] and every Unicode table
    behind [\w], [clean_name (clean_name n) = clean_name n]; [clean_name n]
    does not start with one of the ten ASCII digits [0-9], the only ones
    the second pattern looks for; and every character of [clean_name n]
    is a word character (alphanumeric or underscore). *)
Theorem clean_name_idempotent_and_legal (isalnum : N -> bool) (n : pystr) :
  clean_name isalnum (clean_name isalnum n) = clean_name isalnum n
  /\ (forall c t, clean_name isalnum n = c :: t -> is_digit09 c = false)
  /\ Forall (fun c => is_word isalnum c = true) (clean_name isalnum n).
Proof.
  split; [|split].
  - apply clean_name_fixes_clean.
    + apply clean_name_words.
    + apply clean_name_head.
  - apply clean_name_head.
  - apply Forall_forall. intros c Hc.
    pose proof (clean_name_words isalnum n) as W.
    rewrite forallb_forall in W. now apply W.
Qed.

(** The sanitizer at work on concrete names, with the ASCII table. *)
Example clean_name_examples :
  clean_name ascii_isalnum (str "9 lives--left!") = str "_9_lives_left_"
  /\ clean_name ascii_isalnum (str "Motor.Speed") = str "Motor_Speed"
  /\ clean_name ascii_isalnum (str "a, b") = clean_name ascii_isalnum (str "a_b")
  /\ clean_name_renames ascii_isalnum (str "Motor.Speed") = true
  /\ clean_name_renames ascii_isalnum (str "Motor_Speed") = false.
Proof. repeat split; reflexivity. Qed.

(** The digits of the second pattern are the ten ASCII digits: with any
    table in which the code point U+0663 (ARABIC-INDIC DIGIT THREE) and
    the letter [x] are alphanumeric, as they are for Python, the name made
    of the two is a word already and stays as it is. *)
Lemma clean_name_keeps_arabic_indic_three (isalnum : N -> bool) :
  isalnum 1635%N = true -> isalnum 120%N = true ->
  clean_name isalnum (1635%N :: str "x") = 1635%N :: str "x".
Proof.
  intros D X.
  assert (is_word isalnum 1635 = true) as WD by (unfold is_word; now rewrite D).
  assert (is_word isalnum 120 = true) as WX by (unfold is_word; now rewrite X).
  unfold clean_name. change (str "x") with [120%N].
  cbn [sub_nonword]. rewrite WD, WX. reflexivity.
Qed.

(** C9, as stated, fails on a digit outside [0-9]: U+0663 is a decimal
    digit ([str.isdigit] holds of it) and a word character, so
    [clean_name] returns the name made of it and of [x] unchanged, and
    the result starts with a digit. *)
Lemma clean_name_keeps_leading_digit :
  clean_name isalnum_fragment (1635%N :: str "x") = 1635%N :: str "x"
  /\ isdigit_fragment 1635 = true
  /\ ~ (forall (n : pystr) (c : N) (t : pystr),
          clean_name isalnum_fragment n = c :: t -> isdigit_fragment c = false).
Proof.
  assert (clean_name isalnum_fragment (1635%N :: str "x") = 1635%N :: str "x") as K
    by (apply clean_name_keeps_arabic_indic_three; reflexivity).
  split; [exact K|]. split; [reflexivity|].
  intros H. specialize (H _ _ _ K). vm_compute in H. discriminate H.
Qed.

(** ** Generated enumerations *)

(** [new_enum] numbers its fields from the counter on. *)
Lemma new_enum_fields_nth (values : list pystr) :
  forall (counter : Z) (i : nat) (f : EnumField.t),
    nth_error (new_enum_fields counter values) i = Some f ->
    EnumField.Value f = counter + Z.of_nat i.
Proof.
  induction values as [|v r IH]; intros counter i f H.
  - destruct i; discriminate.
  - destruct i as [|i]; simpl in H.
    + inversion H; subst; simpl. lia.
    + apply IH in H. lia.
Qed.

Lemma enum_members_nth (isalnum : N -> bool) (name : pystr)
  (edef : EnumDefinition.t) (i : nat) (f : EnumField.t) :
  nth_error (EnumDefinition.Fields edef) i = Some f ->
  nth_error (enum_members (make_enum_code isalnum name edef)) i
  = Some (clean_name isalnum (EnumField.Name f), EnumField.Value f).
Proof.
  intros H. unfold make_enum_code; simpl.
  rewrite nth_error_map, H. reflexivity.
Qed.

(** C4, as the code has it. The integer that the generated class assigns
    to the [i]-th field is the value carried in that field's
    [EnumField.Value]; the name is the sanitized field name. *)
Theorem make_enum_code_values (isalnum : N -> bool) (name : pystr)
  (edef : EnumDefinition.t) (i : nat) (f : EnumField.t) :
  nth_error (EnumDefinition.Fields edef) i = Some f ->
  nth_error (enum_members (make_enum_code isalnum name edef)) i
  = Some (clean_name isalnum (EnumField.Name f), EnumField.Value f).
Proof.
  intros H. destruct edef as [fields]. simpl in *.
  revert i H. induction fields as [|g r IH]; intros i H.
  - destruct i; discriminate.
  - destruct i as [|i]; simpl in *.
    + inversion H; subst. reflexivity.
    + now apply IH.
Qed.

Lemma make_enum_code_values_witness :
  nth_error (EnumDefinition.Fields Color_edef) 1
  = Some (EnumField.mk 20 (str "Green") (str "Green"))
  /\ nth_error (enum_members (make_enum_code ascii_isalnum (str "Color") Color_edef)) 1
     = Some (str "Green", 20).
Proof.
  split; [reflexivity|].
  exact (make_enum_code_values ascii_isalnum (str "Color") Color_edef 1
           (EnumField.mk 20 (str "Green") (str "Green")) eq_refl).
Defined.

(** C4, as stated, fails: the fields [Red], [Green], [Blue] carrying 10,
    20 and 30 are not registered as 0, 1, 2. *)
Lemma enum_values_are_not_positions :
  ~ (forall (i : nat) (f : EnumField.t),
       nth_error (EnumDefinition.Fields Color_edef) i = Some f ->
       exists n,
         nth_error (enum_members (make_enum_code ascii_isalnum (str "Color") Color_edef)) i
         = Some (n, Z.of_nat i)).
Proof.
  intros H.
  destruct (H 0%nat (EnumField.mk 10 (str "Red") (str "Red")) eq_refl) as [n E].
  vm_compute in E. discriminate E.
Qed.

(** X20. For a definition written by [new_enum] the carried value is the
    position, so there the generated values are 0, 1, 2, ... *)
Lemma new_enum_values_are_positions (isalnum : N -> bool) (name : pystr)
  (values : list pystr) (i : nat) (v : pystr) :
  nth_error values i = Some v ->
  nth_error (enum_members (make_enum_code isalnum name (new_enum_definition values))) i
  = Some (clean_name isalnum v, Z.of_nat i).
Proof.
  intros H.
  assert (exists f, nth_error (new_enum_fields 0 values) i = Some f
                    /\ EnumField.Name f = v) as (f & Hf & Hn).
  { clear name. generalize 0. revert i H.
    induction values as [|w r IH]; intros i H c.
    - destruct i; discriminate.
    - destruct i as [|i]; simpl in *.
      + inversion H; subst. eexists; split; reflexivity.
      + apply IH; assumption. }
  rewrite (enum_members_nth isalnum name (new_enum_definition values) i f Hf).
  rewrite Hn, (new_enum_fields_nth _ _ _ _ Hf). reflexivity.
Qed.

(** ** Generated structures *)

Section StructureCodeFacts.

Variable isalnum : N -> bool.
Variable ua : UaModule.

Lemma uatypes_loop_fields (struct_name : pystr) (fields : list StructureField.t) :
  forall uatypes,
    uatypes_loop ua struct_name fields = Returned uatypes ->
    List.map fst uatypes = fields.
Proof.
  induction fields as [|f r IH]; simpl; intros uatypes H.
  - inversion H. reflexivity.
  - destruct (resolve_uatype ua struct_name f) as [u|e]; simpl in H; [|discriminate].
    destruct (uatypes_loop ua struct_name r) as [rest|e]; simpl in H; [|discriminate].
    inversion H; subst; simpl. f_equal. now apply IH.
Qed.

Lemma ua_types_entry_name (uatypes : list (StructureField.t * pystr)) :
  List.map fst (List.map (ua_types_entry isalnum) uatypes)
  = List.map (fun f => clean_name isalnum (StructureField.Name f)) (List.map fst uatypes).
Proof.
  induction uatypes as [|[f u] r IH]; simpl; [reflexivity|]. now rewrite IH.
Qed.

Lemma switches_loop_length (fields : list StructureField.t) :
  forall counter,
    List.length (switches_loop isalnum counter fields)
    = List.length (filter StructureField.IsOptional fields).
Proof.
  induction fields as [|f r IH]; intros counter; simpl; [reflexivity|].
  destruct (StructureField.IsOptional f); simpl; now rewrite IH.
Qed.

Lemma switches_loop_nth (fields : list StructureField.t) :
  forall counter i f,
    nth_error (filter StructureField.IsOptional fields) i = Some f ->
    nth_error (switches_loop isalnum counter fields) i
    = Some (clean_name isalnum (StructureField.Name f), (str "Encoding", counter + Z.of_nat i)).
Proof.
  induction fields as [|g r IH]; intros counter i f H; simpl in *.
  - destruct i; discriminate.
  - destruct (StructureField.IsOptional g).
    + destruct i as [|i]; simpl in *.
      * inversion H; subst. now rewrite Z.add_0_r.
      * rewrite (IH (counter + 1) i f H). do 3 f_equal. lia.
    + now apply IH.
Qed.

Lemma init_loop_initializers (uatypes : list (StructureField.t * pystr)) :
  forall inits,
    init_loop isalnum ua uatypes = Returned inits ->
    Forall2 (field_initializer isalnum ua) uatypes inits.
Proof.
  induction uatypes as [|[f u] r IH]; simpl; intros inits H.
  - inversion H. constructor.
  - destruct (StructureField.ValueRank f >=? 1) eqn:R; simpl in H.
    + destruct (init_loop isalnum ua r) as [rest|e]; simpl in H; [|discriminate].
      inversion H; subst. constructor; [|now apply IH].
      split; simpl; [reflexivity|]. intros Hlt. rewrite Z.geb_leb in R. apply Z.leb_le in R. lia.
    + destruct (get_default_value ua u []) as [v|e] eqn:G; simpl in H; [|discriminate].
      destruct (init_loop isalnum ua r) as [rest|e]; simpl in H; [|discriminate].
      inversion H; subst. constructor; [|now apply IH].
      split; simpl.
      * intros Hge. rewrite Z.geb_leb in R. apply Z.leb_gt in R. lia.
      * intros _ _. exists v. split; [assumption | reflexivity].
Qed.

(** The parts of the class text when [make_structure_code] returns. *)
Lemma make_structure_code_returned (data_type : NodeId) (struct_name : pystr)
  (sdef : StructureDefinition.t) (code : StructureCode) :
  make_structure_code isalnum ua data_type struct_name sdef = Returned code ->
  exists uatypes inits,
    uatypes_loop ua struct_name (StructureDefinition.Fields sdef) = Returned uatypes
    /\ init_loop isalnum ua uatypes = Returned inits
    /\ ua_switches code =
       (if StructureType_eqb (StructureDefinition.StructureType sdef)
                             StructureWithOptionalFields
        then Some (switches_loop isalnum 0 (StructureDefinition.Fields sdef)) else None)
    /\ ua_types code =
       (if StructureType_eqb (StructureDefinition.StructureType sdef)
                             StructureWithOptionalFields
        then [(str "Encoding", str "Byte")] else [])
       ++ List.map (ua_types_entry isalnum) uatypes
    /\ init_body code = init_preamble sdef ++ inits.
Proof.
  unfold make_structure_code, init_preamble. intros H.
  destruct (negb _); [discriminate|].
  destruct (uatypes_loop ua struct_name (StructureDefinition.Fields sdef))
    as [uatypes|e]; simpl in H; [|discriminate].
  destruct (init_loop isalnum ua uatypes) as [inits|e] eqn:I; simpl in H; [|discriminate].
  inversion H; subst; simpl.
  exists uatypes, inits. repeat split; try assumption.
  now rewrite app_assoc.
Qed.

Lemma builtin_defaults_table (tag : pystr) (v : PyValue) (enums : list (pystr * Z)) :
  In (tag, v) builtin_defaults -> get_default_value ua tag enums = Returned v.
Proof.
  unfold builtin_defaults. simpl.
  intros H.
  repeat (destruct H as [H|H]; [inversion H; subst; reflexivity|]).
  contradiction.
Qed.

End StructureCodeFacts.

(** C6, as the code has it. The bitmask follows the declared
    [StructureType], not the flags of the fields.  When the type is
    [StructureWithOptionalFields], the first entry of [ua_types] is
    [('Encoding', 'Byte')], followed by one entry per field, and the
    [i]-th optional field in declaration order (counting optional fields
    only, from 0) is entered in [ua_switches] with bit [i].  When the
    type is [Structure], there is no [ua_switches] and [ua_types] has
    exactly one entry per field. *)
Theorem bitmask_follows_structure_type (isalnum : N -> bool) (ua : UaModule)
  (data_type : NodeId) (struct_name : pystr) (sdef : StructureDefinition.t)
  (code : StructureCode) :
  make_structure_code isalnum ua data_type struct_name sdef = Returned code ->
  (StructureDefinition.StructureType sdef = StructureWithOptionalFields ->
   exists entries switches,
     ua_types code = (str "Encoding", str "Byte") :: entries
     /\ List.map fst entries
        = List.map (fun f => clean_name isalnum (StructureField.Name f))
                   (StructureDefinition.Fields sdef)
     /\ ua_switches code = Some switches
     /\ List.length switches
        = List.length (filter StructureField.IsOptional (StructureDefinition.Fields sdef))
     /\ forall i f,
          nth_error (filter StructureField.IsOptional (StructureDefinition.Fields sdef)) i
          = Some f ->
          nth_error switches i
          = Some (clean_name isalnum (StructureField.Name f), (str "Encoding", Z.of_nat i)))
  /\ (StructureDefinition.StructureType sdef = Structure ->
      ua_switches code = None
      /\ List.map fst (ua_types code)
         = List.map (fun f => clean_name isalnum (StructureField.Name f))
                    (StructureDefinition.Fields sdef)).
Proof.
  intros H.
  destruct (make_structure_code_returned _ _ _ _ _ _ H)
    as (uatypes & inits & Hu & _ & Hs & Ht & _).
  apply uatypes_loop_fields in Hu.
  split; intros St; rewrite St in Hs, Ht; simpl in Hs, Ht.
  - exists (List.map (ua_types_entry isalnum) uatypes),
           (switches_loop isalnum 0 (StructureDefinition.Fields sdef)).
    repeat split; try assumption.
    + now rewrite ua_types_entry_name, Hu.
    + apply switches_loop_length.
    + intros i f Hf. now rewrite (switches_loop_nth isalnum _ 0 i f Hf).
  - split; [assumption|].
    now rewrite Ht, ua_types_entry_name, Hu.
Qed.

(** The bitmask example of the specification: [Speed] required,
    [Label] and [Note] optional. *)
Lemma bitmask_follows_structure_type_witness :
  exists code,
    make_structure_code ascii_isalnum ua_builtin (numeric_id 3410 2) (str "Reading")
      Reading_sdef = Returned code
    /\ ua_types code = [(str "Encoding", str "Byte"); (str "Speed", str "Double");
                        (str "Label", str "String"); (str "Note", str "String")]
    /\ ua_switches code = Some [(str "Label", (str "Encoding", 0));
                                (str "Note", (str "Encoding", 1))]
    /\ exists switches,
         ua_switches code = Some switches
         /\ nth_error switches 1 = Some (str "Note", (str "Encoding", 1)).
Proof.
  eexists. split; [vm_compute; reflexivity|].
  split; [reflexivity|]. split; [reflexivity|].
  destruct (bitmask_follows_structure_type ascii_isalnum ua_builtin (numeric_id 3410 2)
              (str "Reading") Reading_sdef _ eq_refl) as [Hopt _].
  destruct (Hopt eq_refl) as (entries & switches & _ & _ & Hs & _ & Hn).
  exists switches. split; [exact Hs|].
  exact (Hn 1%nat (new_struct_field (str "Note") (numeric_id 12 0) false true []) eq_refl).
Defined.

(** C6, as stated, fails.  [Derived] is declared a plain [Structure] and
    inherits the optional field [Note] of [Base]: its flattened schema
    contains an optional field, and its layout has neither the
    [Encoding] entry nor [ua_switches]. *)
Lemma optional_field_without_bitmask :
  exists dts code,
    nth_error (fst (_recursive_parse ascii_isalnum ua_builtin
                      (base_structure_type [Base_node]) None)) 1 = Some dts
    /\ DataTypeSorter.name dts = str "Derived"
    /\ existsb StructureField.IsOptional
         (StructureDefinition.Fields (DataTypeSorter.sdef dts)) = true
    /\ make_structure_code ascii_isalnum ua_builtin (DataTypeSorter.data_type dts)
         (DataTypeSorter.name dts) (DataTypeSorter.sdef dts) = Returned code
    /\ ua_types code = [(str "Note", str "String"); (str "Speed", str "Double")]
    /\ nth_error (ua_types code) 0 <> Some (str "Encoding", str "Byte")
    /\ ua_switches code = None.
Proof.
  eexists. eexists.
  split; [vm_compute; reflexivity|].
  split; [reflexivity|]. split; [reflexivity|].
  split; [vm_compute; reflexivity|].
  split; [reflexivity|]. split; [|reflexivity].
  vm_compute. discriminate.
Qed.

(** X21. A definition written by [new_struct] is typed
    [StructureWithOptionalFields] exactly when one of its fields is
    optional, so for such definitions the bitmask is present exactly when
    an optional field is. *)
Lemma new_struct_bitmask (isalnum : N -> bool) (ua : UaModule)
  (data_type base enc : NodeId) (struct_name : pystr)
  (fields : list StructureField.t) (code : StructureCode) :
  make_structure_code isalnum ua data_type struct_name
    (new_struct_definition base enc fields) = Returned code ->
  (existsb StructureField.IsOptional fields = true ->
   nth_error (ua_types code) 0 = Some (str "Encoding", str "Byte"))
  /\ (existsb StructureField.IsOptional fields = false ->
      ua_switches code = None /\ List.length (ua_types code) = List.length fields).
Proof.
  intros H.
  destruct (make_structure_code_returned _ _ _ _ _ _ H)
    as (uatypes & inits & Hu & _ & Hs & Ht & _).
  apply uatypes_loop_fields in Hu. simpl in Hu, Hs, Ht.
  split; intros E; rewrite E in Hs, Ht; simpl in Hs, Ht.
  - now rewrite Ht.
  - split; [assumption|].
    rewrite Ht, length_map, <- Hu, length_map. reflexivity.
Qed.

(** C5, as the code has it. After the preamble, [__init__] has one
    assignment per field, in field order: a field of value rank one or
    more is set to the empty list whatever its element type, and a scalar
    field (value rank below one, no array dimensions) is set to the
    default that [get_default_value] gives for its type name.  For the
    built-in names these defaults are: [None] for String, a fresh
    [uuid.uuid4()] for Guid, [b''] for ByteString, CharArray and Char,
    [True] for Boolean, [datetime.utcnow()] for DateTime and [0] for the
    numeric types. *)
Theorem default_initializers (isalnum : N -> bool) (ua : UaModule)
  (data_type : NodeId) (struct_name : pystr) (sdef : StructureDefinition.t)
  (code : StructureCode) :
  make_structure_code isalnum ua data_type struct_name sdef = Returned code ->
  (exists uatypes inits,
     uatypes_loop ua struct_name (StructureDefinition.Fields sdef) = Returned uatypes
     /\ List.map fst uatypes = StructureDefinition.Fields sdef
     /\ init_body code = init_preamble sdef ++ inits
     /\ Forall2 (field_initializer isalnum ua) uatypes inits)
  /\ (forall tag v enums,
        In (tag, v) builtin_defaults -> get_default_value ua tag enums = Returned v).
Proof.
  intros H.
  destruct (make_structure_code_returned _ _ _ _ _ _ H)
    as (uatypes & inits & Hu & Hi & _ & _ & Hb).
  split.
  - exists uatypes, inits. repeat split; try assumption.
    + now apply (uatypes_loop_fields ua struct_name).
    + now apply init_loop_initializers.
  - intros tag v enums. apply builtin_defaults_table.
Qed.

Lemma default_initializers_witness :
  exists code,
    make_structure_code ascii_isalnum ua_builtin (numeric_id 3510 2) (str "Status")
      Status_sdef = Returned code
    /\ init_body code = [Assign (str "Flag") (str "True");
                         Assign (str "Text") (str "None");
                         Assign (str "Samples") (str "[]");
                         Assign (str "Flags") (str "[]")]
    /\ exists uatypes inits,
         init_body code = init_preamble Status_sdef ++ inits
         /\ Forall2 (field_initializer ascii_isalnum ua_builtin) uatypes inits.
Proof.
  eexists. split; [vm_compute; reflexivity|].
  split; [reflexivity|].
  destruct (default_initializers ascii_isalnum ua_builtin (numeric_id 3510 2)
              (str "Status") Status_sdef _ eq_refl)
    as [(uatypes & inits & _ & _ & Hb & Hf) _].
  exists uatypes, inits. split; [exact Hb | exact Hf].
Defined.

(** C5, as stated, fails on scalars: in a fresh [Status] the Boolean
    field [Flag] is initialized to [True], not to false, and the String
    field [Text] to [None], not to the empty string. *)
Lemma scalar_defaults_are_not_zero_values :
  exists code,
    make_structure_code ascii_isalnum ua_builtin (numeric_id 3510 2) (str "Status")
      Status_sdef = Returned code
    /\ initializer_of (str "Flag") (init_body code) = Some (str "True")
    /\ eval_literal (str "True") = Some (ObjBool true)
    /\ zero_value_of_tag (str "Boolean") = Some (ObjBool false)
    /\ eval_literal (str "True") <> zero_value_of_tag (str "Boolean")
    /\ initializer_of (str "Text") (init_body code) = Some (str "None")
    /\ eval_literal (str "None") <> zero_value_of_tag (str "String").
Proof.
  eexists. split; [vm_compute; reflexivity|].
  repeat split; try reflexivity; vm_compute; discriminate.
Qed.

(** A field made by [new_struct_field] with [array=True] has value rank
    [OneOrMoreDimensions], which is 0: it is tagged [ListOf...] in
    [ua_types] through its array dimensions, and initialized like a
    scalar. *)
Example array_field_of_new_struct_field :
  exists code,
    make_structure_code ascii_isalnum ua_builtin (numeric_id 3520 2) (str "Series")
      (new_struct_definition base_data_type_id (numeric_id 3521 2)
         [new_struct_field (str "Samples") (numeric_id 11 0) true false []])
    = Returned code
    /\ ua_types code = [(str "Samples", str "ListOfDouble")]
    /\ init_body code = [Assign (str "Samples") (str "0")].
Proof. eexists. split; [vm_compute; reflexivity|]. split; reflexivity. Qed.

(** ** The discovery walk *)

(** Induction on a node with the property available for every subtype. *)
Lemma TypeNode_subtypes_ind (D : Type) (P : TypeNode D -> Prop) :
  (forall desc definition subtypes,
      Forall P subtypes -> P (mkTypeNode desc definition subtypes)) ->
  forall n, P n.
Proof.
  intros step.
  refine (fix IH (n : TypeNode D) : P n :=
            match n with
            | mkTypeNode desc definition subtypes =>
                step desc definition subtypes
                  ((fix all (l : list (TypeNode D)) : Forall P l :=
                      match l with
                      | [] => Forall_nil P
                      | x :: r => Forall_cons x (IH x) (all r)
                      end) subtypes)
            end).
Qed.

Lemma insert_parent_fields_app (parent_fields own_fields : list StructureField.t) :
  insert_parent_fields parent_fields own_fields = parent_fields ++ own_fields.
Proof.
  unfold insert_parent_fields.
  assert (forall l acc : list StructureField.t,
             fold_left (fun fields field => field :: fields) l acc = rev l ++ acc) as E.
  { induction l as [|x l IH]; intros acc; simpl; [reflexivity|].
    rewrite IH, <- app_assoc. reflexivity. }
  now rewrite E, rev_involutive.
Qed.

Section DiscoveryFacts.

Variable isalnum : N -> bool.
Variable ua : UaModule.

Lemma _recursive_parse_eq (base_desc : ReferenceDescription.t)
  (definition : ReadResult StructureDefinition.t)
  (children : list (TypeNode StructureDefinition.t))
  (parent_sdef : option StructureDefinition.t) :
  _recursive_parse isalnum ua (mkTypeNode base_desc definition children) parent_sdef
  = (fst (for_desc isalnum ua parent_sdef children),
     GetChildrenDescriptions (ReferenceDescription.NodeId base_desc)
       :: snd (for_desc isalnum ua parent_sdef children)).
Proof.
  simpl.
  match goal with
  | |- (let (_, _) := ?loop children in _) = _ =>
      assert (forall l, loop l = for_desc isalnum ua parent_sdef l) as E
  end.
  { induction l as [|c r IH]; [reflexivity|].
    simpl. rewrite IH. reflexivity. }
  rewrite E. destruct (for_desc isalnum ua parent_sdef children). reflexivity.
Qed.

Lemma for_desc_skip (parent_sdef : option StructureDefinition.t)
  (child : TypeNode StructureDefinition.t)
  (more : list (TypeNode StructureDefinition.t)) :
  fst (_read_data_type_definition ua (node_desc child) (node_definition child)) = None ->
  for_desc isalnum ua parent_sdef (child :: more)
  = (fst (for_desc isalnum ua parent_sdef more),
     snd (_read_data_type_definition ua (node_desc child) (node_definition child))
       ++ snd (for_desc isalnum ua parent_sdef more)).
Proof.
  intros H. simpl.
  destruct (_read_data_type_definition ua (node_desc child) (node_definition child))
    as [sdef reads].
  simpl in H. subst sdef.
  destruct (for_desc isalnum ua parent_sdef more). reflexivity.
Qed.

Lemma for_desc_visit (parent_sdef : option StructureDefinition.t)
  (child : TypeNode StructureDefinition.t)
  (more : list (TypeNode StructureDefinition.t)) (own : StructureDefinition.t) :
  fst (_read_data_type_definition ua (node_desc child) (node_definition child)) = Some own ->
  let sdef := inherit_fields parent_sdef own in
  let dts :=
    DataTypeSorter.init (ReferenceDescription.NodeId (node_desc child))
      (clean_name isalnum (ReferenceDescription.BrowseName (node_desc child)))
      (node_desc child) sdef in
  for_desc isalnum ua parent_sdef (child :: more)
  = (dts :: fst (_recursive_parse isalnum ua child (Some sdef))
           ++ fst (for_desc isalnum ua parent_sdef more),
     snd (_read_data_type_definition ua (node_desc child) (node_definition child))
       ++ snd (_recursive_parse isalnum ua child (Some sdef))
       ++ snd (for_desc isalnum ua parent_sdef more)).
Proof.
  intros H. cbv zeta. simpl for_desc.
  destruct (_read_data_type_definition ua (node_desc child) (node_definition child))
    as [sdef reads].
  simpl in H. subst sdef.
  destruct (_recursive_parse isalnum ua child (Some (inherit_fields parent_sdef own))).
  destruct (for_desc isalnum ua parent_sdef more). reflexivity.
Qed.

Lemma for_desc_app (parent_sdef : option StructureDefinition.t)
  (l1 l2 : list (TypeNode StructureDefinition.t)) :
  for_desc isalnum ua parent_sdef (l1 ++ l2)
  = (fst (for_desc isalnum ua parent_sdef l1) ++ fst (for_desc isalnum ua parent_sdef l2),
     snd (for_desc isalnum ua parent_sdef l1) ++ snd (for_desc isalnum ua parent_sdef l2)).
Proof.
  induction l1 as [|c r IH].
  - simpl. destruct (for_desc isalnum ua parent_sdef l2). reflexivity.
  - destruct (fst (_read_data_type_definition ua (node_desc c) (node_definition c)))
      as [own|] eqn:R.
    + rewrite <- app_comm_cons.
      rewrite (for_desc_visit parent_sdef c (r ++ l2) own R).
      rewrite (for_desc_visit parent_sdef c r own R).
      rewrite IH. simpl. rewrite <- !app_assoc. reflexivity.
    + rewrite <- app_comm_cons.
      rewrite (for_desc_skip parent_sdef c (r ++ l2) R).
      rewrite (for_desc_skip parent_sdef c r R).
      rewrite IH. simpl. rewrite <- !app_assoc. reflexivity.
Qed.

Lemma no_schema_reads_none (D : Type) (desc : ReferenceDescription.t)
  (definition : ReadResult D) :
  yields_no_schema ua desc definition <->
  fst (_read_data_type_definition ua desc definition) = None.
Proof.
  unfold yields_no_schema, _read_data_type_definition.
  destruct (pystr_eqb (ReferenceDescription.BrowseName desc) (str "FilterOperand")) eqn:F.
  - apply pystr_eqb_eq in F. tauto.
  - destruct (hasattr_ua ua (ReferenceDescription.BrowseName desc)) eqn:A.
    + tauto.
    + assert (ReferenceDescription.BrowseName desc <> str "FilterOperand") as NF.
      { intros E. apply pystr_eqb_eq in E. congruence. }
      destruct definition; simpl; split; intros H;
        try reflexivity; try discriminate; try tauto.
      destruct H as [H|[H|[H|H]]]; congruence.
Qed.

(** The server calls made for a node without schema do not depend on
    its subtypes. *)
Lemma for_desc_skip_any_subtypes (parent_sdef : option StructureDefinition.t)
  (desc : ReferenceDescription.t) (definition : ReadResult StructureDefinition.t)
  (subtypes subtypes' : list (TypeNode StructureDefinition.t))
  (more : list (TypeNode StructureDefinition.t)) :
  fst (_read_data_type_definition ua desc definition) = None ->
  for_desc isalnum ua parent_sdef (mkTypeNode desc definition subtypes :: more)
  = for_desc isalnum ua parent_sdef (mkTypeNode desc definition subtypes' :: more).
Proof.
  intros H.
  rewrite (for_desc_skip parent_sdef (mkTypeNode desc definition subtypes) more H).
  rewrite (for_desc_skip parent_sdef (mkTypeNode desc definition subtypes') more H).
  reflexivity.
Qed.

End DiscoveryFacts.

(** C10. When the schema read for a node yields nothing (its browse name
    is [FilterOperand], or is already an attribute of [ua], or the node
    has no DataTypeDefinition attribute, or the read fails), the walk
    registers nothing for the node and never looks below it: whatever
    subtypes hang under the node, the descriptors found and the calls
    made on the server are the same, and the descriptors are those of
    the walk without the node. *)
Theorem skipped_node_hides_its_subtree (isalnum : N -> bool) (ua : UaModule)
  (base_desc : ReferenceDescription.t) (base_definition : ReadResult StructureDefinition.t)
  (before after : list (TypeNode StructureDefinition.t))
  (desc : ReferenceDescription.t) (definition : ReadResult StructureDefinition.t)
  (subtypes : list (TypeNode StructureDefinition.t))
  (parent_sdef : option StructureDefinition.t) :
  yields_no_schema ua desc definition ->
  fst (_read_data_type_definition ua desc definition) = None
  /\ (forall subtypes',
        _recursive_parse isalnum ua
          (mkTypeNode base_desc base_definition
             (before ++ mkTypeNode desc definition subtypes :: after)) parent_sdef
        = _recursive_parse isalnum ua
            (mkTypeNode base_desc base_definition
               (before ++ mkTypeNode desc definition subtypes' :: after)) parent_sdef)
  /\ fst (_recursive_parse isalnum ua
            (mkTypeNode base_desc base_definition
               (before ++ mkTypeNode desc definition subtypes :: after)) parent_sdef)
     = fst (_recursive_parse isalnum ua
              (mkTypeNode base_desc base_definition (before ++ after)) parent_sdef).
Proof.
  intros H. apply no_schema_reads_none in H.
  split; [assumption|]. split.
  - intros subtypes'. rewrite !_recursive_parse_eq, !for_desc_app.
    now rewrite (for_desc_skip_any_subtypes isalnum ua parent_sdef desc definition
                   subtypes subtypes' after H).
  - rewrite !_recursive_parse_eq, !for_desc_app. cbn [fst].
    now rewrite (for_desc_skip isalnum ua parent_sdef
                   (mkTypeNode desc definition subtypes) after H).
Qed.

(** The built-in [Argument] and a node without DataTypeDefinition, each
    with the custom type [MyArgument] below: nothing is registered, and
    [MyArgument] is neither browsed nor read. *)
Lemma skipped_node_hides_its_subtree_witness :
  yields_no_schema ua_builtin (node_desc Argument_node) (node_definition Argument_node)
  /\ fst (_recursive_parse ascii_isalnum ua_builtin
            (base_structure_type [Argument_node; Abstract_node]) None)
     = fst (_recursive_parse ascii_isalnum ua_builtin
              (base_structure_type [Abstract_node]) None)
  /\ _recursive_parse ascii_isalnum ua_builtin
       (base_structure_type [Argument_node; Abstract_node]) None
     = ([], [GetChildrenDescriptions (numeric_id 22 0);
             ReadDataTypeDefinition (numeric_id 3700 2)]).
Proof.
  assert (yields_no_schema ua_builtin (node_desc Argument_node)
            (node_definition Argument_node)) as H.
  { right; left. reflexivity. }
  split; [exact H|]. split; [|reflexivity].
  exact (proj2 (proj2
    (skipped_node_hides_its_subtree ascii_isalnum ua_builtin
       base_structure_type_desc BadAttributeIdInvalid [] [Abstract_node]
       (node_desc Argument_node) (node_definition Argument_node)
       [MyArgument_node] None H))).
Defined.

(** C7. A subtype whose schema is read is entered with the fields of
    the parent schema it was given, in the parent's order, followed by
    its own fields in declared order, nothing renamed, dropped or merged;
    and its own subtypes are walked with that flattened schema as their
    parent. *)
Theorem subtype_fields_are_parent_then_own (isalnum : N -> bool) (ua : UaModule)
  (base_desc : ReferenceDescription.t) (base_definition : ReadResult StructureDefinition.t)
  (before after : list (TypeNode StructureDefinition.t))
  (child : TypeNode StructureDefinition.t) (parent own : StructureDefinition.t) :
  fst (_read_data_type_definition ua (node_desc child) (node_definition child)) = Some own ->
  exists dts,
    fst (_recursive_parse isalnum ua
           (mkTypeNode base_desc base_definition (before ++ child :: after)) (Some parent))
    = fst (_recursive_parse isalnum ua
             (mkTypeNode base_desc base_definition before) (Some parent))
      ++ dts :: fst (_recursive_parse isalnum ua child (Some (DataTypeSorter.sdef dts)))
      ++ fst (_recursive_parse isalnum ua
                (mkTypeNode base_desc base_definition after) (Some parent))
    /\ DataTypeSorter.desc dts = node_desc child
    /\ StructureDefinition.Fields (DataTypeSorter.sdef dts)
       = StructureDefinition.Fields parent ++ StructureDefinition.Fields own.
Proof.
  intros H.
  exists (DataTypeSorter.init (ReferenceDescription.NodeId (node_desc child))
            (clean_name isalnum (ReferenceDescription.BrowseName (node_desc child)))
            (node_desc child) (inherit_fields (Some parent) own)).
  rewrite !_recursive_parse_eq, for_desc_app. cbn [fst].
  rewrite (for_desc_visit isalnum ua (Some parent) child after own H). cbn [fst].
  split; [reflexivity|]. split; [reflexivity|].
  simpl. apply insert_parent_fields_app.
Qed.

(** The inheritance example of the specification: [A] declares [X],
    its subtype [B] declares [Y], and [B] is entered with [X; Y]. *)
Lemma subtype_fields_are_parent_then_own_witness :
  exists parent own dts,
    fst (_read_data_type_definition ua_builtin (node_desc B_node) (node_definition B_node))
    = Some own
    /\ List.map StructureField.Name (StructureDefinition.Fields parent) = [str "X"]
    /\ List.map StructureField.Name (StructureDefinition.Fields own) = [str "Y"]
    /\ DataTypeSorter.desc dts = node_desc B_node
    /\ StructureDefinition.Fields (DataTypeSorter.sdef dts)
       = StructureDefinition.Fields parent ++ StructureDefinition.Fields own.
Proof.
  pose (parent := StructureDefinition.mk (numeric_id 3211 2) base_data_type_id Structure
                    [scalar_field (str "X") 6]).
  pose (own := StructureDefinition.mk (numeric_id 3221 2) base_data_type_id Structure
                 [scalar_field (str "Y") 12]).
  destruct (subtype_fields_are_parent_then_own ascii_isalnum ua_builtin
              (node_desc A_node) (node_definition A_node) [] [B2_node] B_node
              parent own eq_refl) as (dts & _ & Hd & Hf).
  exists parent, own, dts.
  split; [reflexivity|]. split; [reflexivity|]. split; [reflexivity|].
  split; [exact Hd | exact Hf].
Defined.

(** The whole walk on that example: [B] gets [X; Y]; [B2], which
    declares a field named [X] again, gets both fields [X]. *)
Example inheritance_walk :
  List.map (fun d => (DataTypeSorter.name d,
                      List.map StructureField.Name
                        (StructureDefinition.Fields (DataTypeSorter.sdef d))))
           (fst (_recursive_parse ascii_isalnum ua_builtin
                   (base_structure_type [A_node]) None))
  = [(str "A", [str "X"]); (str "B", [str "X"; str "Y"]);
     (str "B2", [str "X"; str "X"])].
Proof. reflexivity. Qed.

(** X11. Inheritance reaches every descendant: each descriptor found below
    a node walked with parent schema [parent] starts with the fields of
    [parent]. *)
Lemma walk_inherits_parent_fields (isalnum : N -> bool) (ua : UaModule)
  (base_node : TypeNode StructureDefinition.t) :
  forall parent,
    Forall (fun d => exists own_part,
                StructureDefinition.Fields (DataTypeSorter.sdef d)
                = StructureDefinition.Fields parent ++ own_part)
           (fst (_recursive_parse isalnum ua base_node (Some parent))).
Proof.
  induction base_node as [base_desc definition children IH]
    using TypeNode_subtypes_ind.
  intros parent. rewrite _recursive_parse_eq. cbn [fst].
  induction children as [|c r IHr]; [constructor|].
  inversion IH as [|? ? Hc Hr]; subst.
  destruct (fst (_read_data_type_definition ua (node_desc c) (node_definition c)))
    as [own|] eqn:R.
  - rewrite (for_desc_visit isalnum ua (Some parent) c r own R). cbn [fst].
    constructor.
    + exists (StructureDefinition.Fields own). simpl.
      apply insert_parent_fields_app.
    + apply Forall_app. split; [|now apply IHr].
      eapply Forall_impl; [|apply Hc].
      intros d [own_part E]. simpl in E.
      rewrite insert_parent_fields_app, <- app_assoc in E.
      eexists. exact E.
  - rewrite (for_desc_skip isalnum ua (Some parent) c r R). cbn [fst].
    now apply IHr.
Qed.

(** ** Recorded dependencies *)

(** Whatever holds of every freshly built descriptor holds of every
    descriptor the walk finds. *)
Lemma walk_descriptors_Forall (isalnum : N -> bool) (ua : UaModule)
  (Q : DataTypeSorter.t -> Prop) :
  (forall data_type name desc sdef, Q (DataTypeSorter.init data_type name desc sdef)) ->
  forall base_node parent_sdef,
    Forall Q (fst (_recursive_parse isalnum ua base_node parent_sdef)).
Proof.
  intros HQ base_node.
  induction base_node as [base_desc definition children IH]
    using TypeNode_subtypes_ind.
  intros parent_sdef. rewrite _recursive_parse_eq. cbn [fst].
  induction children as [|c r IHr]; [constructor|].
  inversion IH as [|? ? Hc Hr]; subst.
  destruct (fst (_read_data_type_definition ua (node_desc c) (node_definition c)))
    as [own|] eqn:R.
  - rewrite (for_desc_visit isalnum ua parent_sdef c r own R). cbn [fst].
    constructor; [apply HQ|].
    apply Forall_app. split; [apply Hc | now apply IHr].
  - rewrite (for_desc_skip isalnum ua parent_sdef c r R). cbn [fst].
    now apply IHr.
Qed.

(** C8, as the code has it. The dependencies recorded for a discovered
    descriptor are the data types of all the fields of its (flattened)
    schema, in field order, built-in and custom alike: nothing is
    filtered. *)
Theorem deps_are_all_field_types (isalnum : N -> bool) (ua : UaModule)
  (base_node : TypeNode StructureDefinition.t)
  (parent_sdef : option StructureDefinition.t) :
  Forall (fun d => DataTypeSorter.deps d
                   = List.map StructureField.DataType
                       (StructureDefinition.Fields (DataTypeSorter.sdef d)))
         (fst (_recursive_parse isalnum ua base_node parent_sdef)).
Proof.
  apply walk_descriptors_Forall. intros. reflexivity.
Qed.

(** C8, as stated, fails: the descriptor of [A], whose only field is an
    Int32, records the built-in type [i=6] as a dependency. *)
Lemma deps_contain_builtin_types :
  exists dts,
    nth_error (fst (_recursive_parse ascii_isalnum ua_builtin
                      (base_structure_type [A_node]) None)) 0 = Some dts
    /\ DataTypeSorter.name dts = str "A"
    /\ DataTypeSorter.deps dts = [numeric_id 6 0]
    /\ is_builtin ua_builtin (numeric_id 6 0) = true
    /\ ~ (forall dep, In dep (DataTypeSorter.deps dts) -> is_builtin ua_builtin dep = false).
Proof.
  eexists. split; [vm_compute; reflexivity|].
  split; [reflexivity|]. split; [reflexivity|]. split; [reflexivity|].
  intros H. specialize (H (numeric_id 6 0) (or_introl eq_refl)).
  vm_compute in H. discriminate H.
Qed.

(** A recorded dependency only matters to [__lt__] when it is the node
    id of the descriptor compared: dropping from [deps] every node id
    that [keep] rejects leaves the comparison with a kept descriptor
    unchanged.  Built-in field types, which are the id of no
    discovered descriptor, are such node ids. *)
Lemma lt_ignores_other_deps (keep : NodeId -> bool) (a b : DataTypeSorter.t) :
  keep (dts_id a) = true ->
  DataTypeSorter.lt a b
  = DataTypeSorter.lt a
      (DataTypeSorter.mk (DataTypeSorter.data_type b) (DataTypeSorter.name b)
         (DataTypeSorter.desc b) (DataTypeSorter.sdef b) (DataTypeSorter.encoding_id b)
         (filter keep (DataTypeSorter.deps b))).
Proof.
  intros K. unfold DataTypeSorter.lt. simpl.
  fold (dts_id a).
  destruct (NodeId_in (dts_id a) (DataTypeSorter.deps b)) eqn:E.
  - apply NodeId_in_In in E.
    assert (In (dts_id a) (filter keep (DataTypeSorter.deps b))) as F
      by (apply filter_In; tauto).
    apply NodeId_in_In in F. now rewrite F.
  - destruct (NodeId_in (dts_id a) (filter keep (DataTypeSorter.deps b))) eqn:F;
      [|reflexivity].
    apply NodeId_in_In, filter_In in F. destruct F as [F _].
    apply NodeId_in_In in F. congruence.
Qed.

(** ** [list.sort] *)

Section ListSortFacts.

Variable A : Type.
Variable ISLT : A -> A -> bool.

(** The binary search stops before its fuel does: more fuel than the
    width of the interval searched changes nothing. *)
Lemma bisect_fuel (sorted : list A) (pivot : A) :
  forall fuel fuel' l r,
    (r - l < fuel)%nat -> (r - l < fuel')%nat ->
    bisect ISLT fuel sorted pivot l r = bisect ISLT fuel' sorted pivot l r.
Proof.
  induction fuel as [|fuel IH]; intros fuel' l r H H'; [lia|].
  destruct fuel' as [|fuel']; [lia|].
  simpl.
  destruct (nth_error sorted (l + Nat.div2 (r - l))) as [x|]; [|reflexivity].
  pose proof (Nat.le_div2_diag_l (r - l)) as D.
  destruct (ISLT pivot x).
  - destruct (l <? l + Nat.div2 (r - l))%nat eqn:C; [|reflexivity].
    apply Nat.ltb_lt in C.
    assert (r - l <> 0)%nat as NZ.
    { intros E. rewrite E in C. simpl in C. lia. }
    pose proof (Nat.lt_div2_diag_l (r - l) NZ).
    apply IH; lia.
  - destruct (S (l + Nat.div2 (r - l)) <? r)%nat eqn:C; [|reflexivity].
    apply Nat.ltb_lt in C.
    generalize dependent (Nat.div2 (r - l)). intros d _ C.
    apply IH; lia.
Qed.

Lemma binary_insert_perm (sorted : list A) (pivot : A) :
  Permutation (pivot :: sorted) (binary_insert ISLT sorted pivot).
Proof.
  unfold binary_insert.
  set (l := bisect ISLT _ sorted pivot _ _).
  rewrite <- (firstn_skipn l sorted) at 1.
  apply Permutation_middle.
Qed.

Lemma binarysort_perm (rest : list A) :
  forall sorted, Permutation (sorted ++ rest) (binarysort ISLT sorted rest).
Proof.
  unfold binarysort.
  induction rest as [|x r IH]; intros sorted; simpl.
  - now rewrite app_nil_r.
  - rewrite <- IH. rewrite <- Permutation_middle.
    change (Permutation ((x :: sorted) ++ r) (binary_insert ISLT sorted x ++ r)).
    apply Permutation_app_tail, binary_insert_perm.
Qed.

Lemma listsort_perm (l : list A) : Permutation l (listsort ISLT l).
Proof.
  unfold listsort.
  destruct (List.length l <? 2)%nat; [reflexivity|].
  destruct (count_run ISLT l) as [n descending].
  rewrite <- binarysort_perm.
  rewrite <- (firstn_skipn n l) at 1.
  apply Permutation_app_tail.
  destruct descending; [apply Permutation_rev | reflexivity].
Qed.

Lemma run_ascending_all (l : list A) :
  forall prev, ascending_from ISLT prev l = true ->
               run_ascending ISLT prev l = List.length l.
Proof.
  induction l as [|x r IH]; intros prev H; simpl in *; [reflexivity|].
  apply andb_true_iff in H as [Hx Hr].
  apply negb_true_iff in Hx. rewrite Hx. f_equal. now apply IH.
Qed.

(** A list in which no element is less than the one before it is one
    ascending run: the sort returns it as it is. *)
Lemma listsort_ascending (l : list A) :
  ascending ISLT l = true -> listsort ISLT l = l.
Proof.
  intros H. unfold listsort.
  destruct (List.length l <? 2)%nat; [reflexivity|].
  destruct l as [|x0 [|x1 r]]; try reflexivity.
  simpl in H. apply andb_true_iff in H as [H1 Hr].
  apply negb_true_iff in H1.
  unfold count_run. rewrite H1, (run_ascending_all r x1 Hr).
  change (2 + List.length r)%nat with (List.length (x0 :: x1 :: r)).
  rewrite firstn_all, skipn_all. reflexivity.
Qed.

End ListSortFacts.

(** ** The dependency ordering step *)

Lemma dtypes_sort_perm (dtypes : list DataTypeSorter.t) :
  Permutation dtypes (dtypes_sort dtypes).
Proof. apply listsort_perm. Qed.

(** A discovered order in which no descriptor is directly followed by
    one of its own dependencies is left as it is, wherever else in the
    list its dependencies stand. *)
Lemma dtypes_sort_keeps_ascending (dtypes : list DataTypeSorter.t) :
  ascending DataTypeSorter.lt dtypes = true -> dtypes_sort dtypes = dtypes.
Proof. apply listsort_ascending. Qed.

Lemma Permutation_reverse3 (A : Type) (a b c : A) : Permutation [a; b; c] [c; b; a].
Proof.
  apply (Permutation_rev [a; b; c]).
Qed.

(** *** A valid order excludes a cycle *)

Lemma index_of_app_in (x : NodeId) (l1 l2 : list NodeId) :
  In x l1 -> (index_of x (l1 ++ l2) < List.length l1)%nat.
Proof.
  induction l1 as [|y r IH]; intros H; [contradiction|].
  simpl. destruct (NodeId_eqb x y) eqn:E; [lia|].
  destruct H as [H|H].
  - subst. assert (NodeId_eqb x x = true) by now apply NodeId_eqb_eq. congruence.
  - apply IH in H. lia.
Qed.

Lemma index_of_app_notin (x : NodeId) (l1 l2 : list NodeId) :
  ~ In x l1 -> index_of x (l1 ++ x :: l2) = List.length l1.
Proof.
  induction l1 as [|y r IH]; intros H; simpl.
  - assert (NodeId_eqb x x = true) as E by now apply NodeId_eqb_eq. now rewrite E.
  - destruct (NodeId_eqb x y) eqn:E.
    + apply NodeId_eqb_eq in E. subst. exfalso. apply H. now left.
    + f_equal. apply IH. intros I. apply H. now right.
Qed.

(** What [dependencies_first] checks, at any place of the order. *)
Lemma dependencies_first_before (all : list NodeId) (order : list DataTypeSorter.t) :
  forall earlier,
    dependencies_first all earlier order = true ->
    forall l1 d l2 dep,
      order = l1 ++ d :: l2 ->
      In dep (DataTypeSorter.deps d) -> In dep all ->
      In dep earlier \/ In dep (List.map dts_id l1).
Proof.
  induction order as [|x r IH]; intros earlier H l1 d l2 dep E Hdep Hall.
  - destruct l1; discriminate.
  - simpl in H. apply andb_true_iff in H as [Hx Hr].
    destruct l1 as [|y l1]; simpl in E; inversion E; subst.
    + rewrite forallb_forall in Hx. specialize (Hx dep Hdep).
      apply NodeId_in_In in Hall. rewrite Hall in Hx. simpl in Hx.
      left. now apply NodeId_in_In.
    + destruct (IH _ Hr l1 d l2 dep eq_refl Hdep Hall) as [[I|I]|I].
      * right. left. exact I.
      * left. exact I.
      * right. right. exact I.
Qed.

Lemma depends_on_index (order : list DataTypeSorter.t) (a b : DataTypeSorter.t) :
  NoDup (List.map dts_id order) ->
  topological_order order = true ->
  depends_on order a b ->
  (index_of (dts_id b) (List.map dts_id order)
   < index_of (dts_id a) (List.map dts_id order))%nat.
Proof.
  intros ND T (Ia & Ib & D).
  apply NodeId_in_In in D.
  destruct (in_split a order Ia) as (l1 & l2 & E).
  assert (In (dts_id b) (List.map dts_id order)) as Hall by now apply in_map.
  destruct (dependencies_first_before _ _ _ T l1 a l2 (dts_id b) E D Hall) as [I|I];
    [contradiction|].
  rewrite E, map_app in *. simpl in *.
  apply NoDup_remove_2 in ND.
  rewrite index_of_app_notin.
  - now apply index_of_app_in.
  - intros J. apply ND. apply in_or_app. now left.
Qed.

Lemma reaches_index (order : list DataTypeSorter.t) (a b : DataTypeSorter.t) :
  NoDup (List.map dts_id order) ->
  topological_order order = true ->
  reaches order a b ->
  (index_of (dts_id b) (List.map dts_id order)
   < index_of (dts_id a) (List.map dts_id order))%nat.
Proof.
  intros ND T R. induction R as [a b D | a b c D R IH].
  - now apply depends_on_index.
  - pose proof (depends_on_index order a b ND T D). lia.
Qed.

(** An order that puts every type after its dependencies has no cycle,
    when no two descriptors share a node id. *)
Lemma topological_order_no_cycle (order : list DataTypeSorter.t) :
  NoDup (List.map dts_id order) ->
  topological_order order = true ->
  ~ has_cycle order.
Proof.
  intros ND T [d R]. pose proof (reaches_index order d d ND T R). lia.
Qed.

Lemma reaches_perm (l l' : list DataTypeSorter.t) (a b : DataTypeSorter.t) :
  Permutation l l' -> reaches l a b -> reaches l' a b.
Proof.
  intros P R.
  assert (forall x y, depends_on l x y -> depends_on l' x y) as D.
  { intros x y (Ix & Iy & H).
    repeat split; try assumption; eapply Permutation_in; eassumption. }
  induction R as [a b H | a b c H R IH].
  - apply reaches_step. now apply D.
  - apply reaches_trans with (b := b); [now apply D | assumption].
Qed.

(** The two readings of "acyclic" agree. *)
Lemma acyclic_no_cycle (dtypes : list DataTypeSorter.t) :
  NoDup (List.map dts_id dtypes) -> acyclic dtypes -> ~ has_cycle dtypes.
Proof.
  intros ND (order & P & T) [d R].
  apply (topological_order_no_cycle order).
  - eapply Permutation_NoDup; [|exact ND]. now apply Permutation_map.
  - exact T.
  - exists d. now apply (reaches_perm dtypes order).
Qed.

(** So a set with a cycle is returned by the sort in an order that is
    not a dependency order. *)
Lemma cyclic_set_is_returned_unordered (dtypes : list DataTypeSorter.t) :
  NoDup (List.map dts_id dtypes) ->
  has_cycle dtypes ->
  topological_order (dtypes_sort dtypes) = false.
Proof.
  intros ND C.
  destruct (topological_order (dtypes_sort dtypes)) eqn:T; [|reflexivity].
  exfalso. apply (acyclic_no_cycle dtypes ND); [|exact C].
  exists (dtypes_sort dtypes). split; [apply dtypes_sort_perm | exact T].
Qed.

(** C1 fails on the code. [Pump], [Limits] and [Vendor] are three root
    types found in that order; [Pump] has a field of type [Vendor].  The
    set is acyclic: [Vendor; Limits; Pump] puts every type after its
    dependencies, and no type reaches itself.  [Limits] is not less than [Pump] and [Vendor] is not
    less than [Limits], so the sort takes the list for one ascending run
    and returns it unchanged, [Pump] before [Vendor]; the same set found
    in the order [Vendor; Limits; Pump] is returned in a valid order.
    With the first order the loader fails on the field [Maker] of [Pump],
    whose type is not registered yet; with the second it registers all
    three types. *)
Theorem sort_leaves_type_before_its_dependency :
  Permutation (discovered [Pump_node; Limits_node; Vendor_node])
              (discovered [Vendor_node; Limits_node; Pump_node])
  /\ topological_order (discovered [Vendor_node; Limits_node; Pump_node]) = true
  /\ acyclic (discovered [Pump_node; Limits_node; Vendor_node])
  /\ ~ has_cycle (discovered [Pump_node; Limits_node; Vendor_node])
  /\ ascending DataTypeSorter.lt (discovered [Pump_node; Limits_node; Vendor_node]) = true
  /\ dtypes_sort (discovered [Pump_node; Limits_node; Vendor_node])
     = discovered [Pump_node; Limits_node; Vendor_node]
  /\ topological_order (dtypes_sort (discovered [Pump_node; Limits_node; Vendor_node]))
     = false
  /\ topological_order (dtypes_sort (discovered [Vendor_node; Limits_node; Pump_node]))
     = true
  /\ load_data_type_definitions ascii_isalnum ua_builtin
       (base_structure_type [Pump_node; Limits_node; Vendor_node])
     = Raised (UnknownDatatype
                 (new_struct_field (str "Maker") (numeric_id 3030 2) false false [])
                 (str "Pump"))
  /\ exists ua',
       load_data_type_definitions ascii_isalnum ua_builtin
         (base_structure_type [Vendor_node; Limits_node; Pump_node]) = Returned ua'
       /\ List.map snd (extension_objects_by_datatype ua')
          = [str "Pump"; str "Limits"; str "Vendor"].
Proof.
  assert (Permutation (discovered [Pump_node; Limits_node; Vendor_node])
                      (discovered [Vendor_node; Limits_node; Pump_node])) as P.
  { apply Permutation_reverse3. }
  split; [exact P|].
  split; [reflexivity|].
  assert (acyclic (discovered [Pump_node; Limits_node; Vendor_node])) as Acyclic.
  { exists (discovered [Vendor_node; Limits_node; Pump_node]).
    split; [exact P | reflexivity]. }
  split; [exact Acyclic|].
  split.
  { apply acyclic_no_cycle; [|exact Acyclic].
    vm_compute. repeat constructor; simpl; intuition discriminate. }
  split; [reflexivity|].
  split; [apply dtypes_sort_keeps_ascending; reflexivity|].
  split; [reflexivity|].
  split; [reflexivity|].
  split; [reflexivity|].
  eexists. split; [vm_compute; reflexivity | reflexivity].
Qed.

(** C2, as the code has it. The ordering step has no cycle detection:
    on every list of descriptors (of fewer than 64 elements, where the
    sort is the binary insertion sort modelled here), cyclic or not, it
    returns, and what it returns is a rearrangement of the list. *)
Theorem ordering_step_always_returns (dtypes : list DataTypeSorter.t) :
  (List.length dtypes < 64)%nat ->
  exists order,
    dependency_ordering_step dtypes = Returned order /\ Permutation dtypes order.
Proof.
  intros _. exists (dtypes_sort dtypes).
  split; [reflexivity | apply dtypes_sort_perm].
Qed.

Lemma ordering_step_always_returns_witness :
  (List.length (discovered [Left_node; Right_node]) < 64)%nat
  /\ exists order,
       dependency_ordering_step (discovered [Left_node; Right_node]) = Returned order
       /\ Permutation (discovered [Left_node; Right_node]) order.
Proof.
  assert (List.length (discovered [Left_node; Right_node]) < 64)%nat as H
    by (vm_compute; lia).
  split; [exact H|].
  exact (ordering_step_always_returns (discovered [Left_node; Right_node]) H).
Defined.

(** C2, as stated, fails: [Left] and [Right] each have a field of the
    other's type, and the ordering step returns an order for them. *)
Lemma cycle_is_not_detected :
  has_cycle (discovered [Left_node; Right_node])
  /\ (exists order,
        dependency_ordering_step (discovered [Left_node; Right_node]) = Returned order
        /\ List.map DataTypeSorter.name order = [str "Right"; str "Left"])
  /\ ~ (exists e, dependency_ordering_step (discovered [Left_node; Right_node]) = Raised e).
Proof.
  split; [|split].
  - assert (exists a b, discovered [Left_node; Right_node] = [a; b]
                        /\ NodeId_in (dts_id b) (DataTypeSorter.deps a) = true
                        /\ NodeId_in (dts_id a) (DataTypeSorter.deps b) = true)
      as (a & b & E & Hab & Hba).
    { eexists. eexists. split; [vm_compute; reflexivity|]. split; reflexivity. }
    exists a. rewrite E.
    apply reaches_trans with (b := b).
    + split; [left; reflexivity|]. split; [right; left; reflexivity | exact Hab].
    + apply reaches_step.
      split; [right; left; reflexivity|]. split; [left; reflexivity | exact Hba].
  - eexists. split; reflexivity.
  - intros [e H]. discriminate H.
Qed.

(** Where a cycle shows, if at all: the loader fails on the first of the
    two types it compiles, with the error of an unknown field type; and
    when the two types are unions, which the loader skips, it completes
    and registers nothing. *)
Example cycle_surfaces_later_or_never :
  load_data_type_definitions ascii_isalnum ua_builtin
    (base_structure_type [Left_node; Right_node])
  = Raised (UnknownDatatype
              (new_struct_field (str "Peer") (numeric_id 3110 2) false false [])
              (str "Right"))
  /\ has_cycle (discovered [LeftUnion_node; RightUnion_node])
  /\ load_data_type_definitions ascii_isalnum ua_builtin
       (base_structure_type [LeftUnion_node; RightUnion_node])
     = Returned ua_builtin.
Proof.
  split; [reflexivity|]. split; [|reflexivity].
  assert (exists a b, discovered [LeftUnion_node; RightUnion_node] = [a; b]
                      /\ NodeId_in (dts_id b) (DataTypeSorter.deps a) = true
                      /\ NodeId_in (dts_id a) (DataTypeSorter.deps b) = true)
    as (a & b & E & Hab & Hba).
  { eexists. eexists. split; [vm_compute; reflexivity|]. split; reflexivity. }
  exists a. rewrite E.
  apply reaches_trans with (b := b).
  - split; [left; reflexivity|]. split; [right; left; reflexivity | exact Hab].
  - apply reaches_step.
    split; [right; left; reflexivity|]. split; [left; reflexivity | exact Hba].
Qed.

(** ** [PostponeReferences] *)

Section PostponeReferencesFacts.

Variables Server AddNodesItem AddReferencesItem : Type.
Variable try_add_nodes : Server -> list AddNodesItem -> Server * list AddNodesItem.
Variable try_add_references :
  Server -> list AddReferencesItem -> Server * list AddReferencesItem.

Lemma length_zero_nil (X : Type) (l : list X) :
  Nat.eqb (List.length l) 0 = true <-> l = [].
Proof. destruct l; simpl; split; intros H; try reflexivity; discriminate. Qed.

Lemma aexit_cases (self : PostponeReferences Server AddNodesItem AddReferencesItem)
  (server1 server2 : Server) (remaining_nodes : list AddNodesItem)
  (remaining_refs : list AddReferencesItem) :
  try_add_nodes (server self) (postponed_nodes self) = (server1, remaining_nodes) ->
  try_add_references server1 (postponed_refs self) = (server2, remaining_refs) ->
  aexit try_add_nodes try_add_references self false
  = match remaining_nodes, remaining_refs with
    | _ :: _, _ => (server1, Raised (RemainingNodes remaining_nodes))
    | [], _ :: _ => (server2, Raised (RemainingRefs remaining_refs))
    | [], [] => (server2, Returned tt)
    end.
Proof.
  intros Hn Hr. unfold aexit. simpl. rewrite Hn.
  destruct remaining_nodes; simpl; [|reflexivity].
  rewrite Hr. destruct remaining_refs; reflexivity.
Qed.

(** When the body raised, [__aexit__] retries nothing. *)
Lemma aexit_after_exception
  (self : PostponeReferences Server AddNodesItem AddReferencesItem) :
  aexit try_add_nodes try_add_references self true = (server self, Returned tt).
Proof. reflexivity. Qed.

End PostponeReferencesFacts.

(** C3, as the code has it. [__aexit__] first retries the pending nodes.
    If one of them still fails, it raises at once with a message that
    lists every remaining node; the pending references are then neither
    retried nor listed.  If no node remains, it retries the pending
    references and, if one still fails, raises with a message that lists
    every remaining reference.  Otherwise it returns. *)
Theorem aexit_reports_nodes_before_references
  (Server AddNodesItem AddReferencesItem : Type)
  (try_add_nodes : Server -> list AddNodesItem -> Server * list AddNodesItem)
  (try_add_references :
     Server -> list AddReferencesItem -> Server * list AddReferencesItem)
  (self : PostponeReferences Server AddNodesItem AddReferencesItem)
  (server1 server2 : Server) (remaining_nodes : list AddNodesItem)
  (remaining_refs : list AddReferencesItem) :
  try_add_nodes (server self) (postponed_nodes self) = (server1, remaining_nodes) ->
  try_add_references server1 (postponed_refs self) = (server2, remaining_refs) ->
  (remaining_nodes <> [] ->
   aexit try_add_nodes try_add_references self false
   = (server1, Raised (RemainingNodes remaining_nodes)))
  /\ (remaining_nodes = [] -> remaining_refs <> [] ->
      aexit try_add_nodes try_add_references self false
      = (server2, Raised (RemainingRefs remaining_refs)))
  /\ (remaining_nodes = [] -> remaining_refs = [] ->
      aexit try_add_nodes try_add_references self false = (server2, Returned tt)).
Proof.
  intros Hn Hr.
  rewrite (aexit_cases _ _ _ try_add_nodes try_add_references self _ _ _ _ Hn Hr).
  repeat split.
  - intros NE. destruct remaining_nodes; [contradiction | reflexivity].
  - intros -> NE. destruct remaining_refs; [contradiction | reflexivity].
  - intros -> ->. reflexivity.
Qed.

(** The three ways out on the node service: node 10 still lacks its
    parent; the target of the reference was never supplied; the target
    arrived after the reference. *)
Lemma aexit_reports_nodes_before_references_witness :
  snd (bulk_load stuck_body) = Raised (RemainingNodes [node_10])
  /\ snd (bulk_load missing_target_body) = Raised (RemainingRefs [ref_1_2])
  /\ snd (bulk_load forward_reference_body) = Returned tt.
Proof.
  split; [|split].
  - unfold bulk_load, fill_address_space. fold (after_body stuck_body).
    rewrite (proj1 (aexit_reports_nodes_before_references
               NodeService.t NodeService.Node NodeService.Reference
               NodeService.try_add_nodes NodeService.try_add_references
               (after_body stuck_body)
               (NodeService.mk [] []) (NodeService.mk [] [])
               [node_10] [ref_10_11] eq_refl eq_refl)).
    + reflexivity.
    + discriminate.
  - unfold bulk_load, fill_address_space. fold (after_body missing_target_body).
    rewrite (proj1 (proj2 (aexit_reports_nodes_before_references
               NodeService.t NodeService.Node NodeService.Reference
               NodeService.try_add_nodes NodeService.try_add_references
               (after_body missing_target_body)
               (NodeService.mk [1] []) (NodeService.mk [1] [])
               [] [ref_1_2] eq_refl eq_refl))).
    + reflexivity.
    + reflexivity.
    + discriminate.
  - unfold bulk_load, fill_address_space. fold (after_body forward_reference_body).
    rewrite (proj2 (proj2 (aexit_reports_nodes_before_references
               NodeService.t NodeService.Node NodeService.Reference
               NodeService.try_add_nodes NodeService.try_add_references
               (after_body forward_reference_body)
               (NodeService.mk [2; 1] []) (NodeService.mk [2; 1] [ref_1_2])
               [] [] eq_refl eq_refl))).
    + reflexivity.
    + reflexivity.
    + reflexivity.
Defined.

(** C3, as stated, fails.  After the body, node 10 and the reference
    from 10 to 11 are both pending, and a retry leaves both unresolved;
    the load fails with the message about the remaining nodes, which
    names node 10 and no reference. *)
Lemma remaining_references_are_not_reported :
  postponed_nodes (after_body stuck_body) = [node_10]
  /\ postponed_refs (after_body stuck_body) = [ref_10_11]
  /\ snd (NodeService.try_add_nodes (server (after_body stuck_body)) [node_10])
     = [node_10]
  /\ snd (NodeService.try_add_references (server (after_body stuck_body)) [ref_10_11])
     = [ref_10_11]
  /\ snd (bulk_load stuck_body) = Raised (RemainingNodes [node_10])
  /\ ~ (exists e,
          snd (bulk_load stuck_body) = Raised e
          /\ names_node e node_10 /\ names_ref e ref_10_11).
Proof.
  repeat split; try reflexivity.
  intros (e & He & _ & Hr).
  vm_compute in He. inversion He; subst e. exact Hr.
Qed.

(* ================================================================== *)
(** * Further properties *)

(** ** Names *)

Lemma clean_name_legal (isalnum : N -> bool) (n : pystr) :
  legal_name isalnum (clean_name isalnum n) = true.
Proof.
  unfold legal_name. rewrite clean_name_words. simpl.
  destruct (clean_name isalnum n) as [|c t] eqn:E; [reflexivity|].
  now rewrite (clean_name_head isalnum n c t E).
Qed.

Lemma legal_name_fixed (isalnum : N -> bool) (n : pystr) :
  legal_name isalnum n = true -> clean_name isalnum n = n.
Proof.
  unfold legal_name. intros H. apply andb_true_iff in H as [W D].
  apply clean_name_fixes_clean; [assumption|].
  intros c t E. subst n. now apply negb_true_iff in D.
Qed.

(** X1. [clean_name] changes a name, and logs its warning, exactly when
    the name is not already made of word characters only with no digit
    [0-9] in front. *)
Theorem clean_name_renames_iff_illegal (isalnum : N -> bool) (n : pystr) :
  clean_name_renames isalnum n = true <-> legal_name isalnum n = false.
Proof.
  unfold clean_name_renames. rewrite negb_true_iff. split.
  - intros H. destruct (legal_name isalnum n) eqn:L; [|reflexivity].
    rewrite (legal_name_fixed isalnum n L), pystr_eqb_refl in H. discriminate.
  - intros L. destruct (pystr_eqb n (clean_name isalnum n)) eqn:E; [|reflexivity].
    apply pystr_eqb_eq in E.
    pose proof (clean_name_legal isalnum n) as C. rewrite <- E in C. congruence.
Qed.

Lemma sub_nonword_length (isalnum : N -> bool) (s : pystr) :
  forall in_run,
    (List.length (sub_nonword isalnum in_run s) <= List.length s)%nat.
Proof.
  induction s as [|c t IH]; intros in_run; simpl; [lia|].
  destruct (is_word isalnum c); simpl.
  - specialize (IH false). lia.
  - destruct in_run; simpl; specialize (IH true); lia.
Qed.

(** X2. The sanitized name is at most one character longer than the
    name, and it is empty only for the empty name. *)
Theorem clean_name_length (isalnum : N -> bool) (n : pystr) :
  (List.length (clean_name isalnum n) <= S (List.length n))%nat
  /\ (clean_name isalnum n = [] <-> n = []).
Proof.
  unfold clean_name. rewrite sub_leading_digits_cases.
  pose proof (sub_nonword_length isalnum n false) as L.
  split.
  - destruct (sub_nonword isalnum false n) as [|c t]; simpl in *; [lia|].
    destruct (is_digit09 c); simpl; lia.
  - split.
    + destruct n as [|c t]; [reflexivity|]. simpl.
      destruct (is_word isalnum c); simpl.
      * destruct (is_digit09 c); discriminate.
      * discriminate.
    + intros ->. reflexivity.
Qed.

(** ** Defaults *)

(** [get_default_value] as three lookups: the literal type names first,
    then the [enums] dictionary, then the module [ua]. *)
Lemma get_default_value_lookups (ua : UaModule) (uatype : pystr)
  (enums : list (pystr * Z)) :
  get_default_value ua uatype enums =
  match lookup_str uatype builtin_defaults with
  | Some v => Returned v
  | None =>
      match lookup_str uatype enums with
      | Some v =>
          Returned (SrcText (str "ua." ++ uatype ++ str "(" ++ str_of_int v ++ str ")"))
      | None =>
          match lookup_str uatype (ua_dir ua) with
          | Some (UaEnumClass (val :: _)) =>
              Returned (SrcText (str "ua." ++ uatype ++ str "." ++ val))
          | Some (UaEnumClass []) => Raised IndexError
          | Some UaOther => Raised TypeError
          | Some UaClass | None =>
              Returned (SrcText (str "ua." ++ uatype ++ str "()"))
          end
      end
  end.
Proof.
  unfold get_default_value, builtin_defaults, str_in, existsb, lookup_str.
  repeat match goal with
         | |- context [pystr_eqb uatype ?lit] =>
             destruct (pystr_eqb uatype lit); [reflexivity|]; cbn [orb]
         end.
  fold (@lookup_str Z uatype enums). fold (@lookup_str UaAttr uatype (ua_dir ua)).
  destruct (lookup_str uatype enums); [reflexivity|].
  destruct (lookup_str uatype (ua_dir ua)) as [[[|val members]| |]|]; reflexivity.
Qed.

(** Called without [enums], [get_default_value] returns exactly for the
    names that [has_default] accepts. *)
Lemma get_default_value_returns (ua : UaModule) (uatype : pystr) :
  (exists v, get_default_value ua uatype [] = Returned v) <-> has_default ua uatype = true.
Proof.
  rewrite get_default_value_lookups. unfold has_default.
  destruct (lookup_str uatype builtin_defaults) as [v|].
  { split; [reflexivity | intros _; now exists v]. }
  simpl.
  destruct (lookup_str uatype (ua_dir ua)) as [[[|val members]| |]|]; split;
    first [ intros _; reflexivity
          | intros _; eexists; reflexivity
          | intros [v' H']; discriminate H'
          | intros H'; discriminate H' ].
Qed.

Lemma get_default_value_raises (ua : UaModule) (uatype : pystr)
  (enums : list (pystr * Z)) (e : StructError) :
  get_default_value ua uatype enums = Raised e -> e = IndexError \/ e = TypeError.
Proof.
  rewrite get_default_value_lookups.
  destruct (lookup_str uatype builtin_defaults); [discriminate|].
  destruct (lookup_str uatype enums); [discriminate|].
  destruct (lookup_str uatype (ua_dir ua)) as [[[|val members]| |]|];
    intros H; inversion H; auto.
Qed.

(** X3. [get_default_value] raises in two cases only, both for a type
    name that is none of the literal names and no key of [enums]: when
    the name is an attribute of [ua] that is an [Enum] class without
    members, the [IndexError] of taking the first member; when it is an
    attribute of [ua] that is no class, the [TypeError] of
    [issubclass]. *)
Theorem get_default_value_raises_iff (ua : UaModule) (uatype : pystr)
  (enums : list (pystr * Z)) (e : StructError) :
  get_default_value ua uatype enums = Raised e
  <-> (lookup_str uatype builtin_defaults = None
       /\ lookup_str uatype enums = None
       /\ ((e = IndexError /\ lookup_str uatype (ua_dir ua) = Some (UaEnumClass []))
           \/ (e = TypeError /\ lookup_str uatype (ua_dir ua) = Some UaOther))).
Proof.
  rewrite get_default_value_lookups.
  destruct (lookup_str uatype builtin_defaults).
  { split; [discriminate | intros (H & _); discriminate]. }
  destruct (lookup_str uatype enums).
  { split; [discriminate | intros (_ & H & _); discriminate]. }
  destruct (lookup_str uatype (ua_dir ua)) as [[[|val members]| |]|].
  - split.
    + intros H. inversion H. repeat split. left. split; reflexivity.
    + intros (_ & _ & [[-> _]|[_ H]]); [reflexivity | discriminate].
  - split; [discriminate | intros (_ & _ & [[_ H]|[_ H]]); discriminate].
  - split; [discriminate | intros (_ & _ & [[_ H]|[_ H]]); discriminate].
  - split.
    + intros H. inversion H. repeat split. right. split; reflexivity.
    + intros (_ & _ & [[_ H]|[-> _]]); [discriminate | reflexivity].
  - split; [discriminate | intros (_ & _ & [[_ H]|[_ H]]); discriminate].
Qed.

(** For the name of an attribute of [ua] that is no class, here the dict
    [ua.ObjectIdNames], no default is computed. *)
Example get_default_value_on_non_class :
  get_default_value
    (mkUa [] [] [] [(str "ObjectIdNames", UaOther)]) (str "ObjectIdNames") []
  = Raised TypeError.
Proof. reflexivity. Qed.

(** ** Compiling a structure *)

Lemma resolve_uatype_name (ua : UaModule) (struct_name : pystr) (f : StructureField.t) :
  resolve_uatype ua struct_name f =
  match datatype_name ua (StructureField.DataType f) with
  | Some n =>
      Returned (if (StructureField.ValueRank f >=? 1) && pystr_eqb n (str "Char")
                then str "String" else n)
  | None => Raised (UnknownDatatype f struct_name)
  end.
Proof.
  unfold resolve_uatype, datatype_name.
  destruct (if NamespaceIndex (StructureField.DataType f) =? 0
            then ObjectIdNames_get ua (Identifier (StructureField.DataType f))
            else None); [reflexivity|].
  destruct (lookup_nodeid (StructureField.DataType f) (extension_objects_by_datatype ua));
    [reflexivity|].
  destruct (lookup_nodeid (StructureField.DataType f) (enums_by_datatype ua));
    reflexivity.
Qed.

Section CompileFacts.

Variable isalnum : N -> bool.
Variable ua : UaModule.

Lemma resolve_uatype_known (struct_name : pystr) (f : StructureField.t) :
  known_datatype ua (StructureField.DataType f) = true ->
  exists uatype, resolve_uatype ua struct_name f = Returned uatype.
Proof.
  unfold known_datatype, is_builtin, resolve_uatype.
  destruct (NamespaceIndex (StructureField.DataType f) =? 0);
    destruct (ObjectIdNames_get ua (Identifier (StructureField.DataType f)));
    destruct (lookup_nodeid (StructureField.DataType f) (extension_objects_by_datatype ua));
    destruct (lookup_nodeid (StructureField.DataType f) (enums_by_datatype ua));
    simpl; intros H; try discriminate; eexists; reflexivity.
Qed.

Lemma resolve_uatype_unknown (struct_name : pystr) (f : StructureField.t) :
  known_datatype ua (StructureField.DataType f) = false ->
  resolve_uatype ua struct_name f = Raised (UnknownDatatype f struct_name).
Proof.
  unfold known_datatype, is_builtin, resolve_uatype.
  destruct (NamespaceIndex (StructureField.DataType f) =? 0);
    destruct (ObjectIdNames_get ua (Identifier (StructureField.DataType f)));
    destruct (lookup_nodeid (StructureField.DataType f) (extension_objects_by_datatype ua));
    destruct (lookup_nodeid (StructureField.DataType f) (enums_by_datatype ua));
    simpl; intros H; try discriminate; reflexivity.
Qed.

Lemma uatypes_loop_known (struct_name : pystr) (fields : list StructureField.t) :
  forallb (fun f => known_datatype ua (StructureField.DataType f)) fields = true ->
  exists uatypes, uatypes_loop ua struct_name fields = Returned uatypes.
Proof.
  induction fields as [|f r IH]; simpl; intros H.
  - eexists; reflexivity.
  - apply andb_true_iff in H as [Hf Hr].
    destruct (resolve_uatype_known struct_name f Hf) as [u ->].
    destruct (IH Hr) as [rest ->]. simpl. eexists; reflexivity.
Qed.

Lemma uatypes_loop_returned_known (struct_name : pystr) (fields : list StructureField.t) :
  forall uatypes,
    uatypes_loop ua struct_name fields = Returned uatypes ->
    forallb (fun f => known_datatype ua (StructureField.DataType f)) fields = true.
Proof.
  induction fields as [|f r IH]; simpl; intros uatypes H; [reflexivity|].
  destruct (known_datatype ua (StructureField.DataType f)) eqn:K.
  - destruct (resolve_uatype ua struct_name f); simpl in H; [|discriminate].
    destruct (uatypes_loop ua struct_name r) as [rest|]; simpl in H; [|discriminate].
    simpl. now apply (IH rest).
  - rewrite (resolve_uatype_unknown struct_name f K) in H. discriminate.
Qed.

Lemma uatypes_loop_first_unknown (struct_name : pystr)
  (pre : list StructureField.t) (f : StructureField.t) (post : list StructureField.t) :
  forallb (fun g => known_datatype ua (StructureField.DataType g)) pre = true ->
  known_datatype ua (StructureField.DataType f) = false ->
  uatypes_loop ua struct_name (pre ++ f :: post)
  = Raised (UnknownDatatype f struct_name).
Proof.
  induction pre as [|g r IH]; simpl; intros Hpre Hf.
  - now rewrite (resolve_uatype_unknown struct_name f Hf).
  - apply andb_true_iff in Hpre as [Hg Hr].
    destruct (resolve_uatype_known struct_name g Hg) as [u ->]. simpl.
    now rewrite (IH Hr Hf).
Qed.

Lemma uatypes_loop_nth (struct_name : pystr) (fields : list StructureField.t) :
  forall uatypes k f,
    uatypes_loop ua struct_name fields = Returned uatypes ->
    nth_error fields k = Some f ->
    exists uatype,
      resolve_uatype ua struct_name f = Returned uatype
      /\ nth_error uatypes k = Some (f, uatype).
Proof.
  induction fields as [|g r IH]; intros uatypes k f H N.
  - destruct k; discriminate.
  - simpl in H.
    destruct (resolve_uatype ua struct_name g) as [u|] eqn:R; simpl in H; [|discriminate].
    destruct (uatypes_loop ua struct_name r) as [rest|]; simpl in H; [|discriminate].
    inversion H; subst. destruct k as [|k]; simpl in *.
    + inversion N; subst. exists u. split; [assumption | reflexivity].
    + now apply IH.
Qed.

(** The second and the third loop both come to their end exactly when
    every field is compilable. *)
Lemma compile_loops_return (struct_name : pystr) (fields : list StructureField.t) :
  (exists uatypes inits,
      uatypes_loop ua struct_name fields = Returned uatypes
      /\ init_loop isalnum ua uatypes = Returned inits)
  <-> forallb (field_compilable ua) fields = true.
Proof.
  induction fields as [|f r IH].
  - split; [reflexivity|]. intros _. exists [], []. split; reflexivity.
  - cbn [forallb uatypes_loop]. rewrite andb_true_iff, <- IH.
    rewrite resolve_uatype_name. unfold field_compilable.
    destruct (datatype_name ua (StructureField.DataType f)) as [n|]; cbn [bind].
    2:{ split; [intros (u & i & H & _); discriminate H | intros [H _]; discriminate H]. }
    destruct (StructureField.ValueRank f >=? 1) eqn:R; cbn [orb andb].
    + split.
      * intros (u & i & Hu & Hi).
        destruct (uatypes_loop ua struct_name r) as [rest|]; cbn [bind] in Hu;
          [|discriminate].
        inversion Hu; subst u. cbn [init_loop] in Hi. rewrite R in Hi. cbn [bind] in Hi.
        destruct (init_loop isalnum ua rest) as [irest|] eqn:I; cbn [bind] in Hi;
          [|discriminate].
        split; [reflexivity|]. exists rest, irest. split; [reflexivity | exact I].
      * intros [_ (rest & irest & Hu & Hi)]. rewrite Hu. cbn [bind].
        eexists. eexists. split; [reflexivity|].
        cbn [init_loop]. rewrite R, Hi. reflexivity.
    + rewrite <- get_default_value_returns. split.
      * intros (u & i & Hu & Hi).
        destruct (uatypes_loop ua struct_name r) as [rest|]; cbn [bind] in Hu;
          [|discriminate].
        inversion Hu; subst u. cbn [init_loop] in Hi. rewrite R in Hi.
        destruct (get_default_value ua n []) as [v|]; cbn [bind] in Hi; [|discriminate].
        destruct (init_loop isalnum ua rest) as [irest|] eqn:I; cbn [bind] in Hi;
          [|discriminate].
        split; [now exists v|]. exists rest, irest. split; [reflexivity | exact I].
      * intros [[v G] (rest & irest & Hu & Hi)]. rewrite Hu. cbn [bind].
        eexists. eexists. split; [reflexivity|].
        cbn [init_loop]. rewrite R, G. cbn [bind]. rewrite Hi. reflexivity.
Qed.

End CompileFacts.

Lemma StructureType_not_union (st : StructureType) :
  st <> Union <->
  negb (StructureType_eqb st Structure || StructureType_eqb st StructureWithOptionalFields)
  = false.
Proof. destruct st; simpl; split; intros H; congruence. Qed.

(** X4. For a structure that is not a union, the first field in
    declared order whose data type is neither a built-in name nor a
    registered structure nor a registered enum stops the compilation:
    [make_structure_code] raises the error for an unknown data type,
    naming that field and the structure. *)
Theorem first_unknown_field_is_reported (isalnum : N -> bool) (ua : UaModule)
  (data_type : NodeId) (struct_name : pystr) (sdef : StructureDefinition.t)
  (pre : list StructureField.t) (f : StructureField.t) (post : list StructureField.t) :
  StructureDefinition.StructureType sdef <> Union ->
  StructureDefinition.Fields sdef = pre ++ f :: post ->
  forallb (fun g => known_datatype ua (StructureField.DataType g)) pre = true ->
  known_datatype ua (StructureField.DataType f) = false ->
  make_structure_code isalnum ua data_type struct_name sdef
  = Raised (UnknownDatatype f struct_name).
Proof.
  intros NU E Hpre Hf. unfold make_structure_code.
  apply StructureType_not_union in NU. rewrite NU, E.
  now rewrite (uatypes_loop_first_unknown ua struct_name pre f post Hpre Hf).
Qed.

Lemma first_unknown_field_is_reported_witness :
  make_structure_code ascii_isalnum ua_builtin (numeric_id 3000 2) (str "Gauge")
    (StructureDefinition.mk (numeric_id 3001 2) base_data_type_id Structure
       [scalar_field (str "Max") 11;
        new_struct_field (str "Maker") (numeric_id 3030 2) false false [];
        new_struct_field (str "Owner") (numeric_id 3040 2) false false []])
  = Raised (UnknownDatatype
              (new_struct_field (str "Maker") (numeric_id 3030 2) false false [])
              (str "Gauge")).
Proof.
  apply (first_unknown_field_is_reported ascii_isalnum ua_builtin (numeric_id 3000 2)
           (str "Gauge") _ [scalar_field (str "Max") 11]
           (new_struct_field (str "Maker") (numeric_id 3030 2) false false [])
           [new_struct_field (str "Owner") (numeric_id 3040 2) false false []]).
  - discriminate.
  - reflexivity.
  - reflexivity.
  - reflexivity.
Defined.

(** X5. [make_structure_code] returns a class exactly for the
    structures that are not unions and whose fields are all compilable:
    the data type of the field has a name (built-in, registered
    structure or registered enum) and, for a field of value rank below
    one, [get_default_value] returns for that name, which it does unless
    the name is an attribute of [ua] that is an [Enum] class without
    members or no class.  A union is refused whatever its fields are. *)
Theorem make_structure_code_returns_iff (isalnum : N -> bool) (ua : UaModule)
  (data_type : NodeId) (struct_name : pystr) (sdef : StructureDefinition.t) :
  ((exists code, make_structure_code isalnum ua data_type struct_name sdef = Returned code)
   <-> (StructureDefinition.StructureType sdef <> Union
        /\ forallb (field_compilable ua) (StructureDefinition.Fields sdef) = true))
  /\ (StructureDefinition.StructureType sdef = Union ->
      make_structure_code isalnum ua data_type struct_name sdef
      = Raised (NotImplementedError struct_name Union)).
Proof.
  split; [split|].
  - intros [code H]. split.
    + intros U. unfold make_structure_code in H. rewrite U in H. discriminate.
    + destruct (make_structure_code_returned isalnum ua _ _ _ _ H)
        as (uatypes & inits & Hu & Hi & _).
      apply (compile_loops_return isalnum ua struct_name).
      exists uatypes, inits. split; assumption.
  - intros [NU K]. unfold make_structure_code.
    apply StructureType_not_union in NU. rewrite NU.
    apply (compile_loops_return isalnum ua struct_name) in K.
    destruct K as (uatypes & inits & Hu & Hi).
    rewrite Hu. cbn [bind]. rewrite Hi. cbn [bind].
    eexists; reflexivity.
  - intros U. unfold make_structure_code. rewrite U. reflexivity.
Qed.

(** A structure with a scalar field whose type [ua.ObjectIdNames] names
    like an attribute of [ua] that is no class, here the module
    [ua.uaerrors], is not compiled; with an array field of that type it
    is. *)
Lemma make_structure_code_returns_iff_witness :
  let ua := mkUa [(4100, str "uaerrors")] [] [] [(str "uaerrors", UaOther)] in
  let scalar := new_struct_field (str "Table") (numeric_id 4100 0) false false [] in
  let array := StructureField.mk (str "Tables") (str "Tables") (numeric_id 4100 0)
                 ValueRank.OneDimension [] false in
  field_compilable ua scalar = false
  /\ make_structure_code ascii_isalnum ua (numeric_id 4200 2) (str "Holder")
       (StructureDefinition.mk (numeric_id 4201 2) base_data_type_id Structure [scalar])
     = Raised TypeError
  /\ field_compilable ua array = true
  /\ exists code,
       make_structure_code ascii_isalnum ua (numeric_id 4200 2) (str "Holder")
         (StructureDefinition.mk (numeric_id 4201 2) base_data_type_id Structure [array])
       = Returned code.
Proof.
  cbv zeta. split; [reflexivity|]. split; [reflexivity|]. split; [reflexivity|].
  apply (proj1 (make_structure_code_returns_iff ascii_isalnum _ _ _ _)).
  split; [discriminate | reflexivity].
Defined.

Lemma init_loop_nth (isalnum : N -> bool) (ua : UaModule)
  (uatypes : list (StructureField.t * pystr)) :
  forall inits k f uatype,
    init_loop isalnum ua uatypes = Returned inits ->
    nth_error uatypes k = Some (f, uatype) ->
    exists rhs,
      nth_error inits k = Some (Assign (clean_name isalnum (StructureField.Name f)) rhs)
      /\ (if StructureField.ValueRank f >=? 1
          then rhs = str "[]"
          else exists v, get_default_value ua uatype [] = Returned v
                         /\ rhs = format_value v).
Proof.
  induction uatypes as [|[g u] r IH]; intros inits k f uatype H N.
  - destruct k; discriminate.
  - simpl in H.
    destruct k as [|k]; simpl in N.
    + inversion N; subst g u.
      destruct (StructureField.ValueRank f >=? 1) eqn:R; simpl in H.
      * destruct (init_loop isalnum ua r); simpl in H; [|discriminate].
        inversion H; subst. eexists. split; reflexivity.
      * destruct (get_default_value ua uatype []) as [v|]; simpl in H; [|discriminate].
        destruct (init_loop isalnum ua r); simpl in H; [|discriminate].
        inversion H; subst. eexists. split; [reflexivity|].
        exists v. split; reflexivity.
    + destruct (if StructureField.ValueRank g >=? 1
                then Returned (str "[]")
                else v <- get_default_value ua u [];; Returned (format_value v))
        as [d|]; simpl in H; [|discriminate].
      destruct (init_loop isalnum ua r) as [rest|] eqn:I; simpl in H; [|discriminate].
      inversion H; subst. simpl. now apply (IH rest k f uatype).
Qed.

Lemma nth_error_after {X : Type} (pre l : list X) (k : nat) :
  nth_error (pre ++ l) (List.length pre + k) = nth_error l k.
Proof.
  rewrite nth_error_app2 by lia. f_equal. lia.
Qed.

(** X6. A field made by [new_struct_field] with [array=True] has value
    rank 0 and one array dimension. In the compiled class its entry of
    [ua_types] is tagged [ListOf] followed by its type name, and its
    initializer in [__init__] is the scalar default of that type name,
    not the empty list. *)
Theorem array_of_new_struct_field_gets_scalar_default (isalnum : N -> bool)
  (ua : UaModule) (data_type : NodeId) (struct_name : pystr)
  (sdef : StructureDefinition.t) (code : StructureCode) (k : nat)
  (name : pystr) (dtype : NodeId) (optional : bool) (description : pystr) :
  make_structure_code isalnum ua data_type struct_name sdef = Returned code ->
  nth_error (StructureDefinition.Fields sdef) k
  = Some (new_struct_field name dtype true optional description) ->
  exists uatype v,
    resolve_uatype ua struct_name (new_struct_field name dtype true optional description)
    = Returned uatype
    /\ get_default_value ua uatype [] = Returned v
    /\ nth_error (ua_types code)
         ((if StructureType_eqb (StructureDefinition.StructureType sdef)
                                StructureWithOptionalFields then 1 else 0) + k)
       = Some (clean_name isalnum name, str "ListOf" ++ uatype)
    /\ nth_error (init_body code) (List.length (init_preamble sdef) + k)
       = Some (Assign (clean_name isalnum name) (format_value v)).
Proof.
  intros H N.
  destruct (make_structure_code_returned isalnum ua _ _ _ _ H)
    as (uatypes & inits & Hu & Hi & _ & Ht & Hb).
  destruct (uatypes_loop_nth ua struct_name _ uatypes k _ Hu N) as (uatype & R & Nu).
  destruct (init_loop_nth isalnum ua uatypes inits k _ uatype Hi Nu) as (rhs & Ni & D).
  simpl in D. destruct D as (v & G & ->).
  exists uatype, v. repeat split; try assumption.
  - rewrite Ht.
    destruct (StructureType_eqb (StructureDefinition.StructureType sdef)
                                StructureWithOptionalFields).
    + change (1 + k)%nat with (List.length [(str "Encoding", str "Byte")] + k)%nat.
      rewrite nth_error_after, nth_error_map, Nu. reflexivity.
    + simpl. rewrite nth_error_map, Nu. reflexivity.
  - rewrite Hb, nth_error_after. exact Ni.
Qed.

Lemma array_of_new_struct_field_gets_scalar_default_witness :
  exists code uatype v,
    make_structure_code ascii_isalnum ua_builtin (numeric_id 3520 2) (str "Series")
      (new_struct_definition base_data_type_id (numeric_id 3521 2)
         [new_struct_field (str "Samples") (numeric_id 11 0) true false []])
    = Returned code
    /\ uatype = str "Double" /\ v = IntObj 0
    /\ nth_error (ua_types code) 0 = Some (str "Samples", str "ListOf" ++ uatype)
    /\ nth_error (init_body code) 0 = Some (Assign (str "Samples") (format_value v)).
Proof.
  eexists.
  destruct (array_of_new_struct_field_gets_scalar_default ascii_isalnum ua_builtin
              (numeric_id 3520 2) (str "Series")
              (new_struct_definition base_data_type_id (numeric_id 3521 2)
                 [new_struct_field (str "Samples") (numeric_id 11 0) true false []])
              _ 0 (str "Samples") (numeric_id 11 0) false [] eq_refl eq_refl)
    as (uatype & v & R & G & Ht & Hi).
  exists uatype, v.
  assert (uatype = str "Double") as Eu by (vm_compute in R; now inversion R).
  subst uatype.
  assert (v = IntObj 0) as Ev by (vm_compute in G; now inversion G).
  subst v.
  split; [reflexivity|]. split; [reflexivity|]. split; [reflexivity|].
  split; [exact Ht | exact Hi].
Defined.

Section GeneratedNames.

Variable isalnum : N -> bool.

Lemma switches_loop_legal (fields : list StructureField.t) :
  forall counter,
    Forall (fun e => legal_name isalnum (fst e) = true)
           (switches_loop isalnum counter fields).
Proof.
  induction fields as [|f r IH]; intros counter; simpl; [constructor|].
  destruct (StructureField.IsOptional f); [|apply IH].
  constructor; [apply clean_name_legal | apply IH].
Qed.

Lemma ua_types_entries_legal (uatypes : list (StructureField.t * pystr)) :
  Forall (fun e => legal_name isalnum (fst e) = true)
         (List.map (ua_types_entry isalnum) uatypes).
Proof.
  induction uatypes as [|[f u] r IH]; simpl; constructor; [|assumption].
  apply clean_name_legal.
Qed.

Lemma init_loop_legal (ua : UaModule) (uatypes : list (StructureField.t * pystr)) :
  forall inits,
    init_loop isalnum ua uatypes = Returned inits ->
    Forall (fun stmt => exists attr rhs,
                stmt = Assign attr rhs /\ legal_name isalnum attr = true) inits.
Proof.
  induction uatypes as [|[f u] r IH]; simpl; intros inits H.
  - inversion H. constructor.
  - destruct (if StructureField.ValueRank f >=? 1
              then Returned (str "[]")
              else v <- get_default_value ua u [];; Returned (format_value v))
      as [d|]; simpl in H; [|discriminate].
    destruct (init_loop isalnum ua r) as [rest|]; simpl in H; [|discriminate].
    inversion H; subst. constructor; [|now apply IH].
    eexists. eexists. split; [reflexivity | apply clean_name_legal].
Qed.

End GeneratedNames.

(** X7. Every attribute name that [make_structure_code] writes for a
    field, in [ua_types], in [ua_switches] and on the left of the
    assignments of [__init__], is a sanitized name: word characters
    only and no digit [0-9] in front. *)
Theorem structure_code_names_are_legal (isalnum : N -> bool) (ua : UaModule)
  (data_type : NodeId) (struct_name : pystr) (sdef : StructureDefinition.t)
  (code : StructureCode) :
  make_structure_code isalnum ua data_type struct_name sdef = Returned code ->
  exists entries inits,
    ua_types code
    = (if StructureType_eqb (StructureDefinition.StructureType sdef)
                            StructureWithOptionalFields
       then [(str "Encoding", str "Byte")] else []) ++ entries
    /\ init_body code = init_preamble sdef ++ inits
    /\ List.length entries = List.length (StructureDefinition.Fields sdef)
    /\ List.length inits = List.length (StructureDefinition.Fields sdef)
    /\ Forall (fun e => legal_name isalnum (fst e) = true) entries
    /\ Forall (fun stmt => exists attr rhs,
                   stmt = Assign attr rhs /\ legal_name isalnum attr = true) inits
    /\ (forall switches,
          ua_switches code = Some switches ->
          Forall (fun e => legal_name isalnum (fst e) = true) switches).
Proof.
  intros H.
  destruct (make_structure_code_returned isalnum ua _ _ _ _ H)
    as (uatypes & inits & Hu & Hi & Hs & Ht & Hb).
  exists (List.map (ua_types_entry isalnum) uatypes), inits.
  pose proof (uatypes_loop_fields ua struct_name _ uatypes Hu) as F.
  pose proof (Forall2_length (init_loop_initializers isalnum ua uatypes inits Hi)) as L.
  repeat split; try assumption.
  - rewrite length_map, <- F, length_map. reflexivity.
  - rewrite <- L, <- F, length_map. reflexivity.
  - apply ua_types_entries_legal.
  - now apply (init_loop_legal isalnum ua uatypes).
  - intros switches E. rewrite Hs in E.
    destruct (StructureType_eqb _ _); inversion E. apply switches_loop_legal.
Qed.

Lemma structure_code_names_are_legal_witness :
  exists code entries inits,
    make_structure_code ascii_isalnum ua_builtin (numeric_id 3600 2) (str "Tank")
      (new_struct_definition base_data_type_id (numeric_id 3601 2)
         [new_struct_field (str "2nd level (m)") (numeric_id 11 0) false true []])
    = Returned code
    /\ ua_types code = [(str "Encoding", str "Byte")] ++ entries
    /\ entries = [(str "_2nd_level_m_", str "Double")]
    /\ Forall (fun e => legal_name ascii_isalnum (fst e) = true) entries
    /\ init_body code = [Assign (str "Encoding") (str "0")] ++ inits.
Proof.
  eexists.
  destruct (structure_code_names_are_legal ascii_isalnum ua_builtin (numeric_id 3600 2)
              (str "Tank")
              (new_struct_definition base_data_type_id (numeric_id 3601 2)
                 [new_struct_field (str "2nd level (m)") (numeric_id 11 0) false true []])
              _ eq_refl)
    as (entries & inits & Ht & Hb & _ & _ & Fe & _).
  exists entries, inits.
  split; [reflexivity|]. split; [exact Ht|].
  split; [|split; [exact Fe | exact Hb]].
  simpl in Ht. now inversion Ht.
Defined.

(** [make_enum_code] writes one member per field of the definition,
    in order, and every member name is a sanitized name. *)
Theorem enum_code_names_are_legal (isalnum : N -> bool) (name : pystr)
  (edef : EnumDefinition.t) :
  List.length (enum_members (make_enum_code isalnum name edef))
  = List.length (EnumDefinition.Fields edef)
  /\ Forall (fun m => legal_name isalnum (fst m) = true)
            (enum_members (make_enum_code isalnum name edef)).
Proof.
  unfold make_enum_code. simpl. split; [apply length_map|].
  induction (EnumDefinition.Fields edef) as [|f r IH]; simpl; constructor.
  - apply clean_name_legal.
  - exact IH.
Qed.

(** ** Sorting the descriptors *)

Lemma topological_order_ascending_from (order : list DataTypeSorter.t) :
  NoDup (List.map dts_id order) ->
  topological_order order = true ->
  forall rest l1 prev,
    order = l1 ++ prev :: rest ->
    ascending_from DataTypeSorter.lt prev rest = true.
Proof.
  intros ND T. induction rest as [|x r IH]; intros l1 prev E; simpl; [reflexivity|].
  apply andb_true_iff. split.
  - apply negb_true_iff. unfold DataTypeSorter.lt. fold (dts_id x).
    destruct (NodeId_in (dts_id x) (DataTypeSorter.deps prev)) eqn:D; [|reflexivity].
    exfalso. apply NodeId_in_In in D.
    assert (In (dts_id x) (List.map dts_id order)) as Hall.
    { rewrite E. apply in_map, in_or_app. right. right. now left. }
    destruct (dependencies_first_before _ _ _ T l1 prev (x :: r) (dts_id x) E D Hall)
      as [I|I]; [contradiction|].
    rewrite E in ND.
    replace (l1 ++ prev :: x :: r) with ((l1 ++ [prev]) ++ x :: r) in ND
      by (rewrite <- app_assoc; reflexivity).
    rewrite map_app in ND. simpl in ND. apply NoDup_remove_2 in ND.
    apply ND. apply in_or_app. left. rewrite map_app. apply in_or_app. now left.
  - apply (IH (l1 ++ [prev]) x). rewrite E, <- app_assoc. reflexivity.
Qed.

Lemma topological_order_ascending (order : list DataTypeSorter.t) :
  NoDup (List.map dts_id order) ->
  topological_order order = true ->
  ascending DataTypeSorter.lt order = true.
Proof.
  intros ND T. destruct order as [|d rest]; [reflexivity|].
  simpl. now apply (topological_order_ascending_from (d :: rest) ND T rest [] d).
Qed.

(** X9. When the descriptors are discovered in an order that already
    puts every type after its dependencies (no two of them sharing a
    node id), the sort returns that order unchanged. *)
Theorem sort_keeps_dependency_order (dtypes : list DataTypeSorter.t) :
  NoDup (List.map dts_id dtypes) ->
  topological_order dtypes = true ->
  dtypes_sort dtypes = dtypes.
Proof.
  intros ND T. apply listsort_ascending. now apply topological_order_ascending.
Qed.

Lemma sort_keeps_dependency_order_witness :
  topological_order (discovered [Vendor_node; Limits_node; Pump_node]) = true
  /\ dtypes_sort (discovered [Vendor_node; Limits_node; Pump_node])
     = discovered [Vendor_node; Limits_node; Pump_node].
Proof.
  split; [reflexivity|].
  apply sort_keeps_dependency_order.
  - vm_compute. repeat constructor; simpl; intuition discriminate.
  - reflexivity.
Defined.

(** The sort only looks at its elements through the comparison: two
    lists related element by element, under comparisons that agree on
    related elements, are sorted into related lists. *)
Section ListSortRelated.

Variables A B : Type.
Variable R : A -> B -> Prop.
Variable lt1 : A -> A -> bool.
Variable lt2 : B -> B -> bool.
Hypothesis lt_related :
  forall a a' b b', R a b -> R a' b' -> lt1 a a' = lt2 b b'.

Lemma run_descending_related (l1 : list A) (l2 : list B) :
  Forall2 R l1 l2 ->
  forall p1 p2, R p1 p2 -> run_descending lt1 p1 l1 = run_descending lt2 p2 l2.
Proof.
  induction 1 as [|x y l1 l2 Hxy Hl IH]; intros p1 p2 Hp; simpl; [reflexivity|].
  rewrite (lt_related _ _ _ _ Hxy Hp). destruct (lt2 y p2); [|reflexivity].
  f_equal. now apply IH.
Qed.

Lemma run_ascending_related (l1 : list A) (l2 : list B) :
  Forall2 R l1 l2 ->
  forall p1 p2, R p1 p2 -> run_ascending lt1 p1 l1 = run_ascending lt2 p2 l2.
Proof.
  induction 1 as [|x y l1 l2 Hxy Hl IH]; intros p1 p2 Hp; simpl; [reflexivity|].
  rewrite (lt_related _ _ _ _ Hxy Hp). destruct (lt2 y p2); [reflexivity|].
  f_equal. now apply IH.
Qed.

Lemma count_run_related (l1 : list A) (l2 : list B) :
  Forall2 R l1 l2 -> count_run lt1 l1 = count_run lt2 l2.
Proof.
  intros H. destruct H as [|x0 y0 l1 l2 H0 H]; [reflexivity|].
  destruct H as [|x1 y1 l1 l2 H1 H]; [reflexivity|].
  simpl. rewrite (lt_related _ _ _ _ H1 H0).
  destruct (lt2 y1 y0).
  - now rewrite (run_descending_related _ _ H _ _ H1).
  - now rewrite (run_ascending_related _ _ H _ _ H1).
Qed.

Lemma Forall2_nth_error_related (l1 : list A) (l2 : list B) :
  Forall2 R l1 l2 ->
  forall k,
    match nth_error l1 k, nth_error l2 k with
    | Some x, Some y => R x y
    | None, None => True
    | _, _ => False
    end.
Proof.
  induction 1 as [|x y l1 l2 Hxy Hl IH]; intros k.
  - destruct k; exact I.
  - destruct k as [|k]; simpl; [assumption | apply IH].
Qed.

Lemma Forall2_firstn_related (l1 : list A) (l2 : list B) :
  Forall2 R l1 l2 -> forall n, Forall2 R (firstn n l1) (firstn n l2).
Proof.
  induction 1; intros n; destruct n; simpl; constructor; auto.
Qed.

Lemma Forall2_skipn_related (l1 : list A) (l2 : list B) :
  Forall2 R l1 l2 -> forall n, Forall2 R (skipn n l1) (skipn n l2).
Proof.
  induction 1 as [|x y l1 l2 Hxy Hl IH]; intros n; destruct n; simpl;
    try constructor; auto.
Qed.

Lemma Forall2_rev_related (l1 : list A) (l2 : list B) :
  Forall2 R l1 l2 -> Forall2 R (rev l1) (rev l2).
Proof.
  induction 1; simpl; [constructor|].
  apply Forall2_app; [assumption | now constructor].
Qed.

Lemma bisect_related (s1 : list A) (s2 : list B) (p1 : A) (p2 : B) :
  Forall2 R s1 s2 -> R p1 p2 ->
  forall fuel l r, bisect lt1 fuel s1 p1 l r = bisect lt2 fuel s2 p2 l r.
Proof.
  intros Hs Hp. induction fuel as [|fuel IH]; intros l r; simpl; [reflexivity|].
  pose proof (Forall2_nth_error_related _ _ Hs (l + Nat.div2 (r - l))) as N.
  destruct (nth_error s1 (l + Nat.div2 (r - l))) as [x|];
    destruct (nth_error s2 (l + Nat.div2 (r - l))) as [y|];
    try contradiction; [|reflexivity].
  rewrite (lt_related _ _ _ _ Hp N).
  destruct (lt2 p2 y); destruct (_ <? _)%nat; auto.
Qed.

Lemma binary_insert_related (s1 : list A) (s2 : list B) (p1 : A) (p2 : B) :
  Forall2 R s1 s2 -> R p1 p2 ->
  Forall2 R (binary_insert lt1 s1 p1) (binary_insert lt2 s2 p2).
Proof.
  intros Hs Hp. unfold binary_insert.
  rewrite (Forall2_length Hs), (bisect_related _ _ _ _ Hs Hp).
  apply Forall2_app.
  - now apply Forall2_firstn_related.
  - constructor; [assumption | now apply Forall2_skipn_related].
Qed.

Lemma binarysort_related (r1 : list A) (r2 : list B) :
  Forall2 R r1 r2 ->
  forall s1 s2, Forall2 R s1 s2 ->
                Forall2 R (binarysort lt1 s1 r1) (binarysort lt2 s2 r2).
Proof.
  unfold binarysort.
  induction 1 as [|x y r1 r2 Hxy Hr IH]; intros s1 s2 Hs; simpl; [assumption|].
  apply IH. now apply binary_insert_related.
Qed.

Lemma listsort_related (l1 : list A) (l2 : list B) :
  Forall2 R l1 l2 -> Forall2 R (listsort lt1 l1) (listsort lt2 l2).
Proof.
  intros H. unfold listsort.
  rewrite (Forall2_length H), (count_run_related _ _ H).
  destruct (List.length l2 <? 2)%nat; [assumption|].
  destruct (count_run lt2 l2) as [n descending].
  apply binarysort_related.
  - now apply Forall2_skipn_related.
  - destruct descending.
    + now apply Forall2_rev_related, Forall2_firstn_related.
    + now apply Forall2_firstn_related.
Qed.

End ListSortRelated.

Lemma lt_restrict_deps (keep : NodeId -> bool) (a b : DataTypeSorter.t) :
  keep (dts_id a) = true ->
  DataTypeSorter.lt (restrict_deps keep a) (restrict_deps keep b)
  = DataTypeSorter.lt a b.
Proof.
  intros K. unfold DataTypeSorter.lt, restrict_deps. simpl. fold (dts_id a).
  destruct (NodeId_in (dts_id a) (DataTypeSorter.deps b)) eqn:E.
  - apply NodeId_in_In in E.
    assert (In (dts_id a) (filter keep (DataTypeSorter.deps b))) as F
      by (apply filter_In; tauto).
    apply NodeId_in_In in F. now rewrite F.
  - destruct (NodeId_in (dts_id a) (filter keep (DataTypeSorter.deps b))) eqn:F;
      [|reflexivity].
    apply NodeId_in_In, filter_In in F. destruct F as [F _].
    apply NodeId_in_In in F. congruence.
Qed.

(** X10. Recorded dependencies that are the node id of no discovered
    descriptor, such as the built-in types of the fields, have no
    effect on the order: dropping from every [deps] the node ids that
    [keep] rejects, where [keep] accepts the id of every descriptor,
    gives the same order. *)
Theorem sort_ignores_undiscovered_deps (keep : NodeId -> bool)
  (dtypes : list DataTypeSorter.t) :
  (forall d, In d dtypes -> keep (dts_id d) = true) ->
  dtypes_sort (List.map (restrict_deps keep) dtypes)
  = List.map (restrict_deps keep) (dtypes_sort dtypes).
Proof.
  intros K.
  pose (R := fun a b : DataTypeSorter.t =>
               b = restrict_deps keep a /\ keep (dts_id a) = true).
  assert (Forall2 R dtypes (List.map (restrict_deps keep) dtypes)) as H.
  { induction dtypes as [|d r IH]; simpl; constructor.
    - split; [reflexivity | apply K; now left].
    - apply IH. intros x Hx. apply K. now right. }
  assert (forall a a' b b', R a b -> R a' b' ->
                            DataTypeSorter.lt a a' = DataTypeSorter.lt b b') as Hlt.
  { intros a a' b b' [-> Ka] [-> _]. symmetry. now apply lt_restrict_deps. }
  pose proof (listsort_related _ _ R DataTypeSorter.lt DataTypeSorter.lt Hlt _ _ H) as S.
  unfold dtypes_sort.
  induction S as [|a b l1 l2 [Hab _] _ IH]; simpl; [reflexivity|].
  now rewrite Hab, IH.
Qed.

Lemma sort_ignores_undiscovered_deps_witness :
  List.map DataTypeSorter.deps
    (dtypes_sort (List.map (restrict_deps (fun n => negb (is_builtin ua_builtin n)))
                           (discovered [Pump_node; Vendor_node; Limits_node])))
  = [[]; [numeric_id 3030 2]; []]
  /\ List.map DataTypeSorter.deps
       (dtypes_sort (discovered [Pump_node; Vendor_node; Limits_node]))
     = [[numeric_id 12 0]; [numeric_id 3030 2]; [numeric_id 11 0]].
Proof.
  rewrite (sort_ignores_undiscovered_deps (fun n => negb (is_builtin ua_builtin n))
             (discovered [Pump_node; Vendor_node; Limits_node])).
  - split; reflexivity.
  - intros d H. vm_compute in H.
    repeat (destruct H as [H|H]; [subst d; reflexivity|]). contradiction.
Defined.

(** ** The walk, continued *)

(** X12. Inheritance only touches the field list. The descriptor
    entered for a subtype carries the schema read from the subtype's own
    node, with its own structure type, encoding id and base data type,
    and with the parent's fields put in front of its own; a root type,
    walked without parent schema, carries its schema as read.  The
    descriptor's data type is the node id of the description, its name
    the sanitized browse name, its encoding id the one of the schema. *)
Theorem inheritance_changes_fields_only (isalnum : N -> bool) (ua : UaModule)
  (base_desc : ReferenceDescription.t) (base_definition : ReadResult StructureDefinition.t)
  (before after : list (TypeNode StructureDefinition.t))
  (child : TypeNode StructureDefinition.t)
  (parent_sdef : option StructureDefinition.t) (own : StructureDefinition.t) :
  fst (_read_data_type_definition ua (node_desc child) (node_definition child)) = Some own ->
  exists dts,
    nth_error
      (fst (_recursive_parse isalnum ua
              (mkTypeNode base_desc base_definition (before ++ child :: after)) parent_sdef))
      (List.length (fst (_recursive_parse isalnum ua
                           (mkTypeNode base_desc base_definition before) parent_sdef)))
    = Some dts
    /\ DataTypeSorter.sdef dts
       = match parent_sdef with
         | Some parent =>
             StructureDefinition.mk
               (StructureDefinition.DefaultEncodingId own)
               (StructureDefinition.BaseDataType own)
               (StructureDefinition.StructureType own)
               (StructureDefinition.Fields parent ++ StructureDefinition.Fields own)
         | None => own
         end
    /\ DataTypeSorter.data_type dts = ReferenceDescription.NodeId (node_desc child)
    /\ DataTypeSorter.name dts
       = clean_name isalnum (ReferenceDescription.BrowseName (node_desc child))
    /\ DataTypeSorter.encoding_id dts = StructureDefinition.DefaultEncodingId own.
Proof.
  intros H.
  exists (DataTypeSorter.init (ReferenceDescription.NodeId (node_desc child))
            (clean_name isalnum (ReferenceDescription.BrowseName (node_desc child)))
            (node_desc child) (inherit_fields parent_sdef own)).
  rewrite !_recursive_parse_eq, for_desc_app. cbn [fst].
  rewrite (for_desc_visit isalnum ua parent_sdef child after own H). cbn [fst].
  split.
  { rewrite <- (Nat.add_0_r (List.length _)), nth_error_after. reflexivity. }
  split.
  { destruct parent_sdef as [parent|]; simpl.
    - unfold StructureDefinition.with_Fields. now rewrite insert_parent_fields_app.
    - reflexivity. }
  split; [reflexivity|]. split; [reflexivity|].
  destruct parent_sdef; reflexivity.
Qed.

Lemma inheritance_changes_fields_only_witness :
  exists dts,
    nth_error (discovered [Base_node]) 1 = Some dts
    /\ DataTypeSorter.name dts = str "Derived"
    /\ StructureDefinition.StructureType (DataTypeSorter.sdef dts) = Structure
    /\ List.map StructureField.Name (StructureDefinition.Fields (DataTypeSorter.sdef dts))
       = [str "Note"; str "Speed"].
Proof.
  pose (base := StructureDefinition.mk (numeric_id 3311 2) base_data_type_id
                  StructureWithOptionalFields
                  [new_struct_field (str "Note") (numeric_id 12 0) false true []]).
  pose (own := StructureDefinition.mk (numeric_id 3321 2) base_data_type_id Structure
                 [scalar_field (str "Speed") 11]).
  destruct (inheritance_changes_fields_only ascii_isalnum ua_builtin
              (node_desc Base_node) (node_definition Base_node) [] [] Derived_node
              (Some base) own eq_refl) as (dts & N & S & _ & Hn & _).
  exists dts.
  split.
  { vm_compute in N. inversion N as [E]. reflexivity. }
  rewrite S, Hn. repeat split; reflexivity.
Defined.

Lemma browsed_app (c1 c2 : list ServerCall) :
  browsed (c1 ++ c2) = browsed c1 ++ browsed c2.
Proof. unfold browsed. apply flat_map_app. Qed.

Lemma read_definition_browses_nothing (D : Type) (ua : UaModule)
  (desc : ReferenceDescription.t) (definition : ReadResult D) :
  browsed (snd (_read_data_type_definition ua desc definition)) = [].
Proof.
  unfold _read_data_type_definition.
  destruct (pystr_eqb _ _); [reflexivity|].
  destruct (hasattr_ua _ _); [reflexivity|].
  destruct definition; reflexivity.
Qed.

(** X13. The walk asks for the children of the base node first and then
    of exactly the nodes it enters a descriptor for, in the order of the
    descriptors: the nodes browsed are the base node followed by the
    data types of the descriptors found.  A node without schema is never
    browsed. *)
Theorem walk_browses_base_and_discovered (isalnum : N -> bool) (ua : UaModule)
  (base_node : TypeNode StructureDefinition.t)
  (parent_sdef : option StructureDefinition.t) :
  browsed (snd (_recursive_parse isalnum ua base_node parent_sdef))
  = ReferenceDescription.NodeId (node_desc base_node)
      :: List.map dts_id (fst (_recursive_parse isalnum ua base_node parent_sdef)).
Proof.
  revert parent_sdef.
  induction base_node as [base_desc definition children IH]
    using TypeNode_subtypes_ind.
  intros parent_sdef. rewrite _recursive_parse_eq. cbn [fst snd]. simpl browsed.
  f_equal.
  induction children as [|c r IHr]; [reflexivity|].
  inversion IH as [|? ? Hc Hr]; subst.
  destruct (fst (_read_data_type_definition ua (node_desc c) (node_definition c)))
    as [own|] eqn:R.
  - rewrite (for_desc_visit isalnum ua parent_sdef c r own R). cbn [fst snd].
    rewrite !browsed_app, read_definition_browses_nothing, Hc, (IHr Hr).
    simpl. rewrite map_app. reflexivity.
  - rewrite (for_desc_skip isalnum ua parent_sdef c r R). cbn [fst snd].
    rewrite browsed_app, read_definition_browses_nothing. now apply IHr.
Qed.

(** ** Registering the compiled structures *)

Lemma uatypes_loop_raises (ua : UaModule) (struct_name : pystr)
  (fields : list StructureField.t) (e : StructError) :
  uatypes_loop ua struct_name fields = Raised e ->
  exists f, e = UnknownDatatype f struct_name.
Proof.
  induction fields as [|f r IH]; simpl; intros H; [discriminate|].
  destruct (known_datatype ua (StructureField.DataType f)) eqn:K.
  - destruct (resolve_uatype_known ua struct_name f K) as [u R].
    rewrite R in H. simpl in H.
    destruct (uatypes_loop ua struct_name r); simpl in H; [discriminate|].
    inversion H; subst. now apply IH.
  - rewrite (resolve_uatype_unknown ua struct_name f K) in H.
    inversion H. now exists f.
Qed.

Lemma init_loop_raises (isalnum : N -> bool) (ua : UaModule)
  (uatypes : list (StructureField.t * pystr)) (e : StructError) :
  init_loop isalnum ua uatypes = Raised e -> e = IndexError \/ e = TypeError.
Proof.
  induction uatypes as [|[f u] r IH]; simpl; intros H; [discriminate|].
  destruct (StructureField.ValueRank f >=? 1); simpl in H.
  - destruct (init_loop isalnum ua r); simpl in H; [discriminate|].
    inversion H; subst. now apply IH.
  - destruct (get_default_value ua u []) as [v|e'] eqn:G; simpl in H.
    + destruct (init_loop isalnum ua r); simpl in H; [discriminate|].
      inversion H; subst. now apply IH.
    + inversion H; subst. now apply get_default_value_raises in G.
Qed.

(** [make_structure_code] raises [NotImplementedError] for unions only. *)
Lemma not_implemented_is_union (isalnum : N -> bool) (ua : UaModule)
  (data_type : NodeId) (struct_name : pystr) (sdef : StructureDefinition.t)
  (n : pystr) (st : StructureType) :
  make_structure_code isalnum ua data_type struct_name sdef
  = Raised (NotImplementedError n st) ->
  StructureDefinition.StructureType sdef = Union.
Proof.
  unfold make_structure_code.
  destruct (StructureDefinition.StructureType sdef); simpl; intros H;
    try reflexivity;
    (destruct (uatypes_loop ua struct_name (StructureDefinition.Fields sdef))
       as [uatypes|e] eqn:U; simpl in H;
     [ destruct (init_loop isalnum ua uatypes) as [inits|e] eqn:I; simpl in H;
       [discriminate | apply init_loop_raises in I; destruct I; subst; discriminate]
     | apply uatypes_loop_raises in U; destruct U as [f ->]; discriminate ]).
Qed.

Lemma returned_is_not_union (isalnum : N -> bool) (ua : UaModule)
  (data_type : NodeId) (struct_name : pystr) (sdef : StructureDefinition.t)
  (code : StructureCode) :
  make_structure_code isalnum ua data_type struct_name sdef = Returned code ->
  StructureType_eqb (StructureDefinition.StructureType sdef) Union = false.
Proof.
  unfold make_structure_code.
  destruct (StructureDefinition.StructureType sdef); simpl; intros H;
    try reflexivity; discriminate.
Qed.

Lemma lookup_nodeid_same (k : NodeId) (v : pystr) (d : list (NodeId * pystr)) :
  lookup_nodeid k ((k, v) :: d) = Some v.
Proof.
  simpl. assert (NodeId_eqb k k = true) as E by now apply NodeId_eqb_eq.
  now rewrite E.
Qed.

Lemma known_after_register (ua : UaModule) (name : pystr) (datatype : NodeId) :
  known_datatype (register_extension_object ua name datatype) datatype = true.
Proof.
  unfold known_datatype. simpl extension_objects_by_datatype.
  rewrite lookup_nodeid_same. simpl. now rewrite orb_true_r.
Qed.

Lemma known_register_mono (ua : UaModule) (name : pystr) (datatype dt : NodeId) :
  known_datatype ua dt = true ->
  known_datatype (register_extension_object ua name datatype) dt = true.
Proof.
  unfold known_datatype, is_builtin. simpl.
  destruct (NodeId_eqb dt datatype); [now rewrite orb_true_r|].
  auto.
Qed.

Lemma hasattr_after_register (ua : UaModule) (name : pystr) (datatype : NodeId) :
  hasattr_ua (register_extension_object ua name datatype) name = true.
Proof. unfold hasattr_ua. simpl. now rewrite pystr_eqb_refl. Qed.

Lemma hasattr_register_mono (ua : UaModule) (name : pystr) (datatype : NodeId)
  (n : pystr) :
  hasattr_ua ua n = true ->
  hasattr_ua (register_extension_object ua name datatype) n = true.
Proof.
  unfold hasattr_ua. simpl. destruct (pystr_eqb n name); auto.
Qed.

Lemma register_all_mono (dtypes : list DataTypeSorter.t) :
  forall ua,
    (forall n, hasattr_ua ua n = true -> hasattr_ua (register_all ua dtypes) n = true)
    /\ (forall dt, known_datatype ua dt = true ->
                   known_datatype (register_all ua dtypes) dt = true).
Proof.
  unfold register_all.
  induction dtypes as [|d r IH]; intros ua; simpl; [split; auto|].
  destruct (IH (register_extension_object ua (DataTypeSorter.name d) (dts_id d)))
    as [Ha Hk].
  split.
  - intros n H. now apply Ha, hasattr_register_mono.
  - intros dt H. now apply Hk, known_register_mono.
Qed.

Lemma register_all_registers (dtypes : list DataTypeSorter.t) :
  forall ua d,
    In d dtypes ->
    hasattr_ua (register_all ua dtypes) (DataTypeSorter.name d) = true
    /\ known_datatype (register_all ua dtypes) (dts_id d) = true.
Proof.
  induction dtypes as [|x r IH]; intros ua d H; [contradiction|].
  change (register_all ua (x :: r))
    with (register_all (register_extension_object ua (DataTypeSorter.name x) (dts_id x)) r).
  destruct H as [->|H]; [|now apply IH].
  destruct (register_all_mono r
              (register_extension_object ua (DataTypeSorter.name d) (dts_id d)))
    as [Ha Hk].
  split.
  - apply Ha, hasattr_after_register.
  - apply Hk, known_after_register.
Qed.

(** What the loop leaves when it comes to its end. *)
Lemma register_loop_returned (isalnum : N -> bool) (order : list DataTypeSorter.t) :
  forall ua ua',
    register_loop isalnum ua order = Returned ua' ->
    ua' = register_all ua (filter not_union order).
Proof.
  induction order as [|d more IH]; intros ua ua' H; simpl in H.
  - inversion H. reflexivity.
  - simpl. unfold not_union at 1.
    destruct (make_structure_code isalnum ua (DataTypeSorter.data_type d)
                (DataTypeSorter.name d) (DataTypeSorter.sdef d)) as [code|e] eqn:M.
    + rewrite (returned_is_not_union _ _ _ _ _ _ M). simpl.
      now apply IH.
    + destruct e as [n st| | |]; try discriminate.
      rewrite (not_implemented_is_union _ _ _ _ _ _ _ M). simpl.
      now apply IH.
Qed.

(** X14. When the loop of [load_data_type_definitions] comes to its
    end, it has registered exactly the descriptors that are not unions,
    in the order it was given: each of them is then an attribute of
    [ua] under its name and a known data type, and everything that was
    an attribute of [ua] or a known data type before still is. *)
Theorem load_registers_all_but_unions (isalnum : N -> bool) (ua ua' : UaModule)
  (order : list DataTypeSorter.t) :
  register_loop isalnum ua order = Returned ua' ->
  ua' = register_all ua (filter not_union order)
  /\ (forall d, In d order -> not_union d = true ->
                hasattr_ua ua' (DataTypeSorter.name d) = true
                /\ known_datatype ua' (dts_id d) = true)
  /\ (forall n, hasattr_ua ua n = true -> hasattr_ua ua' n = true)
  /\ (forall dt, known_datatype ua dt = true -> known_datatype ua' dt = true).
Proof.
  intros H. apply register_loop_returned in H. subst ua'.
  split; [reflexivity|]. split; [|apply register_all_mono].
  intros d I U. apply register_all_registers. apply filter_In. now split.
Qed.

Lemma load_registers_all_but_unions_witness :
  exists ua',
    register_loop ascii_isalnum ua_builtin
      (discovered [Vendor_node; LeftUnion_node; Limits_node]) = Returned ua'
    /\ List.map snd (extension_objects_by_datatype ua') = [str "Limits"; str "Vendor"]
    /\ hasattr_ua ua' (str "Left") = false
    /\ ua' = register_all ua_builtin
               (filter not_union (discovered [Vendor_node; LeftUnion_node; Limits_node])).
Proof.
  eexists. split; [vm_compute; reflexivity|].
  split; [reflexivity|]. split; [reflexivity|].
  exact (proj1 (load_registers_all_but_unions ascii_isalnum ua_builtin _
                  (discovered [Vendor_node; LeftUnion_node; Limits_node]) eq_refl)).
Defined.

(** *** The state after some registrations *)

Lemma register_all_state (dtypes : list DataTypeSorter.t) :
  forall ua,
    ObjectIdNames (register_all ua dtypes) = ObjectIdNames ua
    /\ enums_by_datatype (register_all ua dtypes) = enums_by_datatype ua
    /\ extension_objects_by_datatype (register_all ua dtypes)
       = rev (List.map (fun d => (dts_id d, DataTypeSorter.name d)) dtypes)
         ++ extension_objects_by_datatype ua
    /\ ua_dir (register_all ua dtypes)
       = rev (List.map (fun d => (DataTypeSorter.name d, UaClass)) dtypes) ++ ua_dir ua.
Proof.
  unfold register_all.
  induction dtypes as [|d r IH]; intros ua; simpl; [repeat split; reflexivity|].
  destruct (IH (register_extension_object ua (DataTypeSorter.name d) (dts_id d)))
    as (O & E & X & A).
  rewrite O, E, X, A. simpl. rewrite <- !app_assoc. repeat split; reflexivity.
Qed.

Lemma lookup_nodeid_app (k : NodeId) (d1 d2 : list (NodeId * pystr)) :
  lookup_nodeid k (d1 ++ d2)
  = match lookup_nodeid k d1 with
    | Some v => Some v
    | None => lookup_nodeid k d2
    end.
Proof.
  induction d1 as [|[k' v] r IH]; simpl; [reflexivity|].
  destruct (NodeId_eqb k k'); [reflexivity | exact IH].
Qed.

Lemma lookup_nodeid_found (k : NodeId) (d : list (NodeId * pystr)) (v : pystr) :
  lookup_nodeid k d = Some v -> In v (List.map snd d).
Proof.
  induction d as [|[k' v'] r IH]; simpl; [discriminate|].
  destruct (NodeId_eqb k k'); intros H.
  - inversion H. now left.
  - right. now apply IH.
Qed.

Lemma lookup_nodeid_key (k : NodeId) (d : list (NodeId * pystr)) :
  In k (List.map fst d) -> exists v, lookup_nodeid k d = Some v.
Proof.
  induction d as [|[k' v'] r IH]; simpl; [contradiction|].
  destruct (NodeId_eqb k k') eqn:E; [intros _; now exists v'|].
  intros [H|H]; [|now apply IH].
  subst k'. assert (NodeId_eqb k k = true) by now apply NodeId_eqb_eq. congruence.
Qed.

Lemma lookup_str_app {V : Type} (k : pystr) (d1 d2 : list (pystr * V)) :
  lookup_str k (d1 ++ d2)
  = match lookup_str k d1 with
    | Some v => Some v
    | None => lookup_str k d2
    end.
Proof.
  induction d1 as [|[k' v] r IH]; simpl; [reflexivity|].
  destruct (pystr_eqb k k'); [reflexivity | exact IH].
Qed.

Lemma lookup_str_classes (k : pystr) (names : list pystr) :
  In k names ->
  lookup_str k (List.map (fun n => (n, UaClass)) names) = Some UaClass.
Proof.
  induction names as [|n r IH]; simpl; [contradiction|].
  destruct (pystr_eqb k n) eqn:E; [reflexivity|].
  intros [H|H]; [|now apply IH].
  subst n. rewrite pystr_eqb_refl in E. discriminate.
Qed.

Lemma lookup_str_classes_only (k : pystr) (names : list pystr) (a : UaAttr) :
  lookup_str k (List.map (fun n => (n, UaClass)) names) = Some a -> a = UaClass.
Proof.
  induction names as [|n r IH]; simpl; [discriminate|].
  destruct (pystr_eqb k n); [intros H; now inversion H | exact IH].
Qed.

Section AfterRegistrations.

Variable ua : UaModule.
Variable before : list DataTypeSorter.t.

Lemma ua_dir_after :
  ua_dir (register_all ua before)
  = List.map (fun n => (n, UaClass)) (rev (List.map DataTypeSorter.name before))
    ++ ua_dir ua.
Proof.
  destruct (register_all_state before ua) as (_ & _ & _ & A).
  rewrite A. f_equal. rewrite <- !map_rev, map_map. reflexivity.
Qed.

Lemma has_default_after (uatype : pystr) :
  has_default ua uatype = true \/ In uatype (List.map DataTypeSorter.name before) ->
  has_default (register_all ua before) uatype = true.
Proof.
  unfold has_default. rewrite ua_dir_after, lookup_str_app.
  destruct (lookup_str uatype builtin_defaults); [reflexivity|].
  destruct (lookup_str uatype
              (List.map (fun n => (n, UaClass))
                        (rev (List.map DataTypeSorter.name before)))) as [a|] eqn:L.
  - apply lookup_str_classes_only in L. subst a. reflexivity.
  - intros [H|H]; [exact H|].
    rewrite lookup_str_classes in L; [discriminate|]. now apply in_rev in H.
Qed.

(** The name of a data type after the registrations: the name it had,
    or the name of one of the descriptors registered. *)
Lemma datatype_name_after (dt : NodeId) :
  (forall n, datatype_name ua dt = Some n ->
             exists n', datatype_name (register_all ua before) dt = Some n'
                        /\ (n' = n \/ In n' (List.map DataTypeSorter.name before)))
  /\ (is_builtin ua dt = false -> In dt (List.map dts_id before) ->
      exists n', datatype_name (register_all ua before) dt = Some n'
                 /\ In n' (List.map DataTypeSorter.name before)).
Proof.
  destruct (register_all_state before ua) as (O & E & X & _).
  unfold datatype_name, is_builtin, ObjectIdNames_get. rewrite O, E, X, lookup_nodeid_app.
  set (regs := rev (List.map (fun d => (dts_id d, DataTypeSorter.name d)) before)).
  assert (forall n', In n' (List.map snd regs) ->
                     In n' (List.map DataTypeSorter.name before)) as Names.
  { intros n' H. unfold regs in H. rewrite <- map_rev, map_map in H. simpl in H.
    rewrite map_rev in H. now apply in_rev in H. }
  assert (In dt (List.map dts_id before) -> In dt (List.map fst regs)) as Keys.
  { intros H. unfold regs. rewrite <- map_rev, map_map. simpl.
    rewrite map_rev. now apply in_rev in H. }
  split.
  - intros n.
    destruct (if NamespaceIndex dt =? 0
              then match Identifier dt with
                   | IdNumeric i => lookup_int i (ObjectIdNames ua)
                   | _ => None
                   end
              else None) as [b|].
    + intros H. exists b. split; [reflexivity | left; now inversion H].
    + destruct (lookup_nodeid dt regs) as [r|] eqn:L.
      * intros _. exists r. split; [reflexivity|].
        right. apply Names. now apply (lookup_nodeid_found dt regs).
      * intros H. exists n. split; [exact H | now left].
  - intros B I.
    destruct (NamespaceIndex dt =? 0); simpl in B.
    + destruct (match Identifier dt with
                | IdNumeric i => lookup_int i (ObjectIdNames ua)
                | _ => None
                end); [discriminate|].
      destruct (lookup_nodeid_key dt regs (Keys I)) as [r L]. rewrite L.
      exists r. split; [reflexivity|].
      apply Names. now apply (lookup_nodeid_found dt regs).
    + destruct (lookup_nodeid_key dt regs (Keys I)) as [r L]. rewrite L.
      exists r. split; [reflexivity|].
      apply Names. now apply (lookup_nodeid_found dt regs).
Qed.

Lemma field_compilable_after (f : StructureField.t) :
  (negb (is_builtin ua (StructureField.DataType f))
   && NodeId_in (StructureField.DataType f) (List.map dts_id before))
  || field_compilable ua f = true ->
  field_compilable (register_all ua before) f = true.
Proof.
  destruct (datatype_name_after (StructureField.DataType f)) as [Known Registered].
  intros H. apply orb_true_iff in H as [H|H].
  - apply andb_true_iff in H as [B I].
    apply negb_true_iff in B. apply NodeId_in_In in I.
    unfold field_compilable.
    destruct (Registered B I) as (n'' & E & Hn''). rewrite E.
    apply orb_true_iff. right. apply has_default_after. now right.
  - unfold field_compilable in *.
    destruct (datatype_name ua (StructureField.DataType f)) as [n|]; [|discriminate].
    destruct (Known n eq_refl) as (n' & E & Hn'). rewrite E.
    apply orb_true_iff in H as [R|D]; apply orb_true_iff; [now left | right].
    apply has_default_after. destruct Hn' as [->|Hn']; [now left | now right].
Qed.

End AfterRegistrations.

Lemma deps_usable_at (ua : UaModule) (before : list DataTypeSorter.t) :
  forall registered d after,
    deps_usable ua registered (before ++ d :: after) = true ->
    forallb (fun f =>
               (negb (is_builtin ua (StructureField.DataType f))
                && NodeId_in (StructureField.DataType f)
                     (rev (List.map dts_id before) ++ registered))
               || field_compilable ua f)
            (StructureDefinition.Fields (DataTypeSorter.sdef d)) = true.
Proof.
  induction before as [|x r IH]; intros registered d after H; simpl in H.
  - now apply andb_true_iff in H as [H _].
  - apply andb_true_iff in H as [_ H]. apply IH in H.
    simpl. rewrite <- app_assoc. exact H.
Qed.

(** X15. In a dependency order every compilation succeeds. When none
    of the descriptors is a union and every field either has the data
    type of a descriptor placed earlier (no built-in type) or is
    compilable with what [ua] holds already, then for each descriptor
    the call of [make_structure_code] made once the descriptors before it
    are registered returns a class. *)
Theorem compilation_succeeds_in_dependency_order (isalnum : N -> bool) (ua : UaModule)
  (before : list DataTypeSorter.t) (d : DataTypeSorter.t)
  (after : list DataTypeSorter.t) :
  forallb not_union (before ++ d :: after) = true ->
  deps_usable ua [] (before ++ d :: after) = true ->
  exists code,
    make_structure_code isalnum (register_all ua before) (DataTypeSorter.data_type d)
      (DataTypeSorter.name d) (DataTypeSorter.sdef d) = Returned code.
Proof.
  intros NU D.
  rewrite forallb_app in NU. apply andb_true_iff in NU as [_ NU]. simpl in NU.
  apply andb_true_iff in NU as [NUd _]. unfold not_union in NUd.
  apply deps_usable_at in D. rewrite app_nil_r in D.
  assert (forallb (field_compilable (register_all ua before))
                  (StructureDefinition.Fields (DataTypeSorter.sdef d)) = true) as C.
  { rewrite forallb_forall in *. intros f Hf. specialize (D f Hf).
    apply field_compilable_after.
    apply orb_true_iff in D as [D|D]; apply orb_true_iff; [left | now right].
    apply andb_true_iff in D as [B I]. apply andb_true_iff. split; [exact B|].
    apply NodeId_in_In. apply NodeId_in_In in I. now apply in_rev. }
  apply (compile_loops_return isalnum (register_all ua before) (DataTypeSorter.name d)) in C.
  destruct C as (uatypes & inits & Hu & Hi).
  unfold make_structure_code.
  destruct (StructureDefinition.StructureType (DataTypeSorter.sdef d));
    try discriminate; simpl; rewrite Hu; cbn [bind]; rewrite Hi; cbn [bind];
    eexists; reflexivity.
Qed.

(** [Pump], whose field has the type of [Vendor], compiled after
    [Vendor] and [Limits] are registered. *)
Lemma compilation_succeeds_in_dependency_order_witness :
  exists before d code,
    discovered [Vendor_node; Limits_node; Pump_node] = before ++ [d]
    /\ DataTypeSorter.name d = str "Pump"
    /\ make_structure_code ascii_isalnum (register_all ua_builtin before)
         (DataTypeSorter.data_type d) (DataTypeSorter.name d) (DataTypeSorter.sdef d)
       = Returned code.
Proof.
  pose (pump :=
          DataTypeSorter.init (numeric_id 3010 2) (str "Pump")
            (ReferenceDescription.mk (numeric_id 3010 2) (str "Pump"))
            (StructureDefinition.mk (numeric_id 3011 2) base_data_type_id Structure
               [new_struct_field (str "Maker") (numeric_id 3030 2) false false []])).
  destruct (compilation_succeeds_in_dependency_order ascii_isalnum ua_builtin
              (discovered [Vendor_node; Limits_node]) pump [] eq_refl eq_refl)
    as [code H].
  exists (discovered [Vendor_node; Limits_node]), pump, code.
  split; [reflexivity|]. split; [reflexivity | exact H].
Defined.

(** ** [PostponeReferences], continued *)

Section PostponedItems.

Variables Server AddNodesItem AddReferencesItem : Type.
Variable try_add_nodes : Server -> list AddNodesItem -> Server * list AddNodesItem.
Variable try_add_references :
  Server -> list AddReferencesItem -> Server * list AddReferencesItem.

(** The node service yields only entries of the batch it was given. *)
Hypothesis nodes_from_batch :
  forall s batch, incl (snd (try_add_nodes s batch)) batch.
Hypothesis refs_from_batch :
  forall s batch, incl (snd (try_add_references s batch)) batch.

Lemma postponed_were_submitted
  (body : list (Batch AddNodesItem AddReferencesItem)) :
  forall self : PostponeReferences Server AddNodesItem AddReferencesItem,
    incl (postponed_nodes (fold_left (run_batch try_add_nodes try_add_references) body self))
         (postponed_nodes self ++ submitted_nodes body)
    /\ incl (postponed_refs (fold_left (run_batch try_add_nodes try_add_references) body self))
            (postponed_refs self ++ submitted_refs body).
Proof.
  induction body as [|b more IH]; intros self; simpl.
  - rewrite !app_nil_r. split; apply incl_refl.
  - destruct (IH (run_batch try_add_nodes try_add_references self b)) as [In Ir].
    destruct b as [nodes|refs]; simpl in *.
    + unfold add_nodes in *.
      pose proof (nodes_from_batch (server self) nodes) as S.
      destruct (try_add_nodes (server self) nodes) as [s' failed]. simpl in *.
      split.
      * intros x Hx. apply In in Hx. rewrite <- app_assoc in Hx.
        apply in_app_or in Hx as [Hx|Hx]; apply in_or_app; [now left | right].
        apply in_app_or in Hx as [Hx|Hx]; apply in_or_app; [left; now apply S | now right].
      * exact Ir.
    + unfold add_references in *.
      pose proof (refs_from_batch (server self) refs) as S.
      destruct (try_add_references (server self) refs) as [s' failed]. simpl in *.
      split.
      * exact In.
      * intros x Hx. apply Ir in Hx. rewrite <- app_assoc in Hx.
        apply in_app_or in Hx as [Hx|Hx]; apply in_or_app; [now left | right].
        apply in_app_or in Hx as [Hx|Hx]; apply in_or_app; [left; now apply S | now right].
Qed.

Lemma fill_address_space_reports
  (nodeservice : Server) (body : list (Batch AddNodesItem AddReferencesItem)) :
  (forall remaining_nodes,
      snd (fill_address_space try_add_nodes try_add_references nodeservice body)
      = Raised (RemainingNodes remaining_nodes) ->
      remaining_nodes <> [] /\ incl remaining_nodes (submitted_nodes body))
  /\ (forall remaining_refs,
        snd (fill_address_space try_add_nodes try_add_references nodeservice body)
        = Raised (RemainingRefs remaining_refs) ->
        remaining_refs <> [] /\ incl remaining_refs (submitted_refs body)).
Proof.
  unfold fill_address_space.
  destruct (postponed_were_submitted body (aenter AddNodesItem AddReferencesItem nodeservice))
    as [In Ir].
  simpl in In, Ir.
  set (self := fold_left (run_batch try_add_nodes try_add_references) body
                 (aenter AddNodesItem AddReferencesItem nodeservice)) in *.
  unfold aexit. simpl.
  pose proof (nodes_from_batch (server self) (postponed_nodes self)) as Sn.
  destruct (try_add_nodes (server self) (postponed_nodes self)) as [s1 rn]. simpl in Sn.
  destruct rn as [|n rn]; simpl.
  - pose proof (refs_from_batch s1 (postponed_refs self)) as Sr.
    destruct (try_add_references s1 (postponed_refs self)) as [s2 rr]. simpl in Sr.
    destruct rr as [|r rr]; simpl.
    + split; intros x H; discriminate.
    + split; intros x H; inversion H; subst.
      split; [discriminate|]. intros y Hy. now apply Ir, Sr.
  - split; intros x H; inversion H; subst.
    split; [discriminate|]. intros y Hy. now apply In, Sn.
Qed.

End PostponedItems.

(** X17. Over a node service that yields only entries of the batch it
    was given, a bulk load that fails names at least one item, and only
    items that the body handed to [add_nodes] (for the message about
    remaining nodes) or to [add_references] (for the message about
    remaining references). *)
Theorem failure_report_names_submitted_items
  (Server AddNodesItem AddReferencesItem : Type)
  (try_add_nodes : Server -> list AddNodesItem -> Server * list AddNodesItem)
  (try_add_references :
     Server -> list AddReferencesItem -> Server * list AddReferencesItem)
  (nodeservice : Server) (body : list (Batch AddNodesItem AddReferencesItem)) :
  (forall s batch, incl (snd (try_add_nodes s batch)) batch) ->
  (forall s batch, incl (snd (try_add_references s batch)) batch) ->
  (forall remaining_nodes,
      snd (fill_address_space try_add_nodes try_add_references nodeservice body)
      = Raised (RemainingNodes remaining_nodes) ->
      remaining_nodes <> [] /\ incl remaining_nodes (submitted_nodes body))
  /\ (forall remaining_refs,
        snd (fill_address_space try_add_nodes try_add_references nodeservice body)
        = Raised (RemainingRefs remaining_refs) ->
        remaining_refs <> [] /\ incl remaining_refs (submitted_refs body)).
Proof.
  intros Hn Hr. now apply fill_address_space_reports.
Qed.

Lemma NodeService_nodes_from_batch (batch : list NodeService.Node) :
  forall s, incl (snd (NodeService.try_add_nodes s batch)) batch.
Proof.
  induction batch as [|n more IH]; intros s; simpl; [apply incl_refl|].
  destruct (match NodeService.parent n with
            | Some p => NodeService.present s p
            | None => true
            end).
  - apply incl_tl, IH.
  - specialize (IH s). destruct (NodeService.try_add_nodes s more) as [s' failed].
    simpl in *. intros x [<-|Hx]; [now left | right; now apply IH].
Qed.

Lemma NodeService_refs_from_batch (batch : list NodeService.Reference) :
  forall s, incl (snd (NodeService.try_add_references s batch)) batch.
Proof.
  induction batch as [|r more IH]; intros s; simpl; [apply incl_refl|].
  destruct (NodeService.present s (NodeService.source_id r)
            && NodeService.present s (NodeService.target_id r)).
  - apply incl_tl, IH.
  - specialize (IH s). destruct (NodeService.try_add_references s more) as [s' failed].
    simpl in *. intros x [<-|Hx]; [now left | right; now apply IH].
Qed.

Lemma failure_report_names_submitted_items_witness :
  snd (bulk_load missing_target_body) = Raised (RemainingRefs [ref_1_2])
  /\ incl [ref_1_2] (submitted_refs missing_target_body).
Proof.
  split; [reflexivity|].
  exact (proj2 (proj2 (failure_report_names_submitted_items
                  NodeService.t NodeService.Node NodeService.Reference
                  NodeService.try_add_nodes NodeService.try_add_references
                  empty_service missing_target_body
                  (fun s batch => NodeService_nodes_from_batch batch s)
                  (fun s batch => NodeService_refs_from_batch batch s))
                [ref_1_2] eq_refl)).
Defined.

(** ** [load_enums] *)

Lemma lookup_str_none_not_key {V : Type} (k : pystr) (d : list (pystr * V)) :
  lookup_str k d = None -> ~ In k (List.map fst d).
Proof.
  induction d as [|[k' v] r IH]; simpl; intros H; [tauto|].
  destruct (pystr_eqb k k') eqn:E; [discriminate|].
  intros [<-|I]; [|now apply IH].
  rewrite pystr_eqb_refl in E. discriminate.
Qed.

Section LoadEnumsFacts.

Variable isalnum : N -> bool.

Lemma load_enums_loop_keeps (children : list (TypeNode EnumDefinition.t)) :
  forall ua,
    (forall n a, lookup_str n (ua_dir ua) = Some a ->
                 lookup_str n (ua_dir (fst (load_enums_loop isalnum ua children))) = Some a)
    /\ (NoDup (List.map fst (ua_dir ua)) ->
        NoDup (List.map fst (ua_dir (fst (load_enums_loop isalnum ua children)))))
    /\ ObjectIdNames (fst (load_enums_loop isalnum ua children)) = ObjectIdNames ua
    /\ extension_objects_by_datatype (fst (load_enums_loop isalnum ua children))
       = extension_objects_by_datatype ua.
Proof.
  induction children as [|c r IH]; intros ua; simpl.
  - repeat split; auto.
  - destruct (hasattr_ua ua (clean_name isalnum (ReferenceDescription.BrowseName (node_desc c))))
      eqn:A; [apply IH|].
    destruct (_read_data_type_definition ua (node_desc c) (node_definition c))
      as [[edef|] reads].
    + set (name := clean_name isalnum (ReferenceDescription.BrowseName (node_desc c))) in *.
      match goal with
      | |- context [load_enums_loop isalnum ?u r] => set (ua1 := u)
      end.
      destruct (IH ua1) as (K & D & O & X).
      destruct (load_enums_loop isalnum ua1 r) as [ua' calls]. simpl in *.
      assert (lookup_str name (ua_dir ua) = None) as L.
      { unfold hasattr_ua in A. destruct (lookup_str name (ua_dir ua)); congruence. }
      repeat split.
      * intros n a H. apply K. unfold ua1. simpl.
        destruct (pystr_eqb n name) eqn:E; [|assumption].
        apply pystr_eqb_eq in E. subst n. congruence.
      * intros ND. apply D. unfold ua1. simpl. constructor; [|assumption].
        now apply lookup_str_none_not_key.
      * exact O.
      * exact X.
    + destruct (IH ua) as (K & D & O & X).
      destruct (load_enums_loop isalnum ua r) as [ua' calls]. simpl in *.
      repeat split; assumption.
Qed.

Lemma load_enums_loop_direct_children (children : list (TypeNode EnumDefinition.t)) :
  forall ua,
    load_enums_loop isalnum ua (List.map without_subtypes children)
    = load_enums_loop isalnum ua children.
Proof.
  induction children as [|c r IH]; intros ua; simpl; [reflexivity|].
  destruct c as [desc definition subtypes]. simpl.
  destruct (hasattr_ua ua (clean_name isalnum (ReferenceDescription.BrowseName desc)));
    [apply IH|].
  destruct (_read_data_type_definition ua desc definition) as [[edef|] reads];
    now rewrite IH.
Qed.

End LoadEnumsFacts.

(** X18. [load_enums] never replaces an attribute of [ua]: a name that
    is an attribute before the load denotes the same thing after it,
    and if the attribute names were distinct they still are, so no enum
    is registered under a name already taken, also not under the name of
    an enum registered earlier in the same load.  The built-in names
    and the registered structures are left as they are. *)
Theorem load_enums_never_overwrites (isalnum : N -> bool) (ua : UaModule)
  (base_node : TypeNode EnumDefinition.t) :
  (forall n a, lookup_str n (ua_dir ua) = Some a ->
               lookup_str n (ua_dir (fst (load_enums isalnum ua base_node))) = Some a)
  /\ (NoDup (List.map fst (ua_dir ua)) ->
      NoDup (List.map fst (ua_dir (fst (load_enums isalnum ua base_node)))))
  /\ ObjectIdNames (fst (load_enums isalnum ua base_node)) = ObjectIdNames ua
  /\ extension_objects_by_datatype (fst (load_enums isalnum ua base_node))
     = extension_objects_by_datatype ua.
Proof.
  unfold load_enums.
  pose proof (load_enums_loop_keeps isalnum (node_subtypes base_node) ua) as H.
  destruct (load_enums_loop isalnum ua (node_subtypes base_node)) as [ua' calls].
  exact H.
Qed.

(** X19. [load_enums] loads the direct subtypes of the base node only:
    what hangs below them is neither read nor registered, so the
    outcome is the same when every child is stripped of its subtypes. *)
Theorem load_enums_reads_direct_children_only (isalnum : N -> bool) (ua : UaModule)
  (desc : ReferenceDescription.t) (definition : ReadResult EnumDefinition.t)
  (children : list (TypeNode EnumDefinition.t)) :
  load_enums isalnum ua (mkTypeNode desc definition (List.map without_subtypes children))
  = load_enums isalnum ua (mkTypeNode desc definition children).
Proof.
  unfold load_enums. simpl.
  now rewrite load_enums_loop_direct_children.
Qed.

(** ** Arrays of [Char], and where a load stops *)

(** X8. A field of value rank one or more whose data type is found
    under the name [Char] is compiled as a list of strings: its entry of
    [ua_types] is tagged [ListOfString] and it is initialized to the
    empty list. *)
Theorem char_array_is_list_of_string (isalnum : N -> bool) (ua : UaModule)
  (data_type : NodeId) (struct_name : pystr) (sdef : StructureDefinition.t)
  (code : StructureCode) (k : nat) (f : StructureField.t) :
  make_structure_code isalnum ua data_type struct_name sdef = Returned code ->
  nth_error (StructureDefinition.Fields sdef) k = Some f ->
  1 <= StructureField.ValueRank f ->
  datatype_name ua (StructureField.DataType f) = Some (str "Char") ->
  nth_error (ua_types code)
    ((if StructureType_eqb (StructureDefinition.StructureType sdef)
                           StructureWithOptionalFields then 1 else 0) + k)
  = Some (clean_name isalnum (StructureField.Name f), str "ListOfString")
  /\ nth_error (init_body code) (List.length (init_preamble sdef) + k)
     = Some (Assign (clean_name isalnum (StructureField.Name f)) (str "[]")).
Proof.
  intros H N R C.
  destruct (make_structure_code_returned isalnum ua _ _ _ _ H)
    as (uatypes & inits & Hu & Hi & _ & Ht & Hb).
  destruct (uatypes_loop_nth ua struct_name _ uatypes k _ Hu N) as (uatype & Ru & Nu).
  destruct (init_loop_nth isalnum ua uatypes inits k _ uatype Hi Nu) as (rhs & Ni & D).
  assert ((StructureField.ValueRank f >=? 1) = true) as G
    by (rewrite Z.geb_leb; now apply Z.leb_le).
  rewrite G in D. subst rhs.
  rewrite resolve_uatype_name, C, G in Ru. simpl in Ru. inversion Ru; subst uatype.
  split.
  - rewrite Ht.
    assert (ua_types_entry isalnum (f, str "String")
            = (clean_name isalnum (StructureField.Name f), str "ListOfString")) as E.
    { unfold ua_types_entry. rewrite G. reflexivity. }
    destruct (StructureType_eqb (StructureDefinition.StructureType sdef)
                                StructureWithOptionalFields).
    + change (1 + k)%nat with (List.length [(str "Encoding", str "Byte")] + k)%nat.
      rewrite nth_error_after, nth_error_map, Nu. cbn [option_map]. now rewrite E.
    + cbn [app Nat.add]. rewrite nth_error_map, Nu. cbn [option_map]. now rewrite E.
  - rewrite Hb, nth_error_after. exact Ni.
Qed.

Lemma char_array_is_list_of_string_witness :
  exists code,
    make_structure_code ascii_isalnum
      (register_extension_object ua_builtin (str "Char") (numeric_id 4000 2))
      (numeric_id 3700 2) (str "Label")
      (StructureDefinition.mk (numeric_id 3701 2) base_data_type_id Structure
         [StructureField.mk (str "Text") (str "Text") (numeric_id 4000 2)
            ValueRank.OneDimension [] false])
    = Returned code
    /\ ua_types code = [(str "Text", str "ListOfString")]
    /\ nth_error (init_body code) 0 = Some (Assign (str "Text") (str "[]")).
Proof.
  pose (ua := register_extension_object ua_builtin (str "Char") (numeric_id 4000 2)).
  pose (f := StructureField.mk (str "Text") (str "Text") (numeric_id 4000 2)
               ValueRank.OneDimension [] false).
  pose (sdef := StructureDefinition.mk (numeric_id 3701 2) base_data_type_id
                  Structure [f]).
  eexists. split; [vm_compute; reflexivity|]. split; [reflexivity|].
  assert (1 <= StructureField.ValueRank f) as R by (vm_compute; discriminate).
  exact (proj2 (char_array_is_list_of_string ascii_isalnum ua
                  (numeric_id 3700 2) (str "Label") sdef _ 0 f
                  eq_refl eq_refl R eq_refl)).
Defined.

Lemma register_loop_app (isalnum : N -> bool) (pre rest : list DataTypeSorter.t) :
  forall ua,
    register_loop isalnum ua (pre ++ rest)
    = (ua1 <- register_loop isalnum ua pre ;; register_loop isalnum ua1 rest).
Proof.
  induction pre as [|d more IH]; intros ua; simpl; [reflexivity|].
  destruct (make_structure_code isalnum ua (DataTypeSorter.data_type d)
              (DataTypeSorter.name d) (DataTypeSorter.sdef d)) as [code|[n st| | |]];
    try reflexivity; apply IH.
Qed.

(** X16. The load stops at the first field it cannot resolve. When the
    descriptors before [d] have been compiled and registered, leaving
    [ua1], and [d], not a union, has a first field [f] whose data type
    is not known to [ua1], the loop raises the error for an unknown data
    type naming [f] and the name of [d]; the descriptors after [d] are
    not tried. *)
Theorem load_stops_at_first_unknown_field (isalnum : N -> bool) (ua ua1 : UaModule)
  (before : list DataTypeSorter.t) (d : DataTypeSorter.t)
  (after : list DataTypeSorter.t)
  (pre : list StructureField.t) (f : StructureField.t) (post : list StructureField.t) :
  register_loop isalnum ua before = Returned ua1 ->
  not_union d = true ->
  StructureDefinition.Fields (DataTypeSorter.sdef d) = pre ++ f :: post ->
  forallb (fun g => known_datatype ua1 (StructureField.DataType g)) pre = true ->
  known_datatype ua1 (StructureField.DataType f) = false ->
  register_loop isalnum ua (before ++ d :: after)
  = Raised (UnknownDatatype f (DataTypeSorter.name d)).
Proof.
  intros B NU E Hpre Hf.
  rewrite register_loop_app, B. simpl.
  assert (make_structure_code isalnum ua1 (DataTypeSorter.data_type d)
            (DataTypeSorter.name d) (DataTypeSorter.sdef d)
          = Raised (UnknownDatatype f (DataTypeSorter.name d))) as M.
  { unfold make_structure_code. unfold not_union in NU.
    destruct (StructureDefinition.StructureType (DataTypeSorter.sdef d));
      try discriminate; simpl; rewrite E;
      now rewrite (uatypes_loop_first_unknown ua1 _ pre f post Hpre Hf). }
  now rewrite M.
Qed.

Lemma load_stops_at_first_unknown_field_witness :
  register_loop ascii_isalnum ua_builtin
    (discovered [Limits_node; Pump_node; Vendor_node])
  = Raised (UnknownDatatype
              (new_struct_field (str "Maker") (numeric_id 3030 2) false false [])
              (str "Pump")).
Proof.
  pose (after_limits :=
          register_extension_object ua_builtin (str "Limits") (numeric_id 3020 2)).
  pose (maker := new_struct_field (str "Maker") (numeric_id 3030 2) false false []).
  pose (pump :=
          DataTypeSorter.init (numeric_id 3010 2) (str "Pump")
            (ReferenceDescription.mk (numeric_id 3010 2) (str "Pump"))
            (StructureDefinition.mk (numeric_id 3011 2) base_data_type_id Structure
               [maker])).
  exact (load_stops_at_first_unknown_field ascii_isalnum ua_builtin after_limits
           (discovered [Limits_node]) pump (discovered [Vendor_node])
           [] maker [] eq_refl eq_refl eq_refl eq_refl eq_refl).
Defined.

(** ** Definitions written by [new_enum] and [new_struct], compiled *)

Lemma new_enum_values_are_positions_witness :
  nth_error [str "Red"; str "Green"; str "Blue"] 2 = Some (str "Blue")
  /\ nth_error
       (enum_members
          (make_enum_code ascii_isalnum (str "Color")
             (new_enum_definition [str "Red"; str "Green"; str "Blue"]))) 2
     = Some (str "Blue", 2).
Proof.
  split; [reflexivity|].
  exact (new_enum_values_are_positions ascii_isalnum (str "Color")
           [str "Red"; str "Green"; str "Blue"] 2 (str "Blue") eq_refl).
Defined.

Lemma new_struct_bitmask_witness :
  existsb StructureField.IsOptional
    [scalar_field (str "Speed") 11;
     new_struct_field (str "Label") (numeric_id 12 0) false true []] = true
  /\ exists code,
       make_structure_code ascii_isalnum ua_builtin (numeric_id 3800 2) (str "Axis")
         (new_struct_definition base_data_type_id (numeric_id 3801 2)
            [scalar_field (str "Speed") 11;
             new_struct_field (str "Label") (numeric_id 12 0) false true []])
       = Returned code
       /\ nth_error (ua_types code) 0 = Some (str "Encoding", str "Byte").
Proof.
  split; [reflexivity|].
  eexists. split; [vm_compute; reflexivity|].
  exact (proj1 (new_struct_bitmask ascii_isalnum ua_builtin (numeric_id 3800 2)
                  base_data_type_id (numeric_id 3801 2) (str "Axis")
                  [scalar_field (str "Speed") 11;
                   new_struct_field (str "Label") (numeric_id 12 0) false true []]
                  _ eq_refl) eq_refl).
Defined.
